(** * TabindexManager: a shallow embedding of [tabindex-fix.js]

    The live document is an arena of elements listed in document order;
    an element is identified by its position in the arena, which is what
    the source compares with [===].  Attributes are a finite map from
    names to values, the class list is kept as the list of its tokens,
    the computed style is the record of the seven properties that
    [isVisuallyHidden] reads, and the parent link is what
    [element.parentElement] returns.  Strings are sequences of code units
    below 256.

    The methods of the class are functions on the document where they
    only read or write attributes, and on the page (document, focused
    element, closures, listeners, timers, observers) where they register
    something.  A closure is named by what it is and recorded when it is
    registered.  The key handlers of the focus trap, of a wizard step,
    of an open dropdown and of a tooltip trigger, and the callbacks of
    the mutation observers, are given as functions as well, to be run on
    the page of one's choice.  [console] output is left out and a timer
    is recorded and never fired: every statement below is about the
    state at the return of a call or of a run of a handler. *)

From Stdlib Require Import ZArith Ascii String List Bool Lia.
From stdpp Require Import base option list gmap strings sorting.

Local Open Scope string_scope.
Local Open Scope Z_scope.
Local Open Scope nat_scope.

(** ** The document *)

Record computedStyle := ComputedStyle {
  display : string;
  visibility : string;
  opacity : string;
  position : string;
  width : string;
  height : string;
  overflow : string
}.

(** What [getComputedStyle] reports for an element that is not rendered:
    every property reads as the empty string. *)
Definition emptyStyle : computedStyle :=
  ComputedStyle "" "" "" "" "" "" "".

Record element := Element {
  tagName : string;
  attrs : gmap string string;
  classList : list string;
  style : computedStyle;
  parent : option nat
}.

Abbreviation document := (list element).

Definition withAttrs (f : gmap string string -> gmap string string)
    (e : element) : element :=
  Element (tagName e) (f (attrs e)) (classList e) (style e) (parent e).

Definition getAttribute (d : document) (el : nat) (name : string)
    : option string :=
  match d !! el with
  | Some e => attrs e !! name
  | None => None
  end.

Definition hasAttribute (d : document) (el : nat) (name : string) : bool :=
  match getAttribute d el name with
  | Some _ => true
  | None => false
  end.

Definition setAttribute (d : document) (el : nat) (name value : string)
    : document :=
  alter (withAttrs (fun m => <[name := value]> m)) el d.

Definition removeAttribute (d : document) (el : nat) (name : string)
    : document :=
  alter (withAttrs (fun m => delete name m)) el d.

Definition parentElement (d : document) (el : nat) : option nat :=
  match d !! el with
  | Some e => parent e
  | None => None
  end.

Definition getComputedStyle (d : document) (el : nat) : computedStyle :=
  match d !! el with
  | Some e => style e
  | None => emptyStyle
  end.

(** The chain [parentElement], [parentElement.parentElement], ...; the
    fuel is the size of the arena, which bounds the depth of any tree
    stored in it. *)
Fixpoint ancestorsFrom (fuel : nat) (d : document) (p : option nat)
    : list nat :=
  match fuel, p with
  | S f, Some a => a :: ancestorsFrom f d (parentElement d a)
  | _, _ => []
  end.

Definition ancestors (d : document) (el : nat) : list nat :=
  ancestorsFrom (length d) d (parentElement d el).

Definition isDescendant (d : document) (container el : nat) : bool :=
  bool_decide (container ∈ ancestors d el).

(** In a document the parent of a node precedes it. *)
Definition wf_document (d : document) : Prop :=
  forall i e p, d !! i = Some e -> parent e = Some p -> p < i.

(** ** [parseInt(s, 10)]

    Leading white space is skipped, a sign is read, then the longest run
    of decimal digits; the result is NaN when there is no digit.  The
    value is exact here and a double in the source: the two agree in
    sign always, and in value below 2^53. *)

Definition isWhiteSpace (c : ascii) : bool :=
  let n := nat_of_ascii c in
  (n =? 9) || (n =? 10) || (n =? 11) || (n =? 12) || (n =? 13)
  || (n =? 32) || (n =? 160).

Fixpoint skipWhiteSpace (s : string) : string :=
  match s with
  | String c r => if isWhiteSpace c then skipWhiteSpace r else s
  | EmptyString => s
  end.

Definition digitValue (c : ascii) : option Z :=
  let n := nat_of_ascii c in
  if (48 <=? n) && (n <=? 57) then Some (Z.of_nat (n - 48)) else None.

(** The longest prefix of decimal digits; [None] is NaN (no digit). *)
Fixpoint parseDigits (s : string) (acc : option Z) : option Z :=
  match s with
  | String c r =>
      match digitValue c with
      | Some v => parseDigits r (Some (10 * default 0%Z acc + v)%Z)
      | None => acc
      end
  | EmptyString => acc
  end.

Definition parseInt (s : string) : option Z :=
  match skipWhiteSpace s with
  | String "-" r => Z.opp <$> parseDigits r None
  | String "+" r => parseDigits r None
  | r => parseDigits r None
  end.

(** [n > 0] and [n >= 0] on a number that may be NaN. *)
Definition gt0 (n : option Z) : bool :=
  match n with Some z => (0 <? z)%Z | None => false end.

Definition ge0 (n : option Z) : bool :=
  match n with Some z => (0 <=? z)%Z | None => false end.

(** ** Selectors *)

Inductive simpleSelector :=
  | STag (t : string)                 (* div *)
  | SHasAttr (a : string)             (* [tabindex] *)
  | SAttrEq (a v : string)            (* [role="button"] *)
  | SClass (c : string)               (* .modal *)
  | SNotHasAttr (a : string).         (* :not([disabled]) *)

Inductive selector :=
  | Compound (c : list simpleSelector)              (* a[href] *)
  | Descendant (a c : list simpleSelector)          (* details summary *)
  | Child (p c : list simpleSelector).              (* .has-dropdown > a *)

Definition matchesSimple (d : document) (el : nat) (s : simpleSelector)
    : bool :=
  match s with
  | STag t =>
      match d !! el with
      | Some e => bool_decide (tagName e = t)
      | None => false
      end
  | SHasAttr a => hasAttribute d el a
  | SAttrEq a v => bool_decide (getAttribute d el a = Some v)
  | SClass c =>
      match d !! el with
      | Some e => bool_decide (c ∈ classList e)
      | None => false
      end
  | SNotHasAttr a => negb (hasAttribute d el a)
  end.

Definition matchesCompound (d : document) (el : nat)
    (c : list simpleSelector) : bool :=
  forallb (matchesSimple d el) c.

Definition matchesOne (d : document) (el : nat) (sel : selector) : bool :=
  match sel with
  | Compound c => matchesCompound d el c
  | Descendant a c =>
      matchesCompound d el c
      && existsb (fun x => matchesCompound d x a) (ancestors d el)
  | Child p c =>
      matchesCompound d el c
      && match parentElement d el with
         | Some x => matchesCompound d x p
         | None => false
         end
  end.

(** [element.matches(sels.join(','))] *)
Definition matches (d : document) (el : nat) (sels : list selector) : bool :=
  existsb (matchesOne d el) sels.

(** [container.querySelectorAll(sels.join(','))]: the descendants of the
    container that match, in document order. *)
Definition querySelectorAll (d : document) (container : nat)
    (sels : list selector) : list nat :=
  filter (fun i => isDescendant d container i && matches d i sels = true)
         (seq 0 (length d)).

Definition querySelector (d : document) (container : nat)
    (sels : list selector) : option nat :=
  head (querySelectorAll d container sels).

(** [document.querySelector(sels)] *)
Definition document_querySelector (d : document) (sels : list selector)
    : option nat :=
  head (filter (fun i => matches d i sels = true) (seq 0 (length d))).

(** [list.forEach(f)] with the document threaded through the calls. *)
Definition forEach {S : Type} (l : list nat) (f : nat -> S -> S) (s : S) : S :=
  fold_left (fun acc el => f el acc) l s.

(** ** The manager *)

Record TabindexManager := {
  container : list selector;
  fixNegativeTabindex : bool;
  fixHighTabindex : bool;
  ensureInteractiveElements : bool;
  enableMutationObserver : bool;
  enableDynamicContentSupport : bool;
  focusFirstElementInDynamicContent : bool;
  returnFocusOnDynamicContentClose : bool;
  supportWizardNavigation : bool;
  handleTooltipsAndDropdowns : bool;
  interactiveSelectors : list selector;
  nonInteractiveWithTabindex : list selector
}.

(** The [options] object of the constructor; an absent key is [None]. *)
Record managerOptions := {
  o_container : option (list selector);
  o_fixNegativeTabindex : option bool;
  o_fixHighTabindex : option bool;
  o_ensureInteractiveElements : option bool;
  o_enableMutationObserver : option bool;
  o_enableDynamicContentSupport : option bool;
  o_focusFirstElementInDynamicContent : option bool;
  o_returnFocusOnDynamicContentClose : option bool;
  o_supportWizardNavigation : option bool;
  o_handleTooltipsAndDropdowns : option bool
}.

Definition noOptions : managerOptions :=
  Build_managerOptions None None None None None None None None None None.

(** [x !== false] *)
Definition notFalse (x : option bool) : bool :=
  match x with Some false => false | _ => true end.

Definition role (r : string) : selector := Compound [SAttrEq "role" r].
Definition enabled (t : string) : selector :=
  Compound [STag t; SNotHasAttr "disabled"].
Definition class (c : string) : selector := Compound [SClass c].
Definition withTabindex (t : string) : selector :=
  Compound [STag t; SHasAttr "tabindex"].

Definition defaultInteractiveSelectors : list selector :=
  [ Compound [STag "a"; SHasAttr "href"];
    enabled "button"; enabled "input"; enabled "select"; enabled "textarea";
    role "button"; role "checkbox"; role "link"; role "menuitem";
    role "option"; role "radio"; role "switch"; role "tab";
    Compound [SAttrEq "contenteditable" "true"];
    role "dialog"; role "alertdialog"; role "tooltip"; role "navigation";
    role "menu"; role "tablist"; role "combobox"; role "listbox";
    role "tree"; role "grid";
    Descendant [STag "details"] [STag "summary"];
    class "dropdown-toggle"; class "accordion-header";
    class "carousel-control" ].

Definition defaultNonInteractiveWithTabindex : list selector :=
  [ withTabindex "div"; withTabindex "span"; withTabindex "p";
    withTabindex "h1"; withTabindex "h2"; withTabindex "h3";
    withTabindex "h4"; withTabindex "h5"; withTabindex "h6" ].

Definition new_TabindexManager (options : managerOptions) : TabindexManager :=
  {| container := default [Compound [STag "body"]] (o_container options);
     fixNegativeTabindex := notFalse (o_fixNegativeTabindex options);
     fixHighTabindex := notFalse (o_fixHighTabindex options);
     ensureInteractiveElements :=
       notFalse (o_ensureInteractiveElements options);
     enableMutationObserver := notFalse (o_enableMutationObserver options);
     enableDynamicContentSupport :=
       notFalse (o_enableDynamicContentSupport options);
     focusFirstElementInDynamicContent :=
       notFalse (o_focusFirstElementInDynamicContent options);
     returnFocusOnDynamicContentClose :=
       notFalse (o_returnFocusOnDynamicContentClose options);
     supportWizardNavigation := notFalse (o_supportWizardNavigation options);
     handleTooltipsAndDropdowns :=
       notFalse (o_handleTooltipsAndDropdowns options);
     interactiveSelectors := defaultInteractiveSelectors;
     nonInteractiveWithTabindex := defaultNonInteractiveWithTabindex |}.

(** ** Visibility *)

Definition isVisuallyHidden (d : document) (el : nat) : bool :=
  let style := getComputedStyle d el in
  String.eqb (display style) "none"
  || String.eqb (visibility style) "hidden"
  || String.eqb (opacity style) "0"
  || (String.eqb (position style) "absolute"
      && (String.eqb (width style) "1px" || String.eqb (height style) "1px")
      && String.eqb (overflow style) "hidden").

Definition ariaHidden (d : document) (el : nat) : bool :=
  bool_decide (getAttribute d el "aria-hidden" = Some "true").

(** The [while (parent)] loop of [hasHiddenParent]. *)
Fixpoint hasHiddenParent_loop (fuel : nat) (d : document) (p : option nat)
    : bool :=
  match fuel, p with
  | S f, Some a =>
      if isVisuallyHidden d a || ariaHidden d a then true
      else hasHiddenParent_loop f d (parentElement d a)
  | _, _ => false
  end.

Definition hasHiddenParent (d : document) (el : nat) : bool :=
  hasHiddenParent_loop (length d) d (parentElement d el).

Definition shouldBeRemovedFromTabOrder (d : document) (el : nat) : bool :=
  if isVisuallyHidden d el || hasHiddenParent d el then true
  else if ariaHidden d el then true
  else false.

Definition isInteractiveElement (this : TabindexManager) (d : document)
    (el : nat) : bool :=
  existsb (fun sel => matchesOne d el sel) (interactiveSelectors this).

Definition hasKeyboardEventListeners (d : document) (el : nat) : bool :=
  hasAttribute d el "onkeydown"
  || hasAttribute d el "onkeyup"
  || hasAttribute d el "onkeypress".

(** ** The passes of the normaliser *)

Definition tabindexOf (d : document) (el : nat) : option Z :=
  match getAttribute d el "tabindex" with
  | Some s => parseInt s
  | None => None        (* parseInt(null, 10) is NaN *)
  end.

Definition fixNegativeTabindexValues (this : TabindexManager)
    (d : document) (container : nat) : document :=
  let elements :=
    querySelectorAll d container [Compound [SAttrEq "tabindex" "-1"]] in
  forEach elements (fun element d =>
    if isInteractiveElement this d element
       && negb (shouldBeRemovedFromTabOrder d element)
    then setAttribute d element "tabindex" "0"
    else d) d.

Definition fixHighTabindexValues (d : document) (container : nat)
    : document :=
  let elements := querySelectorAll d container [Compound [SHasAttr "tabindex"]] in
  forEach elements (fun element d =>
    let tabindex := tabindexOf d element in
    if gt0 tabindex then setAttribute d element "tabindex" "0" else d) d.

Definition makeInteractiveElementsTabbable (this : TabindexManager)
    (d : document) (container : nat) : document :=
  let elements := querySelectorAll d container (interactiveSelectors this) in
  forEach elements (fun element d =>
    if isVisuallyHidden d element || hasHiddenParent d element then d
    else if negb (hasAttribute d element "tabindex")
    then setAttribute d element "tabindex" "0"
    else d) d.

Definition validateNonInteractiveElements (this : TabindexManager)
    (d : document) (container : nat) : document :=
  let elements :=
    querySelectorAll d container (nonInteractiveWithTabindex this) in
  forEach elements (fun element d =>
    let tabindex := tabindexOf d element in
    if ge0 tabindex && negb (hasAttribute d element "role") then
      let hasKeyboardEvents := hasKeyboardEventListeners d element in
      if negb hasKeyboardEvents then removeAttribute d element "tabindex"
      else d
    else d) d.

(** ** The audit *)

Record tabEntry := { entryElement : nat; entryTabindex : Z }.

(** The comparator passed to [sort]. *)
Definition compareEntries (a b : tabEntry) : Z :=
  if (0 <? entryTabindex a)%Z && (0 <? entryTabindex b)%Z
  then (entryTabindex a - entryTabindex b)%Z
  else if (0 <? entryTabindex a)%Z then (-1)%Z
  else if (0 <? entryTabindex b)%Z then 1%Z
  else 0%Z.

(** [Array.prototype.sort] is stable: of two entries that compare equal
    the one that came first stays first.  [compareEntries] orders the
    entries consistently, so the sorted array is the one a stable
    insertion gives. *)
Fixpoint sortInsert (cmp : tabEntry -> tabEntry -> Z) (x : tabEntry)
    (l : list tabEntry) : list tabEntry :=
  match l with
  | y :: r => if (cmp x y <=? 0)%Z then x :: l else y :: sortInsert cmp x r
  | [] => [x]
  end.

Definition Array_sort (cmp : tabEntry -> tabEntry -> Z) (l : list tabEntry)
    : list tabEntry :=
  fold_right (sortInsert cmp) [] l.

(** The array [analyzeTabOrder] logs; the document is not changed. *)
Definition analyzeTabOrder (this : TabindexManager) (d : document)
    (container : nat) : list tabEntry :=
  let elementsWithTabindex :=
    querySelectorAll d container [Compound [SHasAttr "tabindex"]] in
  let tabbableElements :=
    forEach elementsWithTabindex (fun element acc =>
      match tabindexOf d element with
      | Some tabindex =>
          if (0 <=? tabindex)%Z && negb (shouldBeRemovedFromTabOrder d element)
          then (acc ++ [Build_tabEntry element tabindex])%list
          else acc
      | None => acc
      end) [] in
  let naturallyTabbable :=
    querySelectorAll d container (interactiveSelectors this) in
  let tabbableElements :=
    forEach naturallyTabbable (fun element acc =>
      if negb (hasAttribute d element "tabindex")
         && negb (shouldBeRemovedFromTabOrder d element)
      then (acc ++ [Build_tabEntry element 0%Z])%list
      else acc) tabbableElements in
  Array_sort compareEntries tabbableElements.

(** [findTabbableElements]: a missing or empty attribute reads as "0". *)
Definition findTabbableElements (this : TabindexManager) (d : document)
    (container : nat) : list nat :=
  filter (fun element =>
    let tabindex :=
      parseInt (match getAttribute d element "tabindex" with
                | Some s => if String.eqb s "" then "0" else s
                | None => "0"
                end) in
    ge0 tabindex && negb (shouldBeRemovedFromTabOrder d element) = true)
    (querySelectorAll d container (interactiveSelectors this)).

(** ** The page: document, focus, closures, listeners, timers *)

(** The variables a call of [setupFocusTrap] closes over.  [tabbableElements]
    is declared with [let], [firstTabbable] and [lastTabbable] with
    [const]. *)
Record trapEnv := {
  modalElement : nat;
  returnFocusOnClose : bool;
  previouslyFocusedElement : option nat;
  tabbableElements : list nat;
  firstTabbable : nat;
  lastTabbable : nat
}.

(** The object [setupFocusTrap] returns: the pair of empty arrow functions
    for an absent region, or the two closures of a session. *)
Inductive trapHandle :=
  | NoopHandle
  | TrapHandle (session : nat).

(** The functions the code registers as listeners; the number of a
    [TrapKeyDown] is the session whose [handleKeyDown] it is. *)
Inductive handler :=
  | TrapKeyDown (session : nat)
  | TooltipKeyDown (trigger : nat)
  | DropdownKeyDown (trigger : nat)
  | WizardNextClick (wizard button : nat)
  | WizardStepKeyDown (wizard step : nat)
  | DynamicContentLoaded.

#[global] Instance handler_eq_dec : EqDecision handler.
Proof. solve_decision. Defined.

(** [target] is [None] for a listener on [document]. *)
Record listener := {
  target : option nat;
  eventType : string;
  callback : handler
}.

#[global] Instance listener_eq_dec : EqDecision listener.
Proof. solve_decision. Defined.

Inductive observer :=
  | ContainerObserver (container : nat)
  | DialogObserver (dialog : nat).

(** [setTimeout(() => el.focus(), ms)] *)
Inductive timer :=
  | FocusLater (el : nat) (ms : nat).

Record page := {
  dom : document;
  activeElement : option nat;
  sessions : list trapEnv;
  listeners : list listener;
  timers : list timer;
  observers : list observer;
  removeFocusTrap : gmap nat trapHandle;   (* element._removeFocusTrap *)
  xhrWrapped : nat                         (* wrappers around XHR open/send *)
}.

Definition withDom (f : document -> document) (s : page) : page :=
  {| dom := f (dom s); activeElement := activeElement s;
     sessions := sessions s; listeners := listeners s; timers := timers s;
     observers := observers s; removeFocusTrap := removeFocusTrap s;
     xhrWrapped := xhrWrapped s |}.

Definition addEventListener (tgt : option nat) (type : string) (h : handler)
    (s : page) : page :=
  {| dom := dom s; activeElement := activeElement s;
     sessions := sessions s;
     listeners := listeners s ++ [Build_listener tgt type h];
     timers := timers s; observers := observers s;
     removeFocusTrap := removeFocusTrap s; xhrWrapped := xhrWrapped s |}.

Definition removeEventListener (tgt : option nat) (type : string)
    (h : handler) (s : page) : page :=
  {| dom := dom s; activeElement := activeElement s;
     sessions := sessions s;
     listeners :=
       filter (fun l => l <> Build_listener tgt type h) (listeners s);
     timers := timers s; observers := observers s;
     removeFocusTrap := removeFocusTrap s; xhrWrapped := xhrWrapped s |}.

Definition setTimeout (t : timer) (s : page) : page :=
  {| dom := dom s; activeElement := activeElement s;
     sessions := sessions s; listeners := listeners s;
     timers := timers s ++ [t]; observers := observers s;
     removeFocusTrap := removeFocusTrap s; xhrWrapped := xhrWrapped s |}.

Definition observe (o : observer) (s : page) : page :=
  {| dom := dom s; activeElement := activeElement s;
     sessions := sessions s; listeners := listeners s; timers := timers s;
     observers := observers s ++ [o];
     removeFocusTrap := removeFocusTrap s; xhrWrapped := xhrWrapped s |}.

Definition newSession (env : trapEnv) (s : page) : page :=
  {| dom := dom s; activeElement := activeElement s;
     sessions := sessions s ++ [env]; listeners := listeners s;
     timers := timers s; observers := observers s;
     removeFocusTrap := removeFocusTrap s; xhrWrapped := xhrWrapped s |}.

Definition setSession (id : nat) (env : trapEnv) (s : page) : page :=
  {| dom := dom s; activeElement := activeElement s;
     sessions := <[id := env]> (sessions s); listeners := listeners s;
     timers := timers s; observers := observers s;
     removeFocusTrap := removeFocusTrap s; xhrWrapped := xhrWrapped s |}.

Definition storeRemoveFocusTrap (el : nat) (h : trapHandle) (s : page)
    : page :=
  {| dom := dom s; activeElement := activeElement s;
     sessions := sessions s; listeners := listeners s; timers := timers s;
     observers := observers s;
     removeFocusTrap := <[el := h]> (removeFocusTrap s);
     xhrWrapped := xhrWrapped s |}.

Definition wrapXhr (s : page) : page :=
  {| dom := dom s; activeElement := activeElement s;
     sessions := sessions s; listeners := listeners s; timers := timers s;
     observers := observers s; removeFocusTrap := removeFocusTrap s;
     xhrWrapped := S (xhrWrapped s) |}.

(** A page on which no script has run yet. *)
Definition freshPage (d : document) (focus : option nat) : page :=
  {| dom := d; activeElement := focus; sessions := []; listeners := [];
     timers := []; observers := []; removeFocusTrap := ∅; xhrWrapped := 0 |}.

(** ** Errors *)

Inductive exn :=
  | TypeError (message : string).

(** How a call ends: normally with a value, or by throwing; either way
    the page is as the call left it. *)
Inductive completion (A : Type) :=
  | Normal (v : A) (s : page)
  | Abrupt (e : exn) (s : page).
Arguments Normal {A} v s.
Arguments Abrupt {A} e s.

(** ** The focus trap *)

Record trapOptions := {
  t_returnFocusOnClose : option bool;
  t_triggerElement : option nat
}.

Definition noTrapOptions : trapOptions := Build_trapOptions None None.

Definition setupFocusTrap (this : TabindexManager)
    (modalElement : option nat) (options : trapOptions) (s : page)
    : trapHandle * page :=
  match modalElement with
  | None => (NoopHandle, s)
  | Some modalElement =>
      let returnFocusOnClose := notFalse (t_returnFocusOnClose options) in
      let triggerElement :=
        match t_triggerElement options with
        | Some t => Some t
        | None => activeElement s
        end in
      let previouslyFocusedElement := triggerElement in
      let tabbableElements := findTabbableElements this (dom s) modalElement in
      let '(s, tabbableElements) :=
        if length tabbableElements =? 0
        then (withDom (fun d => setAttribute d modalElement "tabindex" "0") s,
              [modalElement])
        else (s, tabbableElements) in
      (* the array is not empty here *)
      let firstTabbable := default modalElement (head tabbableElements) in
      let lastTabbable := default modalElement (last tabbableElements) in
      let s := setTimeout (FocusLater firstTabbable 50) s in
      let session := length (sessions s) in
      let s :=
        newSession
          (Build_trapEnv modalElement returnFocusOnClose
             previouslyFocusedElement tabbableElements firstTabbable
             lastTabbable) s in
      let s :=
        addEventListener (Some modalElement) "keydown" (TrapKeyDown session) s in
      (TrapHandle session, s)
  end.

Record keyEvent := { key : string; shiftKey : bool }.

(** What a run of [handleKeyDown] does: whether it called
    [event.preventDefault()], and the elements on which it called
    [focus()] and [click()], in order. *)
Record keyOutcome := {
  defaultPrevented : bool;
  focusCalls : list nat;
  clickCalls : list nat
}.

Definition closeButtonSelectors : list selector :=
  [ Compound [SAttrEq "aria-label" "Close"]; class "close"; class "btn-close" ].

Definition handleKeyDown (env : trapEnv) (event : keyEvent) (s : page)
    : keyOutcome :=
  let '(prevented, focused) :=
    if String.eqb (key event) "Tab" then
      if shiftKey event then
        if bool_decide (activeElement s = Some (firstTabbable env))
        then (true, [lastTabbable env])
        else (false, [])
      else
        if bool_decide (activeElement s = Some (lastTabbable env))
        then (true, [firstTabbable env])
        else (false, [])
    else (false, []) in
  let clicked :=
    if String.eqb (key event) "Escape" then
      if hasAttribute (dom s) (modalElement env) "aria-modal"
         || bool_decide
              (getAttribute (dom s) (modalElement env) "role" = Some "dialog")
      then
        match querySelector (dom s) (modalElement env) closeButtonSelectors with
        | Some closeButton => [closeButton]
        | None => []
        end
      else []
    else [] in
  Build_keyOutcome prevented focused clicked.

(** The handle's [updateTabbableElements]. *)
Definition updateTabbableElements (this : TabindexManager) (h : trapHandle)
    (s : page) : completion unit :=
  match h with
  | NoopHandle => Normal tt s
  | TrapHandle session =>
      match sessions s !! session with
      | Some env =>
          let updatedElements :=
            findTabbableElements this (dom s) (modalElement env) in
          if 0 <? length updatedElements then
            (* tabbableElements = updatedElements *)
            let s :=
              setSession session
                (Build_trapEnv (modalElement env) (returnFocusOnClose env)
                   (previouslyFocusedElement env) updatedElements
                   (firstTabbable env) (lastTabbable env)) s in
            (* firstTabbable = tabbableElements[0], on a const binding *)
            Abrupt (TypeError "Assignment to constant variable.") s
          else Normal tt s
      | None => Normal tt s
      end
  end.

(** The handle's [remove]. *)
Definition remove (h : trapHandle) (s : page) : page :=
  match h with
  | NoopHandle => s
  | TrapHandle session =>
      match sessions s !! session with
      | Some env =>
          let s :=
            removeEventListener (Some (modalElement env)) "keydown"
              (TrapKeyDown session) s in
          match previouslyFocusedElement env with
          | Some previous =>
              if returnFocusOnClose env
              then setTimeout (FocusLater previous 50) s
              else s
          | None => s
          end
      | None => s
      end
  end.

Definition isTrapKeyDown (h : handler) : bool :=
  match h with TrapKeyDown _ => true | _ => false end.

(** The key intercepts installed on a region. *)
Definition keyIntercepts (s : page) (region : nat) : list listener :=
  filter (fun l => target l = Some region /\ eventType l = "keydown"
                   /\ isTrapKeyDown (callback l) = true) (listeners s).

(** ** Dynamic content *)

Definition dialogSelectors : list selector :=
  [ role "dialog"; role "alertdialog";
    Compound [SClass "modal"; SAttrEq "aria-modal" "true"];
    Compound [SClass "dialog"; SAttrEq "aria-modal" "true"] ].

Definition detectAndHandleDialogs (this : TabindexManager) (container : nat)
    (s : page) : page :=
  let dialogs := querySelectorAll (dom s) container dialogSelectors in
  forEach dialogs (fun dialog s =>
    if negb (isVisuallyHidden (dom s) dialog)
       && negb (hasAttribute (dom s) dialog "data-focus-trap-active")
    then
      let s :=
        withDom (fun d => setAttribute d dialog "data-focus-trap-active" "true")
          s in
      let '(focusTrap, s) :=
        setupFocusTrap this (Some dialog)
          (Build_trapOptions (Some (returnFocusOnDynamicContentClose this))
             None) s in
      let s := storeRemoveFocusTrap dialog focusTrap s in
      observe (DialogObserver dialog) s
    else s) s.

(** The four passes that [fix] and [processDynamicContent] share. *)
Definition normalise (this : TabindexManager) (d : document)
    (container : nat) : document :=
  let d :=
    if fixNegativeTabindex this
    then fixNegativeTabindexValues this d container else d in
  let d :=
    if fixHighTabindex this then fixHighTabindexValues d container else d in
  let d :=
    if ensureInteractiveElements this
    then makeInteractiveElementsTabbable this d container else d in
  validateNonInteractiveElements this d container.

Definition processDynamicContent (this : TabindexManager) (container : nat)
    (s : page) : page :=
  let s := withDom (fun d => normalise this d container) s in
  detectAndHandleDialogs this container s.

Definition setupMutationObserver (container : nat) (s : page) : page :=
  observe (ContainerObserver container) s.

Definition dynamicContentEvents : list string :=
  [ "ajaxComplete"; "ajax:success"; "htmx:afterSwap"; "load-complete";
    "content-update"; "dialog:opened"; "modal:opened";
    "pagination-complete" ].

Definition setupDynamicContentHandlers (s : page) : page :=
  let s :=
    fold_left (fun s eventName =>
      addEventListener None eventName DynamicContentLoaded s)
      dynamicContentEvents s in
  wrapXhr s.

Definition wizardSelectors : list selector :=
  [ class "wizard"; class "stepper"; role "tablist";
    class "multi-step-form"; class "form-wizard"; class "step-progress" ].

Definition stepSelectors : list selector :=
  [ class "step"; class "wizard-step"; class "form-step"; role "tab";
    class "step-indicator" ].

Definition nextButtonSelectors : list selector :=
  [ class "next-step"; class "btn-next";
    Compound [SAttrEq "data-action" "next"]; class "wizard-next" ].

Definition setupWizardNavigationSupport (container : nat) (s : page) : page :=
  let wizards := querySelectorAll (dom s) container wizardSelectors in
  forEach wizards (fun wizard s =>
    let steps := querySelectorAll (dom s) wizard stepSelectors in
    let nextButtons := querySelectorAll (dom s) wizard nextButtonSelectors in
    let s :=
      forEach nextButtons (fun button s =>
        addEventListener (Some button) "click" (WizardNextClick wizard button) s)
        s in
    forEach steps (fun step s =>
      addEventListener (Some step) "keydown" (WizardStepKeyDown wizard step) s)
      s) s.

Definition tooltipTriggerSelectors : list selector :=
  [ Compound [SHasAttr "data-tooltip"];
    Compound [SAttrEq "data-toggle" "tooltip"];
    Compound [SHasAttr "aria-describedby"];
    role "tooltip"; class "tooltip-trigger" ].

Definition dropdownTriggerSelectors : list selector :=
  [ class "dropdown-toggle";
    Compound [SAttrEq "data-toggle" "dropdown"];
    Compound [SAttrEq "aria-haspopup" "true"];
    Child [SClass "has-dropdown"] [STag "a"] ].

(** One trigger of [setupTooltipAndDropdownHandlers]: make it tabbable,
    and bind the key handler unless the marker says it is bound. *)
Definition handleTrigger (marker : string) (h : nat -> handler)
    (trigger : nat) (s : page) : page :=
  let s :=
    if negb (hasAttribute (dom s) trigger "tabindex")
    then withDom (fun d => setAttribute d trigger "tabindex" "0") s
    else s in
  if negb (hasAttribute (dom s) trigger marker)
  then
    let s := withDom (fun d => setAttribute d trigger marker "true") s in
    addEventListener (Some trigger) "keydown" (h trigger) s
  else s.

Definition setupTooltipAndDropdownHandlers (container : nat) (s : page)
    : page :=
  let tooltipTriggers :=
    querySelectorAll (dom s) container tooltipTriggerSelectors in
  let s :=
    forEach tooltipTriggers
      (handleTrigger "data-tooltip-keyboard-handled" TooltipKeyDown) s in
  let dropdownTriggers :=
    querySelectorAll (dom s) container dropdownTriggerSelectors in
  forEach dropdownTriggers
    (handleTrigger "data-dropdown-keyboard-handled" DropdownKeyDown) s.

(** ** [fix] (a reserved word here, hence [fix_]) *)

Definition fix_ (this : TabindexManager) (s : page) : page :=
  match document_querySelector (dom s) (container this) with
  | None => s                       (* console.error, return *)
  | Some container =>
      let s := withDom (fun d => normalise this d container) s in
      (* analyzeTabOrder only logs its array *)
      let s :=
        if enableMutationObserver this
        then setupMutationObserver container s else s in
      let s :=
        if enableDynamicContentSupport this
        then setupDynamicContentHandlers s else s in
      let s :=
        if supportWizardNavigation this
        then setupWizardNavigationSupport container s else s in
      if handleTooltipsAndDropdowns this
      then setupTooltipAndDropdownHandlers container s else s
  end.

(** ** The tests at the boundary: a node that may be absent

    [isVisuallyHidden] and [hasHiddenParent] take an [Element]; the value
    a caller holds may be [null].  [window.getComputedStyle(null)] and
    [null.parentElement] throw a [TypeError]. *)
Inductive result (A : Type) :=
  | Returns (v : A)
  | Throws (e : exn).
Arguments Returns {A} v.
Arguments Throws {A} e.

Definition window_getComputedStyle (d : document) (element : option nat)
    : result computedStyle :=
  match element with
  | Some el => Returns (getComputedStyle d el)
  | None =>
      Throws (TypeError "parameter 1 is not of type 'Element'.")
  end.

Definition isVisuallyHidden_of (d : document) (element : option nat)
    : result bool :=
  match window_getComputedStyle d element with
  | Returns style =>
      Returns
        (String.eqb (display style) "none"
         || String.eqb (visibility style) "hidden"
         || String.eqb (opacity style) "0"
         || (String.eqb (position style) "absolute"
             && (String.eqb (width style) "1px"
                 || String.eqb (height style) "1px")
             && String.eqb (overflow style) "hidden"))
  | Throws e => Throws e
  end.

Definition hasHiddenParent_of (d : document) (element : option nat)
    : result bool :=
  match element with
  | Some el => Returns (hasHiddenParent d el)
  | None =>
      Throws (TypeError "Cannot read properties of null (reading 'parentElement')")
  end.

(** ** Arrays of elements

    [Array.from(nodes).indexOf(x)] is the first position of [x], or -1;
    [nodes[i]] is [undefined] outside the array. *)

Fixpoint indexOfFrom (i : Z) (l : list nat) (x : nat) : Z :=
  match l with
  | y :: r => if bool_decide (y = x) then i else indexOfFrom (i + 1) r x
  | [] => (-1)%Z
  end.

Definition indexOf (l : list nat) (x : option nat) : Z :=
  match x with
  | Some x => indexOfFrom 0 l x
  | None => (-1)%Z       (* null is in no array of elements *)
  end.

Definition item (l : list nat) (i : Z) : option nat :=
  if (i <? 0)%Z then None else l !! Z.to_nat i.

Definition classList_contains (d : document) (el : nat) (c : string) : bool :=
  match d !! el with
  | Some e => bool_decide (c ∈ classList e)
  | None => false
  end.

(** ** The key handler of a wizard step

    The listener that [setupWizardNavigationSupport] binds to [step];
    [steps] is the node list the set-up collected. *)
Definition wizardStepKeyDown (steps : list nat) (step : nat)
    (event : keyEvent) (s : page) : keyOutcome :=
  if String.eqb (key event) "ArrowRight" || String.eqb (key event) "ArrowLeft"
  then
    let direction :=
      if String.eqb (key event) "ArrowRight" then 1%Z else (-1)%Z in
    let currentIndex := indexOf steps (Some step) in
    let targetIndex := (currentIndex + direction)%Z in
    let moved :=
      if (0 <=? targetIndex)%Z && (targetIndex <? Z.of_nat (length steps))%Z
      then
        match item steps targetIndex with
        | Some targetStep =>
            if negb (hasAttribute (dom s) targetStep "disabled")
               && negb (classList_contains (dom s) targetStep "disabled")
            then [targetStep]      (* targetStep.click(); targetStep.focus() *)
            else []
        | None => []
        end
      else [] in
    (* event.preventDefault() *)
    Build_keyOutcome true moved moved
  else Build_keyOutcome false [] [].

(** ** The key handler of an open dropdown

    The listener that the trigger's handler binds to the dropdown it
    opened; [dropdownItems] is the node list collected on opening.  The
    second component is the exception the run ended with, if any: the
    outcome records what was done before it. *)
Definition dropdownKeyDown (trigger : nat) (dropdownItems : list nat)
    (event : keyEvent) (s : page) : keyOutcome * option exn :=
  if String.eqb (key event) "Escape" then
    (* trigger.click(); trigger.focus() *)
    (Build_keyOutcome false [trigger] [trigger], None)
  else if String.eqb (key event) "ArrowDown" || String.eqb (key event) "ArrowUp"
  then
    (* event.preventDefault() *)
    let direction :=
      if String.eqb (key event) "ArrowDown" then 1%Z else (-1)%Z in
    let items := dropdownItems in
    let currentIndex := indexOf items (activeElement s) in
    let targetIndex := (currentIndex + direction)%Z in
    let targetIndex :=
      if (targetIndex <? 0)%Z then (Z.of_nat (length items) - 1)%Z
      else if (targetIndex >=? Z.of_nat (length items))%Z then 0%Z
      else targetIndex in
    match item items targetIndex with
    | Some targetItem => (Build_keyOutcome true [targetItem] [], None)
    | None =>
        (Build_keyOutcome true [] [],
         Some (TypeError "Cannot read properties of undefined (reading 'focus')"))
    end
  else (Build_keyOutcome false [] [], None).

(** ** The callback of the container's MutationObserver *)

Inductive node :=
  | ElementNode (el : nat)     (* nodeType === Node.ELEMENT_NODE *)
  | OtherNode.                 (* text, comment, ... *)

Record mutationRecord := {
  mutationType : string;
  addedNodes : list node;
  attributeName : option string
}.

Definition relevantAttributes : list string :=
  [ "tabindex"; "disabled"; "aria-hidden"; "hidden"; "style"; "display";
    "visibility" ].

Definition isElementNode (n : node) : bool :=
  match n with
  | ElementNode _ => true
  | OtherNode => false
  end.

Definition observerCallback (this : TabindexManager) (container : nat)
    (mutations : list mutationRecord) (s : page) : page :=
  let shouldProcess :=
    fold_left (fun shouldProcess mutation =>
      let shouldProcess :=
        if String.eqb (mutationType mutation) "childList"
           && (0 <? length (addedNodes mutation))
        then
          if existsb isElementNode (addedNodes mutation) then true
          else shouldProcess
        else shouldProcess in
      if String.eqb (mutationType mutation) "attributes" then
        match attributeName mutation with
        | Some name =>
            if bool_decide (name ∈ relevantAttributes) then true
            else shouldProcess
        | None => shouldProcess
        end
      else shouldProcess) mutations false in
  if shouldProcess then processDynamicContent this container s else s.

(** ** Modals loaded by ajax

    [setupJspModalHandling] watches the attributes of each modal that an
    ajax response brought and keeps, on the modal, the flag
    [_focusTrapActive] next to [_removeFocusTrap]. *)

Record jspPage := {
  thePage : page;
  focusTrapActive : gset nat           (* modal._focusTrapActive *)
}.

Definition modalObserverCallback (this : TabindexManager) (modal : nat)
    (mutations : list mutationRecord) (st : jspPage) : jspPage :=
  fold_left (fun st mutation =>
    if String.eqb (mutationType mutation) "attributes" then
      let s := thePage st in
      if negb (isVisuallyHidden (dom s) modal)
         && negb (bool_decide (modal ∈ focusTrapActive st))
      then
        let '(focusTrap, s) :=
          setupFocusTrap this (Some modal)
            (Build_trapOptions (Some true) None) s in
        let s := storeRemoveFocusTrap modal focusTrap s in
        {| thePage := s; focusTrapActive := {[modal]} ∪ focusTrapActive st |}
      else if isVisuallyHidden (dom s) modal
              && bool_decide (modal ∈ focusTrapActive st)
      then
        let s :=
          match removeFocusTrap s !! modal with
          | Some removeFocusTrap => remove removeFocusTrap s
          | None => s
          end in
        {| thePage := s; focusTrapActive := focusTrapActive st ∖ {[modal]} |}
      else st
    else st) mutations st.

(** ** The observer of a dialog that the scan armed

    [detectAndHandleDialogs] gives each dialog it arms a MutationObserver
    of its own.  [disconnected] holds the observers, by their position
    in the registry, on which [disconnect()] was called. *)

Record watchedPage := {
  watched : page;
  disconnected : gset nat
}.

(** [delete el._removeFocusTrap] *)
Definition deleteRemoveFocusTrap (el : nat) (s : page) : page :=
  {| dom := dom s; activeElement := activeElement s;
     sessions := sessions s; listeners := listeners s; timers := timers s;
     observers := observers s;
     removeFocusTrap := delete el (removeFocusTrap s);
     xhrWrapped := xhrWrapped s |}.

Definition dialogObserverCallback (dialog dialogObserver : nat)
    (mutations : list mutationRecord) (st : watchedPage) : watchedPage :=
  fold_left (fun st mutation =>
    if String.eqb (mutationType mutation) "attributes" then
      let s := watched st in
      if isVisuallyHidden (dom s) dialog
         || bool_decide (getAttribute (dom s) dialog "aria-hidden" = Some "true")
      then
        let s :=
          match removeFocusTrap s !! dialog with
          | Some removeFocusTrap =>
              deleteRemoveFocusTrap dialog (remove removeFocusTrap s)
          | None => s
          end in
        let s :=
          withDom (fun d => removeAttribute d dialog "data-focus-trap-active")
            s in
        {| watched := s;
           disconnected := {[dialogObserver]} ∪ disconnected st |}
      else st
    else st) mutations st.

(** ** The key handler of a tooltip trigger *)

(** [document.getElementById(id)] *)
Definition document_getElementById (d : document) (id : string)
    : option nat :=
  head (filter (fun i => getAttribute d i "id" = Some id) (seq 0 (length d))).

(** [a || b] on two attribute values: [a] unless it is null or empty. *)
Definition orElse (a b : option string) : option string :=
  match a with
  | Some s => if String.eqb s "" then b else a
  | None => b
  end.

Definition withClassList (f : list string -> list string) (e : element)
    : element :=
  Element (tagName e) (attrs e) (f (classList e)) (style e) (parent e).

(** [el.classList.add(...tokens)]: a token that is there is not added
    again. *)
Definition classList_add (d : document) (el : nat) (tokens : list string)
    : document :=
  alter (withClassList (fun l =>
    fold_left (fun l token =>
      if bool_decide (token ∈ l) then l else (l ++ [token])%list) tokens l))
    el d.

(** [el.classList.remove(...tokens)] *)
Definition classList_remove (d : document) (el : nat) (tokens : list string)
    : document :=
  alter (withClassList (fun l => filter (fun c => c ∉ tokens) l)) el d.

(** The tooltip a trigger names, if it names one that exists. *)
Definition tooltipOf (d : document) (trigger : nat) : option nat :=
  let tooltipId :=
    orElse (getAttribute d trigger "aria-describedby")
      (getAttribute d trigger "data-tooltip-id") in
  match tooltipId with
  | Some id =>
      if String.eqb id "" then None else document_getElementById d id
  | None => None
  end.

(** The listener that [setupTooltipAndDropdownHandlers] binds to a
    tooltip trigger: what the run did, and the document it leaves. *)
Definition tooltipKeyDown (trigger : nat) (event : keyEvent) (d : document)
    : keyOutcome * document :=
  let '(outcome, d) :=
    if String.eqb (key event) " " || String.eqb (key event) "Enter" then
      (* event.preventDefault(); trigger.click() *)
      let d :=
        match tooltipOf d trigger with
        | Some tooltip =>
            let d := classList_add d tooltip ["show"; "visible"] in
            setAttribute d tooltip "aria-hidden" "false"
        | None => d
        end in
      (Build_keyOutcome true [] [trigger], d)
    else (Build_keyOutcome false [] [], d) in
  let d :=
    if String.eqb (key event) "Escape" then
      match tooltipOf d trigger with
      | Some tooltip =>
          let d := classList_remove d tooltip ["show"; "visible"] in
          setAttribute d tooltip "aria-hidden" "true"
      | None => d
      end
    else d in
  (outcome, d).

(** * Notions used in the statements and proofs *)

(** ** Frames: what the passes leave alone

    The passes write four attributes and nothing else. *)

Definition managedAttributes : list string :=
  [ "tabindex"; "data-focus-trap-active"; "data-tooltip-keyboard-handled";
    "data-dropdown-keyboard-handled" ].

(** Two elements that differ at most in the managed attributes. *)
Definition sameBut (e e' : element) : Prop :=
  tagName e = tagName e' /\ classList e = classList e'
  /\ style e = style e' /\ parent e = parent e'
  /\ forall a, a ∉ managedAttributes -> attrs e !! a = attrs e' !! a.

Definition frame (d d' : document) : Prop := Forall2 sameBut d d'.

(** Selectors that read no managed attribute: what they match is the
    same before and after a pass. *)
Definition cleanSimple (s : simpleSelector) : bool :=
  match s with
  | SHasAttr a | SAttrEq a _ | SNotHasAttr a =>
      bool_decide (a ∉ managedAttributes)
  | STag _ | SClass _ => true
  end.

Definition cleanSelector (sel : selector) : bool :=
  match sel with
  | Compound c => forallb cleanSimple c
  | Descendant a c => forallb cleanSimple a && forallb cleanSimple c
  | Child p c => forallb cleanSimple p && forallb cleanSimple c
  end.

(** ** One node under the passes

    Each pass is a [forEach] whose callback touches the tabindex of its
    own element only, so a pass acts on a node as a function of the
    node's tabindex and of facts that no pass changes. *)

Definition parseAttr (t : option string) : option Z :=
  match t with Some s => parseInt s | None => None end.

Definition isNone {A} (o : option A) : bool :=
  match o with None => true | Some _ => false end.

Definition lt0 (n : option Z) : bool :=
  match n with Some z => (z <? 0)%Z | None => false end.

(** The order [findTabbableElements] reads off an attribute:
    [parseInt(value || '0', 10)]. *)
Definition orderOf (t : option string) : option Z :=
  parseInt (match t with
            | Some s => if String.eqb s "" then "0" else s
            | None => "0"
            end).

Definition isHidden (d : document) (el : nat) : bool :=
  isVisuallyHidden d el || hasHiddenParent d el.

(** The tags of [nonInteractiveWithTabindex], without the [[tabindex]]. *)
Definition genericTags : list selector :=
  [ Compound [STag "div"]; Compound [STag "span"]; Compound [STag "p"];
    Compound [STag "h1"]; Compound [STag "h2"]; Compound [STag "h3"];
    Compound [STag "h4"]; Compound [STag "h5"]; Compound [STag "h6"] ].

(** [fixNegativeTabindexValues] on a node of the container. *)
Definition negStep (interactive removed : bool) (t : option string)
    : option string :=
  if bool_decide (t = Some "-1") && interactive && negb removed
  then Some "0" else t.

(** [fixHighTabindexValues] on a node of the container. *)
Definition highStep (t : option string) : option string :=
  if gt0 (parseAttr t) then Some "0" else t.

(** [makeInteractiveElementsTabbable] on a node of the container. *)
Definition coverStep (interactive hidden : bool) (t : option string)
    : option string :=
  if interactive && negb hidden && isNone t then Some "0" else t.

(** [validateNonInteractiveElements] on a node of the container. *)
Definition pruneStep (generic hasRole hasKeys : bool) (t : option string)
    : option string :=
  if generic && ge0 (parseAttr t) && negb hasRole && negb hasKeys
  then None else t.

(** One loop of [setupTooltipAndDropdownHandlers] on a node of the
    container. *)
Definition triggerStep (trigger : bool) (t : option string) : option string :=
  if trigger && isNone t then Some "0" else t.

(** The four passes together, on one node. *)
Definition normaliseNode (this : TabindexManager) (d : document) (j : nat)
    (t : option string) : option string :=
  let t :=
    if fixNegativeTabindex this
    then negStep (isInteractiveElement this d j)
           (shouldBeRemovedFromTabOrder d j) t
    else t in
  let t := if fixHighTabindex this then highStep t else t in
  let t :=
    if ensureInteractiveElements this
    then coverStep (isInteractiveElement this d j) (isHidden d j) t
    else t in
  pruneStep (matches d j genericTags) (hasAttribute d j "role")
    (hasKeyboardEventListeners d j) t.

(** The tabindex [fix] leaves on a node of the container. *)
Definition fixNode (this : TabindexManager) (d : document) (j : nat)
    (t : option string) : option string :=
  let t := normaliseNode this d j t in
  if handleTooltipsAndDropdowns this
  then triggerStep (matches d j dropdownTriggerSelectors)
         (triggerStep (matches d j tooltipTriggerSelectors) t)
  else t.

(** The four passes on one node, by the four conditions that let them
    fire: repair, collapse, cover, prune. *)
Definition passesOn (a b c e : bool) (t : option string) : option string :=
  let t := if a && bool_decide (t = Some "-1") then Some "0" else t in
  let t := if b && gt0 (parseAttr t) then Some "0" else t in
  let t := if c && isNone t then Some "0" else t in
  if e && ge0 (parseAttr t) then None else t.

(** The same followed by the trigger loops of [fix]. *)
Definition fixOn (a b c e q : bool) (t : option string) : option string :=
  let t := passesOn a b c e t in
  if q && isNone t then Some "0" else t.

(** A property of a tabindex value that holds of no attribute and of
    "0": the passes, which only ever write "0" or remove, keep it. *)
Definition keptByPasses (P : option string -> Prop) : Prop :=
  P None /\ P (Some "0").

(** What [handleTrigger] does to the document. *)
Definition handleTriggerDom (marker : string) (trigger : nat)
    (d : document) : document :=
  let d :=
    if negb (hasAttribute d trigger "tabindex")
    then setAttribute d trigger "tabindex" "0" else d in
  if negb (hasAttribute d trigger marker)
  then setAttribute d trigger marker "true" else d.

(** What [setupTooltipAndDropdownHandlers] does to the document. *)
Definition triggersDom (c : nat) (d : document) : document :=
  let d :=
    forEach (querySelectorAll d c tooltipTriggerSelectors)
      (handleTriggerDom "data-tooltip-keyboard-handled") d in
  forEach (querySelectorAll d c dropdownTriggerSelectors)
    (handleTriggerDom "data-dropdown-keyboard-handled") d.

(** What [fix] does to the document, once the container is found. *)
Definition fixDom (this : TabindexManager) (c : nat) (d : document)
    : document :=
  let d := normalise this d c in
  if handleTooltipsAndDropdowns this then triggersDom c d else d.

(** The exception a call ended with, if any. *)
Definition thrown {A : Type} (c : completion A) : option exn :=
  match c with
  | Normal _ _ => None
  | Abrupt e _ => Some e
  end.

Definition tabKey (shift : bool) : keyEvent := Build_keyEvent "Tab" shift.

Definition linkSelector : list selector :=
  [ Compound [STag "a"; SHasAttr "href"] ].

Definition divSelector : list selector := [ Compound [STag "div"] ].

(** A style that hides: [display: none]. *)
Definition displayNone : computedStyle :=
  ComputedStyle "none" "visible" "1" "static" "100px" "20px" "visible".

(** ** Dialogs under the scan

    The callback of the loop in [detectAndHandleDialogs], and the test
    that makes it skip a dialog. *)

Definition armDialog (this : TabindexManager) (dialog : nat) (s : page)
    : page :=
  if negb (isVisuallyHidden (dom s) dialog)
     && negb (hasAttribute (dom s) dialog "data-focus-trap-active")
  then
    let s :=
      withDom (fun d => setAttribute d dialog "data-focus-trap-active" "true")
        s in
    let '(focusTrap, s) :=
      setupFocusTrap this (Some dialog)
        (Build_trapOptions (Some (returnFocusOnDynamicContentClose this))
           None) s in
    let s := storeRemoveFocusTrap dialog focusTrap s in
    observe (DialogObserver dialog) s
  else s.

Definition armedOrHidden (d : document) (dialog : nat) : bool :=
  isVisuallyHidden d dialog || hasAttribute d dialog "data-focus-trap-active".

(** ** Listeners by kind *)

Definition isTriggerKeyDown (h : handler) : bool :=
  match h with
  | TooltipKeyDown _ | DropdownKeyDown _ => true
  | _ => false
  end.

(** The key handlers bound to tooltip and dropdown triggers. *)
Definition triggerKeyHandlers (s : page) : list listener :=
  filter (fun l => isTriggerKeyDown (callback l) = true) (listeners s).

(** The listeners on [document]. *)
Definition documentListeners (s : page) : list listener :=
  filter (fun l => target l = None) (listeners s).

(** ** The audit, entry by entry

    What each of the two collecting loops of [analyzeTabOrder] pushes for
    one element, and the order the comparator asks for: an entry with a
    positive order comes before every entry of larger or no positive
    order. *)

Definition explicitEntry (d : document) (el : nat) : list tabEntry :=
  match tabindexOf d el with
  | Some tabindex =>
      if (0 <=? tabindex)%Z && negb (shouldBeRemovedFromTabOrder d el)
      then [Build_tabEntry el tabindex] else []
  | None => []
  end.

Definition implicitEntry (d : document) (el : nat) : list tabEntry :=
  if negb (hasAttribute d el "tabindex")
     && negb (shouldBeRemovedFromTabOrder d el)
  then [Build_tabEntry el 0%Z] else [].

Definition tabsBefore (a b : tabEntry) : Prop :=
  (0 < entryTabindex b -> 0 < entryTabindex a <= entryTabindex b)%Z.

(** ** Keys *)

Definition arrowKey (name : string) : keyEvent := Build_keyEvent name false.

(** Whether a wizard step can be moved to. *)
Definition stepEnabled (d : document) (step : nat) : bool :=
  negb (hasAttribute d step "disabled")
  && negb (classList_contains d step "disabled").

(** ** Sessions and their intercepts *)

(** The key intercept of session [id] on [region]. *)
Definition intercept (region id : nat) : listener :=
  Build_listener (Some region) "keydown" (TrapKeyDown id).

(** Every intercept in the registry belongs to a session that exists, so
    the next session gets a number no listener carries. *)
Definition freshSessions (s : page) : Prop :=
  forall l id,
    l ∈ listeners s -> callback l = TrapKeyDown id -> id < length (sessions s).

(** The page shown or hidden by other scripts: between two deliveries
    the document may have become any other. *)
Definition withDocument (d : document) (st : jspPage) : jspPage :=
  {| thePage := withDom (fun _ => d) (thePage st);
     focusTrapActive := focusTrapActive st |}.

(** Deliveries to the observer of [modal], each preceded by a change of
    the document. *)
Definition deliveries (this : TabindexManager) (modal : nat)
    (rounds : list (document * list mutationRecord)) (st : jspPage)
    : jspPage :=
  fold_left (fun st round =>
    modalObserverCallback this modal (snd round) (withDocument (fst round) st))
    rounds st.

(** What makes the observer of the container scan. *)
Definition relevantMutation (mutation : mutationRecord) : bool :=
  String.eqb (mutationType mutation) "childList"
  && existsb isElementNode (addedNodes mutation)
  || String.eqb (mutationType mutation) "attributes"
     && match attributeName mutation with
        | Some name => bool_decide (name ∈ relevantAttributes)
        | None => false
        end.

(** One record of a delivery to the observer of [modal]. *)
Definition modalObserverStep (this : TabindexManager) (modal : nat)
    (mutation : mutationRecord) (st : jspPage) : jspPage :=
  if String.eqb (mutationType mutation) "attributes" then
    let s := thePage st in
    if negb (isVisuallyHidden (dom s) modal)
       && negb (bool_decide (modal ∈ focusTrapActive st))
    then
      let '(focusTrap, s) :=
        setupFocusTrap this (Some modal)
          (Build_trapOptions (Some true) None) s in
      let s := storeRemoveFocusTrap modal focusTrap s in
      {| thePage := s; focusTrapActive := {[modal]} ∪ focusTrapActive st |}
    else if isVisuallyHidden (dom s) modal
            && bool_decide (modal ∈ focusTrapActive st)
    then
      let s :=
        match removeFocusTrap s !! modal with
        | Some removeFocusTrap => remove removeFocusTrap s
        | None => s
        end in
      {| thePage := s; focusTrapActive := focusTrapActive st ∖ {[modal]} |}
    else st
  else st.

(** The registry is the one of [s0] plus the intercept of the live
    session, if the flag is set. *)
Definition accounted (s0 : page) (modal : nat) (st : jspPage) : Prop :=
  length (sessions s0) <= length (sessions (thePage st))
  /\ if bool_decide (modal ∈ focusTrapActive st)
     then exists id env,
            removeFocusTrap (thePage st) !! modal = Some (TrapHandle id)
            /\ sessions (thePage st) !! id = Some env
            /\ modalElement env = modal
            /\ length (sessions s0) <= id
            /\ listeners (thePage st)
               = (listeners s0 ++ [intercept modal id])%list
     else listeners (thePage st) = listeners s0.

(** The flag says whether the modal is shown. *)
Definition flagFollows (modal : nat) (st : jspPage) : Prop :=
  bool_decide (modal ∈ focusTrapActive st)
  = negb (isVisuallyHidden (dom (thePage st)) modal).

(** [wf_document], as a test. *)
Definition parentsPrecede (d : document) : bool :=
  forallb (fun i =>
    match parentElement d i with
    | Some p => p <? i
    | None => true
    end) (seq 0 (length d)).

(** ** The life of a dialog under the scan

    One record of a delivery to the observer of an armed dialog. *)
Definition dialogObserverStep (dialog dialogObserver : nat)
    (mutation : mutationRecord) (st : watchedPage) : watchedPage :=
  if String.eqb (mutationType mutation) "attributes" then
    let s := watched st in
    if isVisuallyHidden (dom s) dialog
       || bool_decide (getAttribute (dom s) dialog "aria-hidden" = Some "true")
    then
      let s :=
        match removeFocusTrap s !! dialog with
        | Some removeFocusTrap =>
            deleteRemoveFocusTrap dialog (remove removeFocusTrap s)
        | None => s
        end in
      let s :=
        withDom (fun d => removeAttribute d dialog "data-focus-trap-active")
          s in
      {| watched := s;
         disconnected := {[dialogObserver]} ∪ disconnected st |}
    else st
  else st.

(** The page after other scripts made the document [d], and after a
    scan of [c]. *)
Definition changed (d : document) (st : watchedPage) : watchedPage :=
  {| watched := withDom (fun _ => d) (watched st);
     disconnected := disconnected st |}.

Definition scanned (this : TabindexManager) (c : nat) (st : watchedPage)
    : watchedPage :=
  {| watched := processDynamicContent this c (watched st);
     disconnected := disconnected st |}.

(** What can happen to a page once the manager runs on it, as far as the
    dialog [x] is concerned: other scripts change the document, but not
    the marker of [x]; a container is scanned; records are delivered to
    the observer of a dialog, as long as it is connected. *)
Inductive reachable (this : TabindexManager) (x : nat) (s0 : page)
    : watchedPage -> Prop :=
  | reach_start :
      reachable this x s0 {| watched := s0; disconnected := ∅ |}
  | reach_change st d :
      reachable this x s0 st ->
      getAttribute d x "data-focus-trap-active"
      = getAttribute (dom (watched st)) x "data-focus-trap-active" ->
      reachable this x s0 (changed d st)
  | reach_scan st c :
      reachable this x s0 st ->
      reachable this x s0 (scanned this c st)
  | reach_delivery st k dialog mutations :
      reachable this x s0 st ->
      observers (watched st) !! k = Some (DialogObserver dialog) ->
      k ∉ disconnected st ->
      reachable this x s0 (dialogObserverCallback dialog k mutations st).

(** Every stored handle is the handle of a session on its element. *)
Definition honestHandles (s : page) : Prop :=
  forall y id,
    removeFocusTrap s !! y = Some (TrapHandle id) ->
    exists env, sessions s !! id = Some env /\ modalElement env = y.

(** The intercepts on [x] are those of [s0], plus that of the session
    whose handle [x] holds when it carries the marker. *)
Definition guarded (s0 : page) (x : nat) (s : page) : Prop :=
  length (sessions s0) <= length (sessions s)
  /\ honestHandles s
  /\ if hasAttribute (dom s) x "data-focus-trap-active"
     then exists id,
            removeFocusTrap s !! x = Some (TrapHandle id)
            /\ length (sessions s0) <= id
            /\ keyIntercepts s x
               = (keyIntercepts s0 x ++ [intercept x id])%list
     else keyIntercepts s x = keyIntercepts s0 x
          /\ removeFocusTrap s !! x = None.

(** The class list of an element. *)
Definition classesOf (d : document) (el : nat) : list string :=
  match d !! el with
  | Some e => classList e
  | None => []
  end.

(** The document when the prune pass starts: the first three passes of
    [normalise]. *)
Definition afterCoverage (this : TabindexManager) (d : document)
    (container : nat) : document :=
  let d :=
    if fixNegativeTabindex this
    then fixNegativeTabindexValues this d container else d in
  let d :=
    if fixHighTabindex this then fixHighTabindexValues d container else d in
  if ensureInteractiveElements this
  then makeInteractiveElementsTabbable this d container else d.

(** A node from which [validateNonInteractiveElements] removes a
    tabindex that is 0 or more: one of the generic tags, no role, no
    inline key handler. *)
Definition prunable (d : document) (j : nat) : bool :=
  matches d j genericTags && negb (hasAttribute d j "role")
  && negb (hasKeyboardEventListeners d j).

(** A node to which the trigger loops of [fix] give tabindex "0" when
    it has none. *)
Definition boundAsTrigger (this : TabindexManager) (d : document) (j : nat)
    : bool :=
  handleTooltipsAndDropdowns this
  && (matches d j tooltipTriggerSelectors
      || matches d j dropdownTriggerSelectors).

(** ** Sample pages

    Every element of a sample is rendered and visible unless said
    otherwise; node 0 is the body, the default container. *)

Definition visibleStyle : computedStyle :=
  ComputedStyle "block" "visible" "1" "static" "100px" "20px" "visible".

Definition mkElement (tag : string) (attributes : list (string * string))
    (classes : list string) (up : option nat) : element :=
  Element tag (list_to_map attributes) classes visibleStyle up.

Definition defaultManager : TabindexManager := new_TabindexManager noOptions.

(** <body><a href="#" tabindex="-1"><div tabindex="5"><button tabindex="7">
    </body> *)
Definition linkAndDiv : list element :=
  [ mkElement "body" [] [] None;
    mkElement "a" [("href", "#"); ("tabindex", "-1")] [] (Some 0);
    mkElement "div" [("tabindex", "5")] [] (Some 0);
    mkElement "button" [("tabindex", "7")] [] (Some 0) ].

(** <body><button tabindex="-2"></body> *)
Definition negativeTwo : list element :=
  [ mkElement "body" [] [] None;
    mkElement "button" [("tabindex", "-2")] [] (Some 0) ].

(** <body></body> and, outside the tree, a div that is not rendered *)
Definition withDetached : list element :=
  [ mkElement "body" [] [] None;
    Element "div" ∅ [] emptyStyle None ].

(** <body><div role="dialog"><button><input><button></div></body> *)
Definition dialogWithThree : list element :=
  [ mkElement "body" [] [] None;
    mkElement "div" [("role", "dialog")] [] (Some 0);
    mkElement "button" [] [] (Some 1);
    mkElement "input" [] [] (Some 1);
    mkElement "button" [] [] (Some 1) ].

(** <body><div role="dialog"><button></div></body> *)
Definition dialogWithButton : list element :=
  [ mkElement "body" [] [] None;
    mkElement "div" [("role", "dialog")] [] (Some 0);
    mkElement "button" [] [] (Some 1) ].

(** The dialog trapped once, with the focus on the body, and trapped
    again. *)
Definition armedOnce : trapHandle * page :=
  setupFocusTrap defaultManager (Some 1) noTrapOptions
    (freshPage dialogWithButton (Some 0)).

Definition armedTwice : trapHandle * page :=
  setupFocusTrap defaultManager (Some 1) noTrapOptions (snd armedOnce).

(** <body><a href="#"><button tabindex="0"><input tabindex="3">
    <input tabindex="2"><select tabindex="3"></body> *)
Definition mixedOrder : list element :=
  [ mkElement "body" [] [] None;
    mkElement "a" [("href", "#")] [] (Some 0);
    mkElement "button" [("tabindex", "0")] [] (Some 0);
    mkElement "input" [("tabindex", "3")] [] (Some 0);
    mkElement "input" [("tabindex", "2")] [] (Some 0);
    mkElement "select" [("tabindex", "3")] [] (Some 0) ].

(** <body><div class="modal" aria-modal="true"></div></body> *)
Definition emptyModal : list element :=
  [ mkElement "body" [] [] None;
    mkElement "div" [("aria-modal", "true")] ["modal"] (Some 0) ].

Definition scannedOnce : page :=
  processDynamicContent defaultManager 0 (freshPage emptyModal None).

Definition scannedTwice : page :=
  processDynamicContent defaultManager 0 scannedOnce.

(** <body><div style="display: none"><a href="#" tabindex="-1"></div></body> *)
Definition hiddenLink : list element :=
  [ mkElement "body" [] [] None;
    Element "div" ∅ [] displayNone (Some 0);
    mkElement "a" [("href", "#"); ("tabindex", "-1")] [] (Some 1) ].

(** <body><button data-tooltip="Help"><a class="dropdown-toggle" href="#">
    </body> *)
Definition withTriggers : list element :=
  [ mkElement "body" [] [] None;
    mkElement "button" [("data-tooltip", "Help")] [] (Some 0);
    mkElement "a" [("href", "#")] ["dropdown-toggle"] (Some 0) ].

(** <body class="wizard"><div class="step"><div class="step disabled">
    <div class="step"></body> *)
Definition wizardOfThree : list element :=
  [ mkElement "body" [] ["wizard"] None;
    mkElement "div" [] ["step"] (Some 0);
    mkElement "div" [] ["step"; "disabled"] (Some 0);
    mkElement "div" [] ["step"] (Some 0) ].

(** <body><div role="dialog" style="display: none"><button></div></body> *)
Definition hiddenDialog : list element :=
  [ mkElement "body" [] [] None;
    Element "div" {[ "role" := "dialog" ]} [] displayNone (Some 0);
    mkElement "button" [] [] (Some 1) ].

(** An attribute record for [name]. *)
Definition attributeRecord (name : string) : mutationRecord :=
  Build_mutationRecord "attributes" [] (Some name).

(** <body><div style="display: none"><p><a href="#"></a></p></div></body> *)
Definition nestedInHidden : list element :=
  [ mkElement "body" [] [] None;
    Element "div" ∅ [] displayNone (Some 0);
    mkElement "p" [] [] (Some 1);
    mkElement "a" [("href", "#")] [] (Some 2) ].

(** The document with the computed style of [el] replaced. *)
Definition restyle (st : computedStyle) (el : nat) (d : list element)
    : list element :=
  alter (fun e => Element (tagName e) (attrs e) (classList e) st (parent e))
    el d.

(** The dialog found by a scan, hidden by another script (its observer
    is told), shown again and found by the next scan. *)
Definition dialogFound : watchedPage :=
  scanned defaultManager 0
    {| watched := freshPage dialogWithButton None; disconnected := ∅ |}.

Definition dialogHidden : watchedPage :=
  dialogObserverCallback 1 0 [attributeRecord "style"]
    (changed (restyle displayNone 1 (dom (watched dialogFound))) dialogFound).

Definition dialogShownHiddenShown : watchedPage :=
  scanned defaultManager 0
    (changed (restyle visibleStyle 1 (dom (watched dialogHidden)))
       dialogHidden).

(** <body><input aria-describedby="help"><span id="help" class="hint">
    </body> *)
Definition inputWithHelp : list element :=
  [ mkElement "body" [] [] None;
    mkElement "input" [("aria-describedby", "help")] [] (Some 0);
    mkElement "span" [("id", "help")] ["hint"] (Some 0) ].

(** <body tabindex="5"><a href="#" tabindex="3"></body> *)
Definition positiveRoot : list element :=
  [ mkElement "body" [("tabindex", "5")] [] None;
    mkElement "a" [("href", "#"); ("tabindex", "3")] [] (Some 0) ].

(** <body><div class="accordion-header"></div></body> *)
Definition accordion : list element :=
  [ mkElement "body" [] [] None;
    mkElement "div" [] ["accordion-header"] (Some 0) ].

(** ** Tactics *)

(** Closed decidable facts, by evaluation. *)
Ltac by_evaluation :=
  match goal with
  | |- ?P => apply (bool_decide_unpack P); vm_compute; exact I
  end.

(** Case analysis on the facts about a node that the passes consult. *)
Ltac case_facts :=
  repeat match goal with
  | |- context [ensureInteractiveElements ?m] =>
      destruct (ensureInteractiveElements m)
  | |- context [handleTooltipsAndDropdowns ?m] =>
      destruct (handleTooltipsAndDropdowns m)
  | |- context [isInteractiveElement ?m ?d ?e] =>
      destruct (isInteractiveElement m d e)
  | |- context [shouldBeRemovedFromTabOrder ?d ?e] =>
      destruct (shouldBeRemovedFromTabOrder d e)
  | |- context [isHidden ?d ?e] => destruct (isHidden d e)
  | |- context [hasAttribute ?d ?e ?a] => destruct (hasAttribute d e a)
  | |- context [hasKeyboardEventListeners ?d ?e] =>
      destruct (hasKeyboardEventListeners d e)
  | |- context [matches ?d ?e ?l] => destruct (matches d e l)
  end.

(** The cases of a tabindex value other than "-1", by the sign of what
    [parseInt] makes of it: rewrite with the two facts and evaluate. *)
Ltac run_passes Hbs Hps :=
  repeat (rewrite ?Hbs;
          change (bool_decide (Some "0" = Some "-1")) with false;
          change (bool_decide (@None string = Some "-1")) with false;
          cbn [andb negb isNone parseAttr gt0 ge0 Z.ltb Z.leb Z.compare];
          rewrite ?Hps;
          change (parseInt "0") with (Some 0%Z));
  reflexivity.

(** * Properties *)

(** ** Reading an attribute after a write *)

Lemma getAttribute_setAttribute (d : document) el name value j a :
  getAttribute (setAttribute d el name value) j a =
  if bool_decide (j = el /\ a = name /\ el < length d) then Some value
  else getAttribute d j a.
Proof.
  unfold getAttribute, setAttribute.
  destruct (decide (j = el)) as [->|Hne].
  - rewrite list_lookup_alter_eq. destruct (d !! el) as [e|] eqn:He; simpl.
    + apply lookup_lt_Some in He as Hlt.
      destruct (decide (a = name)) as [->|Ha].
      * rewrite bool_decide_eq_true_2 by done. apply lookup_insert_eq.
      * rewrite bool_decide_eq_false_2 by (by intros (_&?&_)).
        by apply lookup_insert_ne.
    + apply lookup_ge_None in He.
      rewrite bool_decide_eq_false_2; [done | lia].
  - rewrite list_lookup_alter_ne by congruence.
    by rewrite bool_decide_eq_false_2 by (by intros (?&_)).
Qed.

Lemma getAttribute_removeAttribute (d : document) el name j a :
  getAttribute (removeAttribute d el name) j a =
  if bool_decide (j = el /\ a = name) then None else getAttribute d j a.
Proof.
  unfold getAttribute, removeAttribute.
  destruct (decide (j = el)) as [->|Hne].
  - rewrite list_lookup_alter_eq. destruct (d !! el) as [e|] eqn:He; simpl.
    + destruct (decide (a = name)) as [->|Ha].
      * rewrite bool_decide_eq_true_2 by done. apply lookup_delete_eq.
      * rewrite bool_decide_eq_false_2 by (by intros (_&?)).
        by apply lookup_delete_ne.
    + by case_bool_decide.
  - rewrite list_lookup_alter_ne by congruence.
    by rewrite bool_decide_eq_false_2 by (by intros (?&_)).
Qed.

Lemma getAttribute_None_ge (d : document) j a :
  length d <= j -> getAttribute d j a = None.
Proof.
  intros H. unfold getAttribute. by rewrite (proj2 (lookup_ge_None d j)).
Qed.

(** ** Frames *)

#[global] Instance sameBut_refl : Reflexive sameBut.
Proof. intros e. by repeat split. Qed.

#[global] Instance sameBut_trans : Transitive sameBut.
Proof.
  intros e1 e2 e3 (?&?&?&?&Ha12) (?&?&?&?&Ha23).
  repeat split; try congruence.
  intros a Ha. rewrite Ha12 by done. by apply Ha23.
Qed.

Lemma frame_refl d : frame d d.
Proof. unfold frame. reflexivity. Qed.

Lemma frame_trans d1 d2 d3 : frame d1 d2 -> frame d2 d3 -> frame d1 d3.
Proof. unfold frame. intros H12 H23. by etrans. Qed.

Lemma frame_length d d' : frame d d' -> length d = length d'.
Proof. apply Forall2_length. Qed.

Lemma frame_lookup d d' i :
  frame d d' ->
  match d !! i, d' !! i with
  | Some e, Some e' => sameBut e e'
  | None, None => True
  | _, _ => False
  end.
Proof.
  intros H. pose proof (frame_length _ _ H) as Hlen.
  destruct (d !! i) as [e|] eqn:He, (d' !! i) as [e'|] eqn:He'.
  - eapply Forall2_lookup_lr; eauto.
  - apply lookup_lt_Some in He. apply lookup_ge_None in He'. lia.
  - apply lookup_ge_None in He. apply lookup_lt_Some in He'. lia.
  - done.
Qed.

Lemma frame_alter d el f :
  (forall e, sameBut e (f e)) -> frame d (alter f el d).
Proof.
  intros Hf. apply Forall2_same_length_lookup. split.
  - by rewrite length_alter.
  - intros i x y Hx Hy. destruct (decide (i = el)) as [->|Hne].
    + rewrite list_lookup_alter_eq, Hx in Hy. simpl in Hy.
      injection Hy as <-. apply Hf.
    + rewrite list_lookup_alter_ne, Hx in Hy by congruence.
      injection Hy as <-. reflexivity.
Qed.

Lemma frame_setAttribute d el name value :
  name ∈ managedAttributes -> frame d (setAttribute d el name value).
Proof.
  intros Hin. apply frame_alter. intros e. repeat split; simpl.
  intros a Ha. symmetry. apply lookup_insert_ne. intros ->. done.
Qed.

Lemma frame_removeAttribute d el name :
  name ∈ managedAttributes -> frame d (removeAttribute d el name).
Proof.
  intros Hin. apply frame_alter. intros e. repeat split; simpl.
  intros a Ha. symmetry. apply lookup_delete_ne. intros ->. done.
Qed.

Section Frame.
Variables d d' : document.
Hypothesis Hf : frame d d'.

Lemma frame_parentElement el : parentElement d el = parentElement d' el.
Proof.
  unfold parentElement. pose proof (frame_lookup _ _ el Hf) as H.
  destruct (d !! el), (d' !! el); try done. by destruct H as (?&?&?&?&?).
Qed.

Lemma frame_getComputedStyle el :
  getComputedStyle d el = getComputedStyle d' el.
Proof.
  unfold getComputedStyle. pose proof (frame_lookup _ _ el Hf) as H.
  destruct (d !! el), (d' !! el); try done. by destruct H as (?&?&?&?&?).
Qed.

Lemma frame_getAttribute el a :
  a ∉ managedAttributes -> getAttribute d el a = getAttribute d' el a.
Proof.
  intros Ha. unfold getAttribute. pose proof (frame_lookup _ _ el Hf) as H.
  destruct (d !! el), (d' !! el); try done.
  destruct H as (?&?&?&?&H). by apply H.
Qed.

Lemma frame_hasAttribute el a :
  a ∉ managedAttributes -> hasAttribute d el a = hasAttribute d' el a.
Proof. intros Ha. unfold hasAttribute. by rewrite frame_getAttribute. Qed.

Lemma frame_ancestorsFrom fuel p :
  ancestorsFrom fuel d p = ancestorsFrom fuel d' p.
Proof.
  revert p. induction fuel as [|f IH]; intros [a|]; simpl; try done.
  by rewrite IH, frame_parentElement.
Qed.

Lemma frame_ancestors el : ancestors d el = ancestors d' el.
Proof.
  unfold ancestors.
  by rewrite (frame_length _ _ Hf), frame_ancestorsFrom, frame_parentElement.
Qed.

Lemma frame_isDescendant c el : isDescendant d c el = isDescendant d' c el.
Proof. unfold isDescendant. by rewrite frame_ancestors. Qed.

Lemma frame_isVisuallyHidden el :
  isVisuallyHidden d el = isVisuallyHidden d' el.
Proof. unfold isVisuallyHidden. by rewrite frame_getComputedStyle. Qed.

Lemma frame_ariaHidden el : ariaHidden d el = ariaHidden d' el.
Proof.
  unfold ariaHidden. rewrite frame_getAttribute; [done|]. by_evaluation.
Qed.

Lemma frame_hasHiddenParent_loop fuel p :
  hasHiddenParent_loop fuel d p = hasHiddenParent_loop fuel d' p.
Proof.
  revert p. induction fuel as [|f IH]; intros [a|]; simpl; try done.
  by rewrite IH, frame_parentElement, frame_isVisuallyHidden,
    frame_ariaHidden.
Qed.

Lemma frame_hasHiddenParent el :
  hasHiddenParent d el = hasHiddenParent d' el.
Proof.
  unfold hasHiddenParent.
  by rewrite (frame_length _ _ Hf), frame_hasHiddenParent_loop,
    frame_parentElement.
Qed.

Lemma frame_shouldBeRemovedFromTabOrder el :
  shouldBeRemovedFromTabOrder d el = shouldBeRemovedFromTabOrder d' el.
Proof.
  unfold shouldBeRemovedFromTabOrder.
  by rewrite frame_isVisuallyHidden, frame_hasHiddenParent, frame_ariaHidden.
Qed.

Lemma frame_hasKeyboardEventListeners el :
  hasKeyboardEventListeners d el = hasKeyboardEventListeners d' el.
Proof.
  unfold hasKeyboardEventListeners.
  rewrite !(frame_hasAttribute el); [done | | |]; by_evaluation.
Qed.
End Frame.

(** ** Selectors that do not read a managed attribute *)

Section FrameSelectors.
Variables d d' : document.
Hypothesis Hf : frame d d'.

Lemma frame_matchesSimple el s :
  cleanSimple s = true -> matchesSimple d el s = matchesSimple d' el s.
Proof.
  pose proof (frame_lookup _ _ el Hf) as H.
  destruct s as [t|a|a v|c|a]; simpl; intros Hc;
    try apply bool_decide_eq_true in Hc.
  - destruct (d !! el), (d' !! el); try done.
    destruct H as (->&_). done.
  - by apply frame_hasAttribute.
  - by rewrite (frame_getAttribute d d' Hf).
  - destruct (d !! el), (d' !! el); try done.
    destruct H as (_&->&_). done.
  - f_equal. by apply frame_hasAttribute.
Qed.

Lemma frame_matchesCompound el c :
  forallb cleanSimple c = true ->
  matchesCompound d el c = matchesCompound d' el c.
Proof.
  unfold matchesCompound. induction c as [|s c IH]; simpl; [done|].
  intros [Hs Hc]%andb_prop. by rewrite frame_matchesSimple, IH.
Qed.

Lemma frame_matchesOne el sel :
  cleanSelector sel = true -> matchesOne d el sel = matchesOne d' el sel.
Proof.
  destruct sel as [c|a c|p c]; simpl.
  - apply frame_matchesCompound.
  - intros [Ha Hc]%andb_prop.
    rewrite (frame_matchesCompound el c Hc), (frame_ancestors d d' Hf).
    f_equal. induction (ancestors d' el) as [|x l IH]; simpl; [done|].
    by rewrite IH, frame_matchesCompound.
  - intros [Hp Hc]%andb_prop.
    rewrite (frame_matchesCompound el c Hc), (frame_parentElement d d' Hf).
    destruct (parentElement d' el); [|done].
    by rewrite frame_matchesCompound.
Qed.

Lemma frame_matches el sels :
  forallb cleanSelector sels = true -> matches d el sels = matches d' el sels.
Proof.
  unfold matches. induction sels as [|s l IH]; simpl; [done|].
  intros [Hs Hl]%andb_prop. by rewrite frame_matchesOne, IH.
Qed.
End FrameSelectors.

(** ** [querySelectorAll] *)

Lemma ancestorsFrom_None fuel (d : document) : ancestorsFrom fuel d None = [].
Proof. by destruct fuel. Qed.

Lemma isDescendant_lt (d : document) c j :
  isDescendant d c j = true -> j < length d.
Proof.
  unfold isDescendant, ancestors, parentElement. intros H.
  destruct (d !! j) eqn:Hj; [by eapply lookup_lt_Some|].
  rewrite ancestorsFrom_None in H. apply bool_decide_eq_true in H.
  by apply elem_of_nil in H.
Qed.

Lemma elem_of_querySelectorAll (d : document) c sels j :
  j ∈ querySelectorAll d c sels <->
  isDescendant d c j = true /\ matches d j sels = true.
Proof.
  unfold querySelectorAll. rewrite list_elem_of_filter, elem_of_seq.
  rewrite andb_true_iff. split; [tauto|].
  intros [Hd Hm]. split; [done|]. apply isDescendant_lt in Hd. lia.
Qed.

Lemma NoDup_querySelectorAll (d : document) c sels :
  NoDup (querySelectorAll d c sels).
Proof. apply NoDup_filter, NoDup_seq. Qed.

(** ** A [forEach] whose callback rewrites the tabindex of its element

    [phi d el t] is the tabindex the callback leaves on [el] when it
    finds [t]; it may read the document, but nothing that a pass
    writes. *)
Section ForEach.
Variable step : nat -> document -> document.
Variable phi : document -> nat -> option string -> option string.
Hypothesis step_frame : forall d el, frame d (step el d).
Hypothesis step_other : forall d el j,
  j <> el ->
  getAttribute (step el d) j "tabindex" = getAttribute d j "tabindex".
Hypothesis step_self : forall d el,
  el < length d ->
  getAttribute (step el d) el "tabindex"
  = phi d el (getAttribute d el "tabindex").
Hypothesis phi_frame : forall d d' el t,
  frame d d' -> phi d el t = phi d' el t.

Lemma forEach_frame l d : frame d (forEach l step d).
Proof.
  unfold forEach. revert d. induction l as [|x l IH]; intros d; simpl.
  - apply frame_refl.
  - eapply frame_trans; [apply (step_frame d x) | apply IH].
Qed.

Lemma forEach_tabindex l d j :
  NoDup l -> (forall x, x ∈ l -> x < length d) ->
  getAttribute (forEach l step d) j "tabindex" =
  if bool_decide (j ∈ l) then phi d j (getAttribute d j "tabindex")
  else getAttribute d j "tabindex".
Proof.
  unfold forEach. revert d. induction l as [|x l IH]; intros d Hnd Hlt.
  - done.
  - apply NoDup_cons in Hnd as [Hx Hnd]. cbn [fold_left].
    assert (x < length d) as Hxlt by (apply Hlt, elem_of_cons; by left).
    rewrite IH; [|done|].
    2:{ intros y Hy. rewrite <- (frame_length _ _ (step_frame d x)).
        apply Hlt, elem_of_cons. by right. }
    destruct (decide (j = x)) as [->|Hne].
    + rewrite (bool_decide_eq_false_2 (x ∈ l)) by done.
      rewrite bool_decide_eq_true_2 by (apply elem_of_cons; by left).
      by apply step_self.
    + rewrite step_other by done.
      rewrite <- (phi_frame d (step x d)) by apply step_frame.
      destruct (decide (j ∈ l)) as [Hin|Hnin].
      * rewrite (bool_decide_eq_true_2 (j ∈ l)) by done.
        by rewrite bool_decide_eq_true_2 by (apply elem_of_cons; by right).
      * rewrite (bool_decide_eq_false_2 (j ∈ l)) by done.
        rewrite bool_decide_eq_false_2; [done|].
        rewrite elem_of_cons. tauto.
Qed.
End ForEach.

Lemma querySelectorAll_lt (d : document) c sels x :
  x ∈ querySelectorAll d c sels -> x < length d.
Proof.
  intros [H _]%elem_of_querySelectorAll. by eapply isDescendant_lt.
Qed.

(** ** What each pass does to the tabindex of one node *)

Lemma tabindex_managed : "tabindex" ∈ managedAttributes.
Proof. by_evaluation. Qed.

Lemma matches_nonInteractive (d : document) j :
  matches d j defaultNonInteractiveWithTabindex
  = matches d j genericTags && hasAttribute d j "tabindex".
Proof.
  unfold matches, defaultNonInteractiveWithTabindex, genericTags, withTabindex.
  cbn [existsb matchesOne matchesCompound forallb matchesSimple].
  destruct (hasAttribute d j "tabindex");
    rewrite ?andb_true_r, ?andb_false_r, ?orb_false_r; reflexivity.
Qed.

Lemma hasAttribute_isNone (d : document) j a :
  hasAttribute d j a = negb (isNone (getAttribute d j a)).
Proof. unfold hasAttribute. by destruct (getAttribute d j a). Qed.

Section Passes.
Variable this : TabindexManager.
Hypothesis interactive_clean :
  forallb cleanSelector (interactiveSelectors this) = true.
Hypothesis nonInteractive_default :
  nonInteractiveWithTabindex this = defaultNonInteractiveWithTabindex.

Lemma frame_isInteractiveElement d d' el :
  frame d d' ->
  isInteractiveElement this d el = isInteractiveElement this d' el.
Proof. intros Hf. by apply (frame_matches d d' Hf). Qed.

Lemma fixNegative_frame d c : frame d (fixNegativeTabindexValues this d c).
Proof.
  apply forEach_frame. intros d0 el.
  destruct (_ && _); [apply frame_setAttribute, tabindex_managed
                     | apply frame_refl].
Qed.

Lemma fixNegative_tabindex d c j :
  getAttribute (fixNegativeTabindexValues this d c) j "tabindex" =
  if isDescendant d c j
  then negStep (isInteractiveElement this d j)
         (shouldBeRemovedFromTabOrder d j) (getAttribute d j "tabindex")
  else getAttribute d j "tabindex".
Proof.
  unfold fixNegativeTabindexValues.
  rewrite (forEach_tabindex _
    (fun d el t => if isInteractiveElement this d el
                      && negb (shouldBeRemovedFromTabOrder d el)
                   then Some "0" else t)).
  - unfold negStep.
    destruct (isDescendant d c j) eqn:Hd.
    + case_bool_decide as Hin.
      * apply elem_of_querySelectorAll in Hin as [_ Hm].
        unfold matches in Hm. simpl in Hm.
        rewrite orb_false_r, andb_true_r in Hm.
        by rewrite Hm.
      * destruct (bool_decide (getAttribute d j "tabindex" = Some "-1"))
          eqn:Ht; [|done].
        exfalso. apply Hin, elem_of_querySelectorAll. split; [done|].
        unfold matches. simpl. by rewrite Ht.
    + rewrite bool_decide_eq_false_2; [done|].
      intros [? _]%elem_of_querySelectorAll. congruence.
  - intros d0 el. destruct (_ && _);
      [apply frame_setAttribute, tabindex_managed | apply frame_refl].
  - intros d0 el j0 Hne. destruct (_ && _); [|done].
    rewrite getAttribute_setAttribute.
    by rewrite bool_decide_eq_false_2 by (by intros (?&_)).
  - intros d0 el Hlt. destruct (_ && _); [|done].
    rewrite getAttribute_setAttribute. by rewrite bool_decide_eq_true_2.
  - intros d0 d' el t Hf.
    by rewrite (frame_isInteractiveElement d0 d'),
      (frame_shouldBeRemovedFromTabOrder d0 d').
  - apply NoDup_querySelectorAll.
  - apply querySelectorAll_lt.
Qed.

Lemma fixHigh_frame d c : frame d (fixHighTabindexValues d c).
Proof.
  apply forEach_frame. intros d0 el. cbv beta zeta.
  destruct (gt0 _); [apply frame_setAttribute, tabindex_managed
                    | apply frame_refl].
Qed.

Lemma fixHigh_tabindex d c j :
  getAttribute (fixHighTabindexValues d c) j "tabindex" =
  if isDescendant d c j then highStep (getAttribute d j "tabindex")
  else getAttribute d j "tabindex".
Proof.
  unfold fixHighTabindexValues.
  rewrite (forEach_tabindex _ (fun _ _ t => highStep t)).
  - destruct (isDescendant d c j) eqn:Hd.
    + case_bool_decide as Hin; [done|].
      destruct (getAttribute d j "tabindex") as [s|] eqn:Ht; [|done].
      exfalso. apply Hin, elem_of_querySelectorAll. split; [done|].
      unfold matches.
      cbn [existsb matchesOne matchesCompound forallb matchesSimple].
      unfold hasAttribute. by rewrite Ht.
    + rewrite bool_decide_eq_false_2; [done|].
      intros [? _]%elem_of_querySelectorAll. congruence.
  - intros d0 el. cbv beta zeta. destruct (gt0 _);
      [apply frame_setAttribute, tabindex_managed | apply frame_refl].
  - intros d0 el j0 Hne. cbv beta zeta. destruct (gt0 _); [|done].
    rewrite getAttribute_setAttribute.
    by rewrite bool_decide_eq_false_2 by (by intros (?&_)).
  - intros d0 el Hlt. cbv beta zeta. unfold highStep, tabindexOf.
    change (match getAttribute d0 el "tabindex" with
            | Some s => parseInt s | None => None end)
      with (parseAttr (getAttribute d0 el "tabindex")).
    destruct (gt0 _); [|done].
    rewrite getAttribute_setAttribute. by rewrite bool_decide_eq_true_2.
  - done.
  - apply NoDup_querySelectorAll.
  - apply querySelectorAll_lt.
Qed.

Lemma makeTabbable_frame d c :
  frame d (makeInteractiveElementsTabbable this d c).
Proof.
  apply forEach_frame. intros d0 el. cbv beta zeta.
  destruct (_ || _); [apply frame_refl|].
  destruct (negb _); [apply frame_setAttribute, tabindex_managed
                     | apply frame_refl].
Qed.

Lemma makeTabbable_tabindex d c j :
  getAttribute (makeInteractiveElementsTabbable this d c) j "tabindex" =
  if isDescendant d c j
  then coverStep (isInteractiveElement this d j) (isHidden d j)
         (getAttribute d j "tabindex")
  else getAttribute d j "tabindex".
Proof.
  unfold makeInteractiveElementsTabbable.
  rewrite (forEach_tabindex _
    (fun d el t => if isHidden d el then t
                   else if isNone t then Some "0" else t)).
  - unfold coverStep, isInteractiveElement.
    change (existsb (fun sel => matchesOne d j sel) (interactiveSelectors this))
      with (matches d j (interactiveSelectors this)).
    destruct (isDescendant d c j) eqn:Hd.
    + case_bool_decide as Hin.
      * apply elem_of_querySelectorAll in Hin as [_ ->].
        by destruct (isHidden d j).
      * destruct (matches d j (interactiveSelectors this)) eqn:Hm; [|done].
        exfalso. by apply Hin, elem_of_querySelectorAll.
    + rewrite bool_decide_eq_false_2; [done|].
      intros [? _]%elem_of_querySelectorAll. congruence.
  - intros d0 el. cbv beta zeta. destruct (_ || _); [apply frame_refl|].
    destruct (negb _); [apply frame_setAttribute, tabindex_managed
                       | apply frame_refl].
  - intros d0 el j0 Hne. cbv beta zeta. destruct (_ || _); [done|].
    destruct (negb _); [|done].
    rewrite getAttribute_setAttribute.
    by rewrite bool_decide_eq_false_2 by (by intros (?&_)).
  - intros d0 el Hlt. cbv beta zeta. unfold isHidden. destruct (_ || _); [done|].
    rewrite hasAttribute_isNone, negb_involutive.
    destruct (isNone _) eqn:Hn; [|done].
    rewrite getAttribute_setAttribute. by rewrite bool_decide_eq_true_2.
  - intros d0 d' el t Hf. unfold isHidden.
    by rewrite (frame_isVisuallyHidden d0 d'), (frame_hasHiddenParent d0 d').
  - apply NoDup_querySelectorAll.
  - apply querySelectorAll_lt.
Qed.

Lemma validate_frame d c :
  frame d (validateNonInteractiveElements this d c).
Proof.
  apply forEach_frame. intros d0 el. cbv beta zeta.
  destruct (_ && _); [|apply frame_refl].
  destruct (negb _); [apply frame_removeAttribute, tabindex_managed
                     | apply frame_refl].
Qed.

Lemma validate_tabindex d c j :
  getAttribute (validateNonInteractiveElements this d c) j "tabindex" =
  if isDescendant d c j
  then pruneStep (matches d j genericTags) (hasAttribute d j "role")
         (hasKeyboardEventListeners d j) (getAttribute d j "tabindex")
  else getAttribute d j "tabindex".
Proof.
  unfold validateNonInteractiveElements.
  rewrite (forEach_tabindex _
    (fun d el t => if ge0 (parseAttr t) && negb (hasAttribute d el "role")
                      && negb (hasKeyboardEventListeners d el)
                   then None else t)).
  - unfold pruneStep. rewrite nonInteractive_default.
    destruct (isDescendant d c j) eqn:Hd.
    + case_bool_decide as Hin.
      * apply elem_of_querySelectorAll in Hin as [_ Hm].
        rewrite matches_nonInteractive in Hm.
        apply andb_prop in Hm as [-> _]. done.
      * destruct (matches d j genericTags) eqn:Hg; [|done].
        destruct (getAttribute d j "tabindex") as [s|] eqn:Ht; [|done].
        exfalso. apply Hin, elem_of_querySelectorAll. split; [done|].
        rewrite matches_nonInteractive, Hg. unfold hasAttribute.
        by rewrite Ht.
    + rewrite bool_decide_eq_false_2; [done|].
      intros [? _]%elem_of_querySelectorAll. congruence.
  - intros d0 el. cbv beta zeta. destruct (_ && _); [|apply frame_refl].
    destruct (negb _); [apply frame_removeAttribute, tabindex_managed
                       | apply frame_refl].
  - intros d0 el j0 Hne. cbv beta zeta. destruct (_ && _); [|done].
    destruct (negb _); [|done].
    rewrite getAttribute_removeAttribute.
    by rewrite bool_decide_eq_false_2 by (by intros (?&_)).
  - intros d0 el Hlt. cbv beta zeta. unfold tabindexOf.
    change (match getAttribute d0 el "tabindex" with
            | Some s => parseInt s | None => None end)
      with (parseAttr (getAttribute d0 el "tabindex")).
    destruct (ge0 _ && negb (hasAttribute d0 el "role")); [|done].
    simpl. destruct (negb _); [|done].
    rewrite getAttribute_removeAttribute. by rewrite bool_decide_eq_true_2.
  - intros d0 d' el t Hf.
    rewrite (frame_hasAttribute d0 d' Hf el "role") by by_evaluation.
    by rewrite (frame_hasKeyboardEventListeners d0 d').
  - apply NoDup_querySelectorAll.
  - apply querySelectorAll_lt.
Qed.

Lemma frame_isHidden d d' el : frame d d' -> isHidden d el = isHidden d' el.
Proof.
  intros Hf. unfold isHidden.
  by rewrite (frame_isVisuallyHidden d d'), (frame_hasHiddenParent d d').
Qed.

Lemma frame_genericTags d d' el :
  frame d d' -> matches d el genericTags = matches d' el genericTags.
Proof. intros Hf. by apply (frame_matches d d' Hf). Qed.

Lemma frame_normaliseNode d d' j t :
  frame d d' -> normaliseNode this d j t = normaliseNode this d' j t.
Proof.
  intros Hf. unfold normaliseNode.
  rewrite (frame_isInteractiveElement d d'),
    (frame_shouldBeRemovedFromTabOrder d d'), (frame_isHidden d d'),
    (frame_genericTags d d'), (frame_hasKeyboardEventListeners d d') by done.
  by rewrite (frame_hasAttribute d d' Hf j "role") by by_evaluation.
Qed.

Lemma normalise_frame d c : frame d (normalise this d c).
Proof.
  unfold normalise.
  eapply frame_trans; [|apply validate_frame].
  eapply frame_trans;
    [|destruct (ensureInteractiveElements this);
      [apply makeTabbable_frame | apply frame_refl]].
  eapply frame_trans;
    [|destruct (fixHighTabindex this);
      [apply fixHigh_frame | apply frame_refl]].
  destruct (fixNegativeTabindex this);
    [apply fixNegative_frame | apply frame_refl].
Qed.

Lemma normalise_tabindex d c j :
  getAttribute (normalise this d c) j "tabindex" =
  if isDescendant d c j
  then normaliseNode this d j (getAttribute d j "tabindex")
  else getAttribute d j "tabindex".
Proof.
  unfold normalise, normaliseNode.
  set (d1 := if fixNegativeTabindex this
             then fixNegativeTabindexValues this d c else d).
  set (d2 := if fixHighTabindex this
             then fixHighTabindexValues d1 c else d1).
  set (d3 := if ensureInteractiveElements this
             then makeInteractiveElementsTabbable this d2 c else d2).
  assert (frame d d1) as F1.
  { subst d1. destruct (fixNegativeTabindex this);
      [apply fixNegative_frame | apply frame_refl]. }
  assert (frame d d2) as F2.
  { eapply frame_trans; [exact F1|]. subst d2.
    destruct (fixHighTabindex this);
      [apply fixHigh_frame | apply frame_refl]. }
  assert (frame d d3) as F3.
  { eapply frame_trans; [exact F2|]. subst d3.
    destruct (ensureInteractiveElements this);
      [apply makeTabbable_frame | apply frame_refl]. }
  rewrite validate_tabindex.
  rewrite <- (frame_isDescendant d d3 F3), <- (frame_genericTags d d3 j F3),
    <- (frame_hasKeyboardEventListeners d d3 F3),
    <- (frame_hasAttribute d d3 F3 j "role") by by_evaluation.
  assert (getAttribute d3 j "tabindex" =
          if isDescendant d c j
          then (let t := getAttribute d2 j "tabindex" in
                if ensureInteractiveElements this
                then coverStep (isInteractiveElement this d j) (isHidden d j) t
                else t)
          else getAttribute d2 j "tabindex") as E3.
  { subst d3. destruct (ensureInteractiveElements this).
    - rewrite makeTabbable_tabindex.
      by rewrite <- (frame_isDescendant d d2 F2),
        <- (frame_isInteractiveElement d d2 j F2), <- (frame_isHidden d d2 j F2).
    - by destruct (isDescendant d c j). }
  assert (getAttribute d2 j "tabindex" =
          if isDescendant d c j
          then (let t := getAttribute d1 j "tabindex" in
                if fixHighTabindex this then highStep t else t)
          else getAttribute d1 j "tabindex") as E2.
  { subst d2. destruct (fixHighTabindex this).
    - rewrite fixHigh_tabindex. by rewrite <- (frame_isDescendant d d1 F1).
    - by destruct (isDescendant d c j). }
  assert (getAttribute d1 j "tabindex" =
          if isDescendant d c j
          then (let t := getAttribute d j "tabindex" in
                if fixNegativeTabindex this
                then negStep (isInteractiveElement this d j)
                       (shouldBeRemovedFromTabOrder d j) t
                else t)
          else getAttribute d j "tabindex") as E1.
  { subst d1. destruct (fixNegativeTabindex this).
    - by rewrite fixNegative_tabindex.
    - by destruct (isDescendant d c j). }
  rewrite E3, E2, E1. by destruct (isDescendant d c j).
Qed.

(** *** The tooltip and dropdown triggers *)

Lemma dom_handleTrigger marker h trigger s :
  dom (handleTrigger marker h trigger s)
  = handleTriggerDom marker trigger (dom s).
Proof.
  unfold handleTrigger, handleTriggerDom.
  destruct (negb (hasAttribute (dom s) trigger "tabindex")); cbn [dom withDom];
    match goal with
    | |- context [negb (hasAttribute ?d trigger marker)] =>
        destruct (negb (hasAttribute d trigger marker))
    end; reflexivity.
Qed.

Lemma dom_forEach (f : nat -> page -> page) (g : nat -> document -> document)
    l s :
  (forall el s, dom (f el s) = g el (dom s)) ->
  dom (forEach l f s) = forEach l g (dom s).
Proof.
  intros H. unfold forEach. revert s.
  induction l as [|x l IH]; intros s; simpl; [done|].
  by rewrite IH, H.
Qed.

Lemma handleTriggerDom_frame marker trigger d :
  marker ∈ managedAttributes -> frame d (handleTriggerDom marker trigger d).
Proof.
  intros Hm. unfold handleTriggerDom.
  set (d1 := if negb (hasAttribute d trigger "tabindex")
             then setAttribute d trigger "tabindex" "0" else d).
  assert (frame d d1) as F1.
  { subst d1. destruct (negb _);
      [apply frame_setAttribute, tabindex_managed | apply frame_refl]. }
  eapply frame_trans; [exact F1|].
  destruct (negb (hasAttribute d1 trigger marker));
    [by apply frame_setAttribute | apply frame_refl].
Qed.

Lemma triggers_frame marker l d :
  marker ∈ managedAttributes ->
  frame d (forEach l (handleTriggerDom marker) d).
Proof.
  intros Hm. apply forEach_frame. intros. by apply handleTriggerDom_frame.
Qed.

Lemma triggers_tabindex marker sels d c j :
  marker ∈ managedAttributes -> marker <> "tabindex" ->
  getAttribute
    (forEach (querySelectorAll d c sels) (handleTriggerDom marker) d)
    j "tabindex" =
  if isDescendant d c j
  then triggerStep (matches d j sels) (getAttribute d j "tabindex")
  else getAttribute d j "tabindex".
Proof.
  intros Hm Hne.
  rewrite (forEach_tabindex _ (fun _ _ t => triggerStep true t)).
  - destruct (isDescendant d c j) eqn:Hd.
    + case_bool_decide as Hin.
      * by apply elem_of_querySelectorAll in Hin as [_ ->].
      * destruct (matches d j sels) eqn:Hs; [|done].
        exfalso. by apply Hin, elem_of_querySelectorAll.
    + rewrite bool_decide_eq_false_2; [done|].
      intros [? _]%elem_of_querySelectorAll. congruence.
  - intros. by apply handleTriggerDom_frame.
  - intros d0 el j0 Hj. unfold handleTriggerDom.
    destruct (negb (hasAttribute d0 el "tabindex"));
      match goal with
      | |- context [negb (hasAttribute ?dd el marker)] =>
          destruct (negb (hasAttribute dd el marker))
      end;
      rewrite ?getAttribute_setAttribute;
      rewrite ?bool_decide_eq_false_2 by (by intros (?&_)); done.
  - intros d0 el Hlt. unfold handleTriggerDom, triggerStep.
    rewrite (hasAttribute_isNone d0 el "tabindex"), negb_involutive.
    destruct (isNone (getAttribute d0 el "tabindex")) eqn:Hn; cbn [andb];
      match goal with
      | |- context [negb (hasAttribute ?dd el marker)] =>
          destruct (negb (hasAttribute dd el marker))
      end;
      rewrite ?getAttribute_setAttribute;
      rewrite ?(bool_decide_eq_false_2 (el = el /\ "tabindex" = marker /\ _))
        by (intros (_&?&_); congruence);
      rewrite ?bool_decide_eq_true_2; try done;
      rewrite ?length_alter; done.
  - done.
  - apply NoDup_querySelectorAll.
  - apply querySelectorAll_lt.
Qed.

(** *** [fix] on the document *)

Lemma forEach_id {S : Type} l (s : S) : forEach l (fun _ s => s) s = s.
Proof. unfold forEach. by induction l. Qed.

Lemma dom_setupDynamicContentHandlers s :
  dom (setupDynamicContentHandlers s) = dom s.
Proof. reflexivity. Qed.

Lemma dom_setupWizardNavigationSupport c s :
  dom (setupWizardNavigationSupport c s) = dom s.
Proof.
  unfold setupWizardNavigationSupport.
  rewrite (dom_forEach _ (fun _ d => d)); [apply forEach_id|].
  intros wizard s0.
  rewrite (dom_forEach _ (fun _ d => d)) by done. rewrite forEach_id.
  rewrite (dom_forEach _ (fun _ d => d)) by done. apply forEach_id.
Qed.

Lemma dom_setupTooltipAndDropdownHandlers c s :
  dom (setupTooltipAndDropdownHandlers c s) = triggersDom c (dom s).
Proof.
  unfold setupTooltipAndDropdownHandlers, triggersDom. cbv zeta.
  rewrite (dom_forEach _ (handleTriggerDom "data-dropdown-keyboard-handled"))
    by apply dom_handleTrigger.
  by rewrite (dom_forEach _ (handleTriggerDom "data-tooltip-keyboard-handled"))
    by apply dom_handleTrigger.
Qed.

Lemma triggersDom_frame c d : frame d (triggersDom c d).
Proof.
  unfold triggersDom. cbv zeta.
  eapply frame_trans; apply triggers_frame; by_evaluation.
Qed.

Lemma triggersDom_tabindex c d j :
  getAttribute (triggersDom c d) j "tabindex" =
  if isDescendant d c j
  then triggerStep (matches d j dropdownTriggerSelectors)
         (triggerStep (matches d j tooltipTriggerSelectors)
            (getAttribute d j "tabindex"))
  else getAttribute d j "tabindex".
Proof.
  unfold triggersDom. cbv zeta.
  set (d1 := forEach (querySelectorAll d c tooltipTriggerSelectors)
               (handleTriggerDom "data-tooltip-keyboard-handled") d).
  assert (frame d d1) as F1 by (apply triggers_frame; by_evaluation).
  rewrite triggers_tabindex by (by_evaluation || done).
  rewrite <- (frame_isDescendant d d1 F1).
  rewrite <- (frame_matches d d1 F1 j dropdownTriggerSelectors) by done.
  subst d1. rewrite triggers_tabindex by (by_evaluation || done).
  by destruct (isDescendant d c j).
Qed.

Lemma dom_fix s c :
  document_querySelector (dom s) (container this) = Some c ->
  dom (fix_ this s) = fixDom this c (dom s).
Proof.
  intros Hc. unfold fix_, fixDom. rewrite Hc.
  destruct (handleTooltipsAndDropdowns this),
    (supportWizardNavigation this), (enableDynamicContentSupport this),
    (enableMutationObserver this);
    rewrite ?dom_setupTooltipAndDropdownHandlers,
      ?dom_setupWizardNavigationSupport; reflexivity.
Qed.

Lemma dom_fix_not_found s :
  document_querySelector (dom s) (container this) = None ->
  fix_ this s = s.
Proof. intros Hc. unfold fix_. by rewrite Hc. Qed.

Lemma fixDom_frame c d : frame d (fixDom this c d).
Proof.
  unfold fixDom. cbv zeta.
  destruct (handleTooltipsAndDropdowns this); [|apply normalise_frame].
  eapply frame_trans; [apply normalise_frame | apply triggersDom_frame].
Qed.

Lemma fixDom_tabindex c d j :
  getAttribute (fixDom this c d) j "tabindex" =
  if isDescendant d c j then fixNode this d j (getAttribute d j "tabindex")
  else getAttribute d j "tabindex".
Proof.
  unfold fixDom, fixNode. cbv zeta.
  pose proof (normalise_frame d c) as F.
  destruct (handleTooltipsAndDropdowns this).
  - rewrite triggersDom_tabindex, normalise_tabindex.
    rewrite <- (frame_isDescendant _ _ F).
    rewrite <- !(frame_matches _ _ F j) by done.
    by destruct (isDescendant d c j).
  - apply normalise_tabindex.
Qed.
End Passes.

(** The managers the constructor builds satisfy the two assumptions. *)
Lemma new_interactive_clean options :
  forallb cleanSelector (interactiveSelectors (new_TabindexManager options))
  = true.
Proof. reflexivity. Qed.

Lemma new_nonInteractive_default options :
  nonInteractiveWithTabindex (new_TabindexManager options)
  = defaultNonInteractiveWithTabindex.
Proof. reflexivity. Qed.

(** ** Properties that every step keeps *)

Lemma negStep_keeps P i r t : keptByPasses P -> P t -> P (negStep i r t).
Proof. intros [_ H0] Ht. unfold negStep. by destruct (_ && _). Qed.

Lemma highStep_keeps P t : keptByPasses P -> P t -> P (highStep t).
Proof. intros [_ H0] Ht. unfold highStep. by destruct (gt0 _). Qed.

Lemma coverStep_keeps P i h t : keptByPasses P -> P t -> P (coverStep i h t).
Proof. intros [_ H0] Ht. unfold coverStep. by destruct (_ && _). Qed.

Lemma pruneStep_keeps P g r k t : keptByPasses P -> P t -> P (pruneStep g r k t).
Proof. intros [HN _] Ht. unfold pruneStep. by destruct (_ && _). Qed.

Lemma triggerStep_keeps P b t : keptByPasses P -> P t -> P (triggerStep b t).
Proof. intros [_ H0] Ht. unfold triggerStep. by destruct (_ && _). Qed.

Lemma notPositive_kept : keptByPasses (fun t => gt0 (parseAttr t) = false).
Proof. by split. Qed.

Lemma notNegative_kept : keptByPasses (fun t => lt0 (parseAttr t) = false).
Proof. by split. Qed.

Lemma highStep_notPositive t : gt0 (parseAttr (highStep t)) = false.
Proof. unfold highStep. by destruct (gt0 (parseAttr t)) eqn:H. Qed.

Lemma shouldBeRemoved_false_isHidden (d : document) el :
  shouldBeRemovedFromTabOrder d el = false -> isHidden d el = false.
Proof.
  unfold shouldBeRemovedFromTabOrder, isHidden. by destruct (_ || _).
Qed.

Lemma tabindexOf_parseAttr (d : document) el :
  tabindexOf d el = parseAttr (getAttribute d el "tabindex").
Proof. reflexivity. Qed.

(** ** The passes of [fix] on the nodes of the container *)

Lemma link_interactive (options : managerOptions) (d : list element) el :
  matches d el linkSelector = true ->
  isInteractiveElement (new_TabindexManager options) d el = true.
Proof.
  unfold matches, linkSelector. cbn [existsb]. rewrite orb_false_r.
  intros H. unfold isInteractiveElement. cbn [interactiveSelectors
    new_TabindexManager defaultInteractiveSelectors existsb].
  by rewrite H.
Qed.

Lemma link_not_generic (d : list element) el :
  matches d el linkSelector = true -> matches d el genericTags = false.
Proof.
  unfold matches, linkSelector, genericTags.
  cbn [existsb matchesOne matchesCompound forallb matchesSimple].
  destruct (d !! el) as [e|]; [|done].
  rewrite !andb_true_r, !orb_false_r.
  intros [Htag _]%andb_prop. apply bool_decide_eq_true in Htag.
  rewrite Htag. reflexivity.
Qed.

Lemma div_generic (d : list element) el :
  matches d el divSelector = true -> matches d el genericTags = true.
Proof.
  unfold matches, divSelector, genericTags. cbn [existsb].
  rewrite orb_false_r. by intros ->.
Qed.

(** C4, as the claim states it, fails: after [fix] the link carries
    tabindex "0", and the div carries no tabindex at all: the collapse
    rewrites "5" to "0" and the prune pass then removes the attribute. *)
Lemma link_and_div_counterexample :
  matches linkAndDiv 1 linkSelector = true
  /\ getAttribute linkAndDiv 1 "tabindex" = Some "-1"
  /\ matches linkAndDiv 2 divSelector = true
  /\ getAttribute linkAndDiv 2 "tabindex" = Some "5"
  /\ getAttribute (dom (fix_ defaultManager (freshPage linkAndDiv None))) 1
       "tabindex" = Some "0"
  /\ getAttribute (dom (fix_ defaultManager (freshPage linkAndDiv None))) 2
       "tabindex" = None.
Proof. repeat split; vm_compute; reflexivity. Qed.

(** C4, amended.  In a container that holds a visible link ([a[href]])
    with tabindex "-1" and a generic div with tabindex "5", no role, no
    keyboard handler attribute and no tooltip or dropdown marker: after
    [fix] with the default passes the link's tabindex is "0" and the div
    has no tabindex attribute. *)
Theorem fix_link_and_generic_div (options : managerOptions) (s : page)
    (c link div : nat) :
  fixNegativeTabindex (new_TabindexManager options) = true ->
  fixHighTabindex (new_TabindexManager options) = true ->
  document_querySelector (dom s) (container (new_TabindexManager options))
    = Some c ->
  isDescendant (dom s) c link = true ->
  matches (dom s) link linkSelector = true ->
  shouldBeRemovedFromTabOrder (dom s) link = false ->
  getAttribute (dom s) link "tabindex" = Some "-1" ->
  isDescendant (dom s) c div = true ->
  matches (dom s) div divSelector = true ->
  getAttribute (dom s) div "tabindex" = Some "5" ->
  hasAttribute (dom s) div "role" = false ->
  hasKeyboardEventListeners (dom s) div = false ->
  matches (dom s) div tooltipTriggerSelectors = false ->
  matches (dom s) div dropdownTriggerSelectors = false ->
  getAttribute (dom (fix_ (new_TabindexManager options) s)) link "tabindex"
    = Some "0"
  /\ getAttribute (dom (fix_ (new_TabindexManager options) s)) div "tabindex"
    = None.
Proof.
  intros Hneg Hhigh Hc Hdl Hl Hrl Htl Hdd Hv Htv Hrole Hkeys Htt Hdt.
  rewrite (dom_fix _ s c Hc). split.
  - rewrite fixDom_tabindex by reflexivity. rewrite Hdl, Htl.
    unfold fixNode, normaliseNode.
    rewrite Hneg, Hhigh, (link_interactive options _ _ Hl), Hrl,
      (link_not_generic _ _ Hl).
    case_facts; reflexivity.
  - rewrite fixDom_tabindex by reflexivity. rewrite Hdd, Htv.
    unfold fixNode, normaliseNode.
    rewrite Hneg, Hhigh, (div_generic _ _ Hv), Hrole, Hkeys, Htt, Hdt.
    case_facts; reflexivity.
Qed.

Lemma fix_link_and_generic_div_witness :
  getAttribute
    (dom (fix_ (new_TabindexManager noOptions) (freshPage linkAndDiv None)))
    1 "tabindex" = Some "0"
  /\ getAttribute
       (dom (fix_ (new_TabindexManager noOptions) (freshPage linkAndDiv None)))
       2 "tabindex" = None.
Proof.
  apply (fix_link_and_generic_div noOptions (freshPage linkAndDiv None) 0 1 2);
    vm_compute; reflexivity.
Defined.

(** ** The visibility tests *)

Lemma hasHiddenParent_loop_existsb fuel (d : list element) p :
  hasHiddenParent_loop fuel d p
  = existsb (fun a => isVisuallyHidden d a || ariaHidden d a)
      (ancestorsFrom fuel d p).
Proof.
  revert p. induction fuel as [|f IH]; intros [a|]; simpl; try done.
  rewrite IH. by destruct (isVisuallyHidden d a || ariaHidden d a).
Qed.

Lemma hasHiddenParent_existsb (d : list element) el :
  hasHiddenParent d el
  = existsb (fun a => isVisuallyHidden d a || ariaHidden d a) (ancestors d el).
Proof. apply hasHiddenParent_loop_existsb. Qed.

(** The fuel of the ancestor walk is enough: in a document the chain of
    parents of a node is strictly decreasing, so it ends within the size
    of the arena, and more fuel finds nothing more. *)
Lemma ancestorsFrom_enough (d : list element) :
  wf_document d ->
  forall fuel a extra,
    a < fuel ->
    ancestorsFrom (fuel + extra) d (Some a) = ancestorsFrom fuel d (Some a).
Proof.
  intros Hwf fuel. induction fuel as [|f IH]; intros a extra Hlt; [lia|].
  cbn [Nat.add ancestorsFrom]. f_equal.
  unfold parentElement. destruct (d !! a) as [e|] eqn:He.
  - destruct (parent e) as [p|] eqn:Hp.
    + apply IH. specialize (Hwf a e p He Hp). lia.
    + by rewrite !ancestorsFrom_None.
  - by rewrite !ancestorsFrom_None.
Qed.

Lemma ancestors_enough (d : list element) el extra :
  wf_document d ->
  ancestorsFrom (length d + extra) d (parentElement d el) = ancestors d el.
Proof.
  intros Hwf. unfold ancestors, parentElement.
  destruct (d !! el) as [e|] eqn:He; [|by rewrite !ancestorsFrom_None].
  destruct (parent e) as [p|] eqn:Hp; [|by rewrite !ancestorsFrom_None].
  apply ancestorsFrom_enough; [done|].
  specialize (Hwf el e p He Hp). apply lookup_lt_Some in He. lia.
Qed.

(** C9, as the claim states it, fails: on an absent node both tests
    throw a TypeError instead of answering true, and a detached node,
    whose computed style is empty and which has no parent, is reported
    as not hidden by both. *)
Lemma absent_or_detached_counterexample :
  isVisuallyHidden_of withDetached None
    = Throws (TypeError "parameter 1 is not of type 'Element'.")
  /\ hasHiddenParent_of withDetached None
    = Throws (TypeError
        "Cannot read properties of null (reading 'parentElement')")
  /\ parentElement withDetached 1 = None
  /\ getComputedStyle withDetached 1 = emptyStyle
  /\ isVisuallyHidden_of withDetached (Some 1) = Returns false
  /\ hasHiddenParent_of withDetached (Some 1) = Returns false.
Proof. repeat split; vm_compute; reflexivity. Qed.

(** C9, amended.  On every node that is present the two tests return a
    boolean and raise nothing: [isVisuallyHidden] answers from the
    node's own computed style, [hasHiddenParent] is true exactly when
    one of the node's ancestors is visually hidden or carries
    aria-hidden="true".  A node without a parent has no hidden parent,
    and a node whose computed style is empty is not visually hidden. *)
Theorem visibility_tests_on_present_nodes (d : list element) (el : nat) :
  isVisuallyHidden_of d (Some el) = Returns (isVisuallyHidden d el)
  /\ hasHiddenParent_of d (Some el)
     = Returns (existsb (fun a => isVisuallyHidden d a || ariaHidden d a)
                  (ancestors d el))
  /\ (parentElement d el = None ->
      hasHiddenParent_of d (Some el) = Returns false)
  /\ (getComputedStyle d el = emptyStyle ->
      isVisuallyHidden_of d (Some el) = Returns false).
Proof.
  split; [reflexivity|]. split.
  { unfold hasHiddenParent_of. by rewrite hasHiddenParent_existsb. }
  split.
  - intros Hp. unfold hasHiddenParent_of, hasHiddenParent. rewrite Hp.
    by destruct (length d).
  - intros Hs. unfold isVisuallyHidden_of, window_getComputedStyle.
    by rewrite Hs.
Qed.

Lemma visibility_tests_on_present_nodes_witness :
  parentElement withDetached 1 = None
  /\ getComputedStyle withDetached 1 = emptyStyle
  /\ hasHiddenParent_of withDetached (Some 1) = Returns false
  /\ isVisuallyHidden_of withDetached (Some 1) = Returns false.
Proof.
  pose proof (visibility_tests_on_present_nodes withDetached 1)
    as (_ & _ & Hparent & Hstyle).
  split; [reflexivity|]. split; [reflexivity|].
  split; [apply Hparent | apply Hstyle]; reflexivity.
Defined.

(** ** The focus trap *)

(** C5. For a region whose tabbable members at trap time are
    [m0, ..., mn], [setupFocusTrap] registers a keydown intercept on the
    region whose handler wraps: Tab with the focus on [mn] prevents the
    default and calls [focus()] on [m0], Shift+Tab with the focus on
    [m0] prevents the default and calls [focus()] on [mn], and Tab from
    any member other than these two is left to the default handling. *)
Theorem trap_wraps (this : TabindexManager) (s : page) (region : nat)
    (options : trapOptions) (members : list nat) (m0 mn : nat) :
  findTabbableElements this (dom s) region = members ->
  head members = Some m0 ->
  last members = Some mn ->
  exists session env s',
    setupFocusTrap this (Some region) options s = (TrapHandle session, s')
    /\ sessions s' !! session = Some env
    /\ Build_listener (Some region) "keydown" (TrapKeyDown session)
       ∈ listeners s'
    /\ forall later : page,
         (activeElement later = Some mn ->
          handleKeyDown env (tabKey false) later
          = Build_keyOutcome true [m0] [])
         /\ (activeElement later = Some m0 ->
             handleKeyDown env (tabKey true) later
             = Build_keyOutcome true [mn] [])
         /\ (forall m shift,
               m ∈ members -> m <> m0 -> m <> mn ->
               activeElement later = Some m ->
               handleKeyDown env (tabKey shift) later
               = Build_keyOutcome false [] []).
Proof.
  intros Hfind Hhead Hlast.
  unfold setupFocusTrap. rewrite Hfind.
  destruct members as [|m l]; [discriminate|].
  cbn [length Nat.eqb]. rewrite Hhead, Hlast. cbn [from_option id].
  eexists _, _, _. split; [reflexivity|]. split.
  { cbn [sessions newSession addEventListener setTimeout].
    apply list_lookup_middle. reflexivity. }
  split.
  { cbn [listeners addEventListener]. apply elem_of_app. right.
    apply elem_of_cons. by left. }
  intros later. unfold handleKeyDown, tabKey.
  cbn [key shiftKey firstTabbable lastTabbable].
  change (String.eqb "Tab" "Tab") with true.
  change (String.eqb "Tab" "Escape") with false. cbv iota.
  repeat split.
  - intros ->. by rewrite bool_decide_eq_true_2.
  - intros ->. by rewrite bool_decide_eq_true_2.
  - intros x shift _ Hx0 Hxn ->.
    destruct shift;
      (rewrite bool_decide_eq_false_2; [reflexivity | congruence]).
Qed.

Lemma trap_wraps_witness :
  findTabbableElements defaultManager dialogWithThree 1 = [2; 3; 4]
  /\ exists session env s',
       setupFocusTrap defaultManager (Some 1) noTrapOptions
         (freshPage dialogWithThree (Some 0)) = (TrapHandle session, s')
       /\ handleKeyDown env (tabKey false) (freshPage dialogWithThree (Some 4))
          = Build_keyOutcome true [2] []
       /\ handleKeyDown env (tabKey true) (freshPage dialogWithThree (Some 2))
          = Build_keyOutcome true [4] []
       /\ handleKeyDown env (tabKey false) (freshPage dialogWithThree (Some 3))
          = Build_keyOutcome false [] [].
Proof.
  split; [vm_compute; reflexivity|].
  destruct (trap_wraps defaultManager (freshPage dialogWithThree (Some 0)) 1
              noTrapOptions [2; 3; 4] 2 4)
    as (session & env & s' & Hs & _ & _ & Hk);
    [vm_compute; reflexivity | reflexivity | reflexivity |].
  exists session, env, s'. split; [exact Hs|].
  split; [apply (Hk (freshPage dialogWithThree (Some 4))); reflexivity|].
  split; [apply (Hk (freshPage dialogWithThree (Some 2))); reflexivity|].
  apply (Hk (freshPage dialogWithThree (Some 3))) with (m := 3);
    [ apply elem_of_cons; right; apply elem_of_cons; by left
    | lia | lia | reflexivity ].
Defined.

(** C10. With an absent region [setupFocusTrap] returns at once: the page
    is as it was (no listener, no timer, no session, no attribute
    written), and both methods of the handle it returns leave any page
    as it is and return normally. *)
Theorem trap_on_absent_region (this : TabindexManager) (options : trapOptions)
    (s : page) :
  snd (setupFocusTrap this None options s) = s
  /\ forall later : page,
       remove (fst (setupFocusTrap this None options s)) later = later
       /\ updateTabbableElements this
            (fst (setupFocusTrap this None options s)) later
          = Normal tt later.
Proof. split; [reflexivity|]. intros later. split; reflexivity. Qed.

(** *** What goes wrong in the trap *)

(** Whenever the region of a session has a tabbable element,
    [updateTabbableElements] throws: it assigns to [firstTabbable]. *)
Lemma updateTabbableElements_throws (this : TabindexManager) (s : page)
    (session : nat) (env : trapEnv) :
  sessions s !! session = Some env ->
  findTabbableElements this (dom s) (modalElement env) <> [] ->
  thrown (updateTabbableElements this (TrapHandle session) s)
  = Some (TypeError "Assignment to constant variable.").
Proof.
  intros Hs Hne. unfold updateTabbableElements. rewrite Hs.
  destruct (findTabbableElements this (dom s) (modalElement env)); [done|].
  reflexivity.
Qed.

(** C6 fails on the code: on a dialog that holds one button, the handle
    [setupFocusTrap] returned throws a TypeError when its
    [updateTabbableElements] is called. *)
Theorem updateTabbableElements_throws_on_dialog :
  fst armedOnce = TrapHandle 0
  /\ findTabbableElements defaultManager (dom (snd armedOnce)) 1 = [2]
  /\ thrown (updateTabbableElements defaultManager (fst armedOnce)
               (snd armedOnce))
     = Some (TypeError "Assignment to constant variable.").
Proof. repeat split; vm_compute; reflexivity. Qed.

(** Every call of [setupFocusTrap] on a present region adds one key
    intercept to it, armed or not. *)
Lemma setupFocusTrap_adds_intercept (this : TabindexManager) (region : nat)
    (options : trapOptions) (s : page) :
  length (keyIntercepts (snd (setupFocusTrap this (Some region) options s))
            region)
  = S (length (keyIntercepts s region)).
Proof.
  unfold setupFocusTrap.
  destruct (length (findTabbableElements this (dom s) region) =? 0);
    cbn [snd]; unfold keyIntercepts;
    cbn [listeners addEventListener newSession setTimeout withDom];
    rewrite filter_app, length_app; cbn [filter list_filter];
    (rewrite decide_True by done); cbn [length]; lia.
Qed.

(** C7 fails on the code: a second [setupFocusTrap] on the dialog that
    is already armed installs a second key intercept, opens a second
    session with its own captured element, and schedules a second
    focus move. *)
Theorem second_trap_installs_second_intercept :
  length (keyIntercepts (snd armedOnce) 1) = 1
  /\ length (keyIntercepts (snd armedTwice) 1) = 2
  /\ map previouslyFocusedElement (sessions (snd armedTwice))
     = [Some 0; Some 0]
  /\ timers (snd armedTwice) = [FocusLater 2 50; FocusLater 2 50].
Proof. repeat split; vm_compute; reflexivity. Qed.

(** The auto-arm path has the guard that [setupFocusTrap] lacks: a second
    [processDynamicContent] over an armed dialog installs nothing. *)
Lemma detect_guards_rearm :
  length (keyIntercepts
            (processDynamicContent defaultManager 0
               (freshPage dialogWithButton None)) 1) = 1
  /\ length (keyIntercepts
               (processDynamicContent defaultManager 0
                  (processDynamicContent defaultManager 0
                     (freshPage dialogWithButton None))) 1) = 1.
Proof. repeat split; vm_compute; reflexivity. Qed.

(** ** The audit *)

(** C8 fails on the code: the positive values come first, ascending,
    ties in document order, but among the rest the link (node 1, no
    tabindex) comes after the button (node 2, tabindex "0") although it
    precedes it in the document: the entries with an attribute are
    collected before the unmarked ones and the sort keeps that order. *)
Theorem audit_puts_unmarked_last :
  analyzeTabOrder defaultManager mixedOrder 0
  = [ Build_tabEntry 4 2; Build_tabEntry 3 3; Build_tabEntry 5 3;
      Build_tabEntry 2 0; Build_tabEntry 1 0 ].
Proof. vm_compute. reflexivity. Qed.

(** ** Running the scan twice *)

(** C1 fails on the code: the first [processDynamicContent] arms the
    empty modal and, finding nothing tabbable in it, gives the modal
    itself tabindex "0"; the second finds a div with a tabindex, no role
    and no key handler, and removes the attribute, while the session
    still holds the modal as its only boundary. *)
Theorem second_scan_strips_trapped_modal :
  getAttribute (dom scannedOnce) 1 "tabindex" = Some "0"
  /\ getAttribute (dom scannedTwice) 1 "tabindex" = None
  /\ map firstTabbable (sessions scannedTwice) = [1].
Proof. repeat split; vm_compute; reflexivity. Qed.

(** ** Running the normaliser twice *)

Lemma negStep_flag (fn i r : bool) (t : option string) :
  (if fn then negStep i r t else t)
  = if (fn && i && negb r) && bool_decide (t = Some "-1") then Some "0" else t.
Proof. unfold negStep. by destruct fn, i, r, (bool_decide _). Qed.

Lemma highStep_flag (fh : bool) (t : option string) :
  (if fh then highStep t else t)
  = if fh && gt0 (parseAttr t) then Some "0" else t.
Proof. unfold highStep. by destruct fh. Qed.

Lemma coverStep_flag (ei i h : bool) (t : option string) :
  (if ei then coverStep i h t else t)
  = if (ei && i && negb h) && isNone t then Some "0" else t.
Proof. unfold coverStep. by destruct ei, i, h. Qed.

Lemma pruneStep_flag (g ro k : bool) (t : option string) :
  pruneStep g ro k t
  = if (g && negb ro && negb k) && ge0 (parseAttr t) then None else t.
Proof. unfold pruneStep. by destruct g, ro, k, (ge0 _). Qed.

Lemma triggerStep_twice (dd tt : bool) (t : option string) :
  triggerStep dd (triggerStep tt t)
  = if (dd || tt) && isNone t then Some "0" else t.
Proof. unfold triggerStep. by destruct dd, tt, t. Qed.

Lemma normaliseNode_passesOn (this : TabindexManager) (d : list element)
    (j : nat) (t : option string) :
  normaliseNode this d j t
  = passesOn
      (fixNegativeTabindex this && isInteractiveElement this d j
       && negb (shouldBeRemovedFromTabOrder d j))
      (fixHighTabindex this)
      (ensureInteractiveElements this && isInteractiveElement this d j
       && negb (isHidden d j))
      (matches d j genericTags && negb (hasAttribute d j "role")
       && negb (hasKeyboardEventListeners d j)) t.
Proof.
  unfold normaliseNode, passesOn. cbv zeta.
  by rewrite negStep_flag, highStep_flag, coverStep_flag, pruneStep_flag.
Qed.

Lemma fixNode_fixOn (this : TabindexManager) (d : list element)
    (j : nat) (t : option string) :
  fixNode this d j t
  = fixOn
      (fixNegativeTabindex this && isInteractiveElement this d j
       && negb (shouldBeRemovedFromTabOrder d j))
      (fixHighTabindex this)
      (ensureInteractiveElements this && isInteractiveElement this d j
       && negb (isHidden d j))
      (matches d j genericTags && negb (hasAttribute d j "role")
       && negb (hasKeyboardEventListeners d j))
      (handleTooltipsAndDropdowns this
       && (matches d j dropdownTriggerSelectors
           || matches d j tooltipTriggerSelectors)) t.
Proof.
  unfold fixNode, fixOn. cbv zeta. rewrite normaliseNode_passesOn.
  destruct (handleTooltipsAndDropdowns this); [|done].
  by rewrite triggerStep_twice.
Qed.

Lemma passesOn_idempotent (a b c e : bool) (t : option string) :
  passesOn a b c e (passesOn a b c e t) = passesOn a b c e t.
Proof.
  unfold passesOn. destruct t as [s|].
  - destruct (decide (s = "-1")) as [->|Hs].
    + destruct a, b, c, e; vm_compute; reflexivity.
    + assert (bool_decide (Some s = Some "-1") = false) as Hbs
        by (apply bool_decide_eq_false_2; congruence).
      destruct (parseInt s) as [[|p|p]|] eqn:Hps;
        destruct a, b, c, e; run_passes Hbs Hps.
  - destruct a, b, c, e; vm_compute; reflexivity.
Qed.

Lemma fixOn_idempotent (a b c e q : bool) (t : option string) :
  fixOn a b c e q (fixOn a b c e q t) = fixOn a b c e q t.
Proof.
  unfold fixOn. cbv zeta.
  destruct (passesOn a b c e t) as [y|] eqn:E.
  - rewrite andb_false_r, <- E, passesOn_idempotent, E. by rewrite andb_false_r.
  - destruct q; cbn [andb isNone].
    + destruct a, b, c, e; vm_compute; reflexivity.
    + by rewrite <- E, passesOn_idempotent, E.
Qed.

Lemma frame_document_querySelector (d d' : list element) sels :
  frame d d' -> forallb cleanSelector sels = true ->
  document_querySelector d sels = document_querySelector d' sels.
Proof.
  intros Hf Hc. unfold document_querySelector.
  rewrite <- (frame_length _ _ Hf). f_equal.
  induction (seq 0 (length d)) as [|x l IH]; [done|].
  rewrite !filter_cons, IH. by rewrite (frame_matches d d' Hf).
Qed.

Lemma frame_fixNode (this : TabindexManager) (d d' : list element) j t :
  forallb cleanSelector (interactiveSelectors this) = true ->
  frame d d' -> fixNode this d j t = fixNode this d' j t.
Proof.
  intros Hc Hf. unfold fixNode. cbv zeta.
  rewrite (frame_normaliseNode this Hc d d' j t Hf).
  by rewrite !(frame_matches d d' Hf j) by done.
Qed.

(** X1. Idempotence of the normaliser: a second run of the four passes over
    the same container changes the tabindex of no node, whichever of the
    optional passes are switched on. *)
Theorem normalise_idempotent_tabindex (options : managerOptions)
    (d : list element) (c j : nat) :
  getAttribute
    (normalise (new_TabindexManager options)
       (normalise (new_TabindexManager options) d c) c) j "tabindex"
  = getAttribute (normalise (new_TabindexManager options) d c) j "tabindex".
Proof.
  set (this := new_TabindexManager options).
  pose proof (normalise_frame this d c) as F.
  rewrite (normalise_tabindex this eq_refl eq_refl (normalise this d c)).
  rewrite <- (frame_isDescendant _ _ F).
  rewrite <- (frame_normaliseNode this eq_refl _ _ j _ F).
  rewrite (normalise_tabindex this eq_refl eq_refl d).
  destruct (isDescendant d c j); [|done].
  rewrite !normaliseNode_passesOn. apply passesOn_idempotent.
Qed.

(** X2. Idempotence of [fix] on the document: when the container selector
    reads no attribute that the passes write, a second [fix] leaves
    every node with the tabindex the first one left. *)
Theorem fix_twice_same_tabindex (options : managerOptions) (s : page)
    (c j : nat) :
  forallb cleanSelector (container (new_TabindexManager options)) = true ->
  document_querySelector (dom s) (container (new_TabindexManager options))
    = Some c ->
  getAttribute
    (dom (fix_ (new_TabindexManager options)
            (fix_ (new_TabindexManager options) s))) j "tabindex"
  = getAttribute (dom (fix_ (new_TabindexManager options) s)) j "tabindex".
Proof.
  set (this := new_TabindexManager options). intros Hclean Hc.
  pose proof (dom_fix this s c Hc) as E1.
  pose proof (fixDom_frame this c (dom s)) as F.
  assert (document_querySelector (dom (fix_ this s)) (container this) = Some c)
    as Hc2.
  { rewrite E1, <- (frame_document_querySelector _ _ _ F Hclean). exact Hc. }
  rewrite (dom_fix this (fix_ this s) c Hc2), E1.
  rewrite (fixDom_tabindex this eq_refl eq_refl c (fixDom this c (dom s))).
  rewrite <- (frame_isDescendant _ _ F).
  rewrite <- (frame_fixNode this _ _ j _ eq_refl F).
  rewrite (fixDom_tabindex this eq_refl eq_refl c (dom s)).
  destruct (isDescendant (dom s) c j); [|done].
  rewrite !fixNode_fixOn. apply fixOn_idempotent.
Qed.

Lemma fix_twice_same_tabindex_witness :
  getAttribute
    (dom (fix_ (new_TabindexManager noOptions)
            (fix_ (new_TabindexManager noOptions)
               (freshPage linkAndDiv None)))) 2 "tabindex"
  = getAttribute
      (dom (fix_ (new_TabindexManager noOptions) (freshPage linkAndDiv None)))
      2 "tabindex".
Proof.
  apply (fix_twice_same_tabindex noOptions (freshPage linkAndDiv None) 0 2);
    vm_compute; reflexivity.
Defined.

(** ** What the audit lists *)

Lemma elem_of_sortInsert cmp (x y : tabEntry) l :
  x ∈ sortInsert cmp y l <-> x = y \/ x ∈ l.
Proof.
  induction l as [|z l IH]; simpl.
  - rewrite elem_of_cons. rewrite elem_of_nil. tauto.
  - destruct (cmp y z <=? 0)%Z.
    + by rewrite elem_of_cons.
    + rewrite !elem_of_cons, IH. tauto.
Qed.

Lemma elem_of_Array_sort cmp (x : tabEntry) l :
  x ∈ Array_sort cmp l <-> x ∈ l.
Proof.
  unfold Array_sort. induction l as [|y l IH]; simpl; [done|].
  rewrite elem_of_sortInsert, IH, elem_of_cons. tauto.
Qed.

Lemma forEach_Forall {A : Type} (P : A -> Prop) (f : nat -> list A -> list A)
    (scope : nat -> Prop) l acc :
  (forall el acc, scope el -> Forall P acc -> Forall P (f el acc)) ->
  (forall el, el ∈ l -> scope el) ->
  Forall P acc -> Forall P (forEach l f acc).
Proof.
  intros Hf. unfold forEach. revert acc.
  induction l as [|x l IH]; intros acc Hl Hacc; simpl; [done|].
  apply IH.
  - intros el Hel. apply Hl, elem_of_cons. by right.
  - apply Hf; [|done]. apply Hl, elem_of_cons. by left.
Qed.

(** X3. Exclusion: every entry of the audit is a node of the container that
    is not hidden, has no hidden ancestor and is not aria-hidden, with
    an order that is not negative. *)
Theorem audit_lists_only_shown_nodes (this : TabindexManager)
    (d : list element) (c : nat) :
  Forall (fun e =>
            isDescendant d c (entryElement e) = true
            /\ shouldBeRemovedFromTabOrder d (entryElement e) = false
            /\ (0 <= entryTabindex e)%Z)
    (analyzeTabOrder this d c).
Proof.
  apply Forall_forall. intros e He.
  unfold analyzeTabOrder in He. apply elem_of_Array_sort in He.
  revert e He. apply Forall_forall.
  apply (forEach_Forall _ _ (fun el => isDescendant d c el = true)).
  - intros el acc Hel Hacc.
    destruct (negb (hasAttribute d el "tabindex")
              && negb (shouldBeRemovedFromTabOrder d el)) eqn:E; [|done].
    apply Forall_app. split; [done|]. apply Forall_singleton.
    apply andb_prop in E as [_ E]. apply negb_true_iff in E. simpl.
    split; [done|]. split; [done|lia].
  - intros el [Hel _]%elem_of_querySelectorAll. done.
  - apply (forEach_Forall _ _ (fun el => isDescendant d c el = true)).
    + intros el acc Hel Hacc.
      destruct (tabindexOf d el) as [z|]; [|done].
      destruct ((0 <=? z)%Z && negb (shouldBeRemovedFromTabOrder d el))
        eqn:E; [|done].
      apply Forall_app. split; [done|]. apply Forall_singleton.
      apply andb_prop in E as [Ez E]. apply negb_true_iff in E. simpl.
      split; [done|]. split; [done|lia].
    + intros el [Hel _]%elem_of_querySelectorAll. done.
    + constructor.
Qed.

(** ** The scan of dynamic content *)

Lemma dom_setupFocusTrap (this : TabindexManager) (m : nat)
    (options : trapOptions) (s : page) :
  dom (snd (setupFocusTrap this (Some m) options s))
  = if length (findTabbableElements this (dom s) m) =? 0
    then setAttribute (dom s) m "tabindex" "0"
    else dom s.
Proof.
  unfold setupFocusTrap.
  by destruct (length (findTabbableElements this (dom s) m) =? 0).
Qed.

Lemma forEach_invariant {S : Type} (Inv : S -> Prop) (f : nat -> S -> S) l s :
  (forall el s, Inv s -> Inv (f el s)) -> Inv s -> Inv (forEach l f s).
Proof.
  intros Hf. unfold forEach. revert s.
  induction l as [|x l IH]; intros s Hs; simpl; [done|]. by apply IH, Hf.
Qed.

(** Arming dialogs writes tabindex "0" or leaves the tabindex alone. *)
Lemma detect_tabindex (this : TabindexManager) (c : nat) (s : page) (j : nat) :
  getAttribute (dom (detectAndHandleDialogs this c s)) j "tabindex"
  = getAttribute (dom s) j "tabindex"
  \/ getAttribute (dom (detectAndHandleDialogs this c s)) j "tabindex"
     = Some "0".
Proof.
  unfold detectAndHandleDialogs.
  apply (forEach_invariant
           (fun s' => getAttribute (dom s') j "tabindex"
                      = getAttribute (dom s) j "tabindex"
                      \/ getAttribute (dom s') j "tabindex" = Some "0"));
    [|by left].
  intros dialog s0 IH.
  destruct (negb (isVisuallyHidden (dom s0) dialog)
            && negb (hasAttribute (dom s0) dialog "data-focus-trap-active"));
    [|exact IH].
  match goal with
  | |- context [setupFocusTrap this (Some dialog) ?o ?s1] =>
      pose proof (dom_setupFocusTrap this dialog o s1) as E;
      destruct (setupFocusTrap this (Some dialog) o s1) as [h s2]
  end.
  cbn [snd dom observe storeRemoveFocusTrap withDom] in *. rewrite E.
  assert (getAttribute
            (setAttribute (dom s0) dialog "data-focus-trap-active" "true")
            j "tabindex" = getAttribute (dom s0) j "tabindex") as E0.
  { rewrite getAttribute_setAttribute.
    by rewrite bool_decide_eq_false_2 by (by intros (_&?&_)). }
  destruct (length _ =? 0).
  - rewrite getAttribute_setAttribute. case_bool_decide; [by right|].
    by rewrite E0.
  - by rewrite E0.
Qed.

(** X4. No positive leakage for [processDynamicContent] as well: the
    normaliser collapses every positive value inside the container, and
    arming dialogs only ever writes "0". *)
Theorem processDynamicContent_no_positive_tabindex (options : managerOptions)
    (s : page) (c j : nat) :
  fixHighTabindex (new_TabindexManager options) = true ->
  isDescendant (dom s) c j = true ->
  gt0 (tabindexOf
         (dom (processDynamicContent (new_TabindexManager options) c s)) j)
  = false.
Proof.
  set (this := new_TabindexManager options). intros Hhigh Hd.
  unfold processDynamicContent. rewrite tabindexOf_parseAttr.
  destruct (detect_tabindex this c
              (withDom (fun d => normalise this d c) s) j) as [-> | ->];
    [|reflexivity].
  cbn [dom withDom].
  rewrite (normalise_tabindex this eq_refl eq_refl), Hd.
  unfold normaliseNode. rewrite Hhigh.
  apply (pruneStep_keeps (fun t => gt0 (parseAttr t) = false));
    [apply notPositive_kept|].
  destruct (ensureInteractiveElements this);
    [apply (coverStep_keeps (fun t => gt0 (parseAttr t) = false));
       [apply notPositive_kept|] |];
    apply highStep_notPositive.
Qed.

Lemma processDynamicContent_no_positive_tabindex_witness :
  gt0 (tabindexOf
         (dom (processDynamicContent (new_TabindexManager noOptions) 0
                 (freshPage linkAndDiv None))) 3) = false.
Proof.
  apply (processDynamicContent_no_positive_tabindex noOptions
           (freshPage linkAndDiv None) 0 3); vm_compute; reflexivity.
Defined.

(** ** Coverage, in the terms of [findTabbableElements] *)

Lemma orderOf_kept : keptByPasses (fun t => ge0 (orderOf t) = true).
Proof. by split. Qed.

(** X5. After [fix], a node of the container that matches the
    interactive set, is not hidden and not aria-hidden, and whose tabindex was
    absent, empty, "-1" or a non-negative integer is one of the elements
    [findTabbableElements] finds in the container. *)
Theorem fix_makes_interactive_tabbable (options : managerOptions) (s : page)
    (c j : nat) :
  fixNegativeTabindex (new_TabindexManager options) = true ->
  document_querySelector (dom s) (container (new_TabindexManager options))
    = Some c ->
  isDescendant (dom s) c j = true ->
  isInteractiveElement (new_TabindexManager options) (dom s) j = true ->
  shouldBeRemovedFromTabOrder (dom s) j = false ->
  getAttribute (dom s) j "tabindex" = Some "-1"
  \/ ge0 (orderOf (getAttribute (dom s) j "tabindex")) = true ->
  j ∈ findTabbableElements (new_TabindexManager options)
        (dom (fix_ (new_TabindexManager options) s)) c.
Proof.
  set (this := new_TabindexManager options). intros Hneg Hc Hd Hi Hr Ht.
  rewrite (dom_fix this s c Hc).
  pose proof (fixDom_frame this c (dom s)) as F.
  unfold findTabbableElements. apply list_elem_of_filter. split.
  - change (ge0 (orderOf (getAttribute (fixDom this c (dom s)) j "tabindex"))
            && negb (shouldBeRemovedFromTabOrder (fixDom this c (dom s)) j)
            = true).
    rewrite <- (frame_shouldBeRemovedFromTabOrder _ _ F), Hr, andb_true_r.
    rewrite (fixDom_tabindex this eq_refl eq_refl), Hd.
    unfold fixNode, normaliseNode. rewrite Hneg, Hi, Hr.
    set (P := fun t => ge0 (orderOf t) = true).
    assert (keptByPasses P) as HP by apply orderOf_kept.
    assert (P (negStep true false (getAttribute (dom s) j "tabindex"))) as H1.
    { unfold negStep. destruct Ht as [-> | Ht]; [done|].
      by destruct (_ && _). }
    match goal with
    | |- context [pruneStep ?g ?r ?k ?t] =>
        assert (P (pruneStep g r k t)) as Hprune
    end.
    { apply pruneStep_keeps; [done|].
      destruct (ensureInteractiveElements _);
        [apply coverStep_keeps; [done|] |];
        (destruct (fixHighTabindex _); [apply highStep_keeps|]; done). }
    destruct (handleTooltipsAndDropdowns _); [|exact Hprune].
    by do 2 (apply (triggerStep_keeps P); [done|]).
  - apply elem_of_querySelectorAll. split.
    + by rewrite <- (frame_isDescendant _ _ F).
    + rewrite <- (frame_matches _ _ F j) by reflexivity. exact Hi.
Qed.

Lemma fix_makes_interactive_tabbable_witness :
  1 ∈ findTabbableElements (new_TabindexManager noOptions)
        (dom (fix_ (new_TabindexManager noOptions)
                (freshPage linkAndDiv None))) 0.
Proof.
  apply (fix_makes_interactive_tabbable noOptions (freshPage linkAndDiv None)
           0 1); try (vm_compute; reflexivity).
  left. vm_compute; reflexivity.
Defined.

(** ** The trap on an empty region, and its release *)

(** X6. Empty region: when nothing in the region is tabbable,
    [setupFocusTrap] gives the region itself tabindex "0", makes it the
    only boundary of the session, and schedules the focus on it. *)
Theorem trap_on_empty_region (this : TabindexManager) (region : nat)
    (options : trapOptions) (s : page) :
  region < length (dom s) ->
  findTabbableElements this (dom s) region = [] ->
  getAttribute (dom (snd (setupFocusTrap this (Some region) options s)))
    region "tabindex" = Some "0"
  /\ (tabbableElements
        <$> sessions (snd (setupFocusTrap this (Some region) options s))
            !! length (sessions s)) = Some [region]
  /\ timers (snd (setupFocusTrap this (Some region) options s))
     = (timers s ++ [FocusLater region 50])%list.
Proof.
  intros Hlt Hfind. unfold setupFocusTrap. rewrite Hfind.
  cbn [length Nat.eqb snd dom sessions timers head last from_option id
       addEventListener newSession setTimeout withDom].
  split.
  { rewrite getAttribute_setAttribute. by rewrite bool_decide_eq_true_2. }
  split; [|reflexivity].
  by rewrite list_lookup_middle.
Qed.

Lemma trap_on_empty_region_witness :
  getAttribute
    (dom (snd (setupFocusTrap defaultManager (Some 1) noTrapOptions
                 (freshPage emptyModal None)))) 1 "tabindex" = Some "0"
  /\ (tabbableElements
        <$> sessions (snd (setupFocusTrap defaultManager (Some 1) noTrapOptions
                             (freshPage emptyModal None)))
            !! length (sessions (freshPage emptyModal None))) = Some [1]
  /\ timers (snd (setupFocusTrap defaultManager (Some 1) noTrapOptions
                    (freshPage emptyModal None)))
     = (timers (freshPage emptyModal None) ++ [FocusLater 1 50])%list.
Proof.
  apply (trap_on_empty_region defaultManager 1 noTrapOptions
           (freshPage emptyModal None)); vm_compute; [lia | reflexivity].
Defined.

(** X7. Focus restoration: with an element [prior] focused when the trap is
    set and [returnFocusOnClose] not switched off, [remove] takes the
    key intercept of the session off the region and schedules
    [prior.focus()]. *)
Theorem remove_restores_focus (this : TabindexManager) (region prior : nat)
    (s : page) :
  activeElement s = Some prior ->
  let armed := setupFocusTrap this (Some region) noTrapOptions s in
  let released := remove (fst armed) (snd armed) in
  last (timers released) = Some (FocusLater prior 50)
  /\ Build_listener (Some region) "keydown" (TrapKeyDown (length (sessions s)))
     ∉ listeners released.
Proof.
  intros Hactive armed released. subst armed released.
  unfold setupFocusTrap. rewrite Hactive.
  destruct (length (findTabbableElements this (dom s) region) =? 0);
    cbn [fst snd]; unfold remove;
    cbn [sessions addEventListener newSession setTimeout withDom];
    rewrite list_lookup_middle by reflexivity;
    cbn [modalElement previouslyFocusedElement returnFocusOnClose
         t_returnFocusOnClose t_triggerElement noTrapOptions notFalse
         timers listeners removeEventListener setTimeout addEventListener
         newSession withDom];
    (split; [by rewrite last_snoc |]);
    intros [Hne _]%list_elem_of_filter; by apply Hne.
Qed.

Lemma remove_restores_focus_witness :
  last (timers (remove (fst armedOnce) (snd armedOnce)))
  = Some (FocusLater 0 50)
  /\ Build_listener (Some 1) "keydown"
       (TrapKeyDown (length (sessions (freshPage dialogWithButton (Some 0)))))
     ∉ listeners (remove (fst armedOnce) (snd armedOnce)).
Proof.
  apply (remove_restores_focus defaultManager 1 0
           (freshPage dialogWithButton (Some 0))).
  reflexivity.
Defined.

(** ** The container itself *)

Lemma ancestorsFrom_lt (d : list element) :
  wf_document d ->
  forall fuel p bound,
    (forall a, p = Some a -> a < bound) ->
    forall x, x ∈ ancestorsFrom fuel d p -> x < bound.
Proof.
  intros Hwf fuel. induction fuel as [|f IH]; intros p bound Hp x Hx.
  - by apply elem_of_nil in Hx.
  - destruct p as [a|]; [|by apply elem_of_nil in Hx].
    cbn [ancestorsFrom] in Hx. apply elem_of_cons in Hx as [->|Hx].
    + by apply Hp.
    + apply (IH (parentElement d a) bound); [|done].
      intros b Hb. unfold parentElement in Hb.
      destruct (d !! a) as [e|] eqn:He; [|done].
      specialize (Hwf a e b He Hb). specialize (Hp a eq_refl). lia.
Qed.

Lemma not_own_descendant (d : list element) c :
  wf_document d -> isDescendant d c c = false.
Proof.
  intros Hwf. unfold isDescendant. apply bool_decide_eq_false_2. intros Hin.
  apply (ancestorsFrom_lt d Hwf _ _ c) in Hin; [lia|].
  intros a Ha. unfold parentElement in Ha.
  destruct (d !! c) as [e|] eqn:He; [|done]. by apply (Hwf c e a).
Qed.

(** The passes visit the descendants of the container, never the
    container: [fix] leaves the container's own tabindex as it is. *)
Lemma fix_leaves_container (options : managerOptions) (s : page) (c : nat) :
  wf_document (dom s) ->
  document_querySelector (dom s) (container (new_TabindexManager options))
    = Some c ->
  getAttribute (dom (fix_ (new_TabindexManager options) s)) c "tabindex"
  = getAttribute (dom s) c "tabindex".
Proof.
  intros Hwf Hc. rewrite (dom_fix _ s c Hc).
  rewrite fixDom_tabindex by reflexivity.
  by rewrite not_own_descendant.
Qed.

(** ** What the scan leaves alone *)

Lemma detect_frame (this : TabindexManager) (c : nat) (s : page) :
  frame (dom s) (dom (detectAndHandleDialogs this c s)).
Proof.
  unfold detectAndHandleDialogs.
  apply (forEach_invariant (fun s' => frame (dom s) (dom s')));
    [|apply frame_refl].
  intros dialog s0 IH.
  destruct (negb (isVisuallyHidden (dom s0) dialog)
            && negb (hasAttribute (dom s0) dialog "data-focus-trap-active"));
    [|exact IH].
  match goal with
  | |- context [setupFocusTrap this (Some dialog) ?o ?s1] =>
      pose proof (dom_setupFocusTrap this dialog o s1) as E;
      destruct (setupFocusTrap this (Some dialog) o s1) as [h s2]
  end.
  cbn [snd dom observe storeRemoveFocusTrap withDom] in *. rewrite E.
  eapply frame_trans; [exact IH|].
  eapply frame_trans;
    [apply (frame_setAttribute (dom s0) dialog "data-focus-trap-active" "true");
     by_evaluation|].
  destruct (length _ =? 0); [apply frame_setAttribute, tabindex_managed
                            | apply frame_refl].
Qed.

(** X8. Neither [fix] nor [processDynamicContent] changes anything of the
    document but the four attributes they manage (tabindex and the
    three data- markers): the number of elements, and the tag, class
    list, computed style, parent and every other attribute of each
    element are as before, for every manager and every page. *)
Theorem scans_write_only_managed_attributes (this : TabindexManager)
    (s : page) (c : nat) :
  frame (dom s) (dom (fix_ this s))
  /\ frame (dom s) (dom (processDynamicContent this c s)).
Proof.
  split.
  - destruct (document_querySelector (dom s) (container this)) as [k|] eqn:E.
    + rewrite (dom_fix this s k E). apply fixDom_frame.
    + rewrite (dom_fix_not_found this s E). apply frame_refl.
  - unfold processDynamicContent.
    eapply frame_trans; [|apply detect_frame]. apply normalise_frame.
Qed.

(** X9. A tabindex of "-1" that is a deliberate exclusion survives
    [fix]: on a node that is hidden, has a hidden or aria-hidden
    ancestor, is aria-hidden itself, or does not match the interactive
    set, the attribute is still "-1" afterwards, whatever passes are
    switched on. *)
Theorem fix_keeps_deliberate_exclusion (options : managerOptions) (s : page)
    (j : nat) :
  getAttribute (dom s) j "tabindex" = Some "-1" ->
  shouldBeRemovedFromTabOrder (dom s) j = true
  \/ isInteractiveElement (new_TabindexManager options) (dom s) j = false ->
  getAttribute (dom (fix_ (new_TabindexManager options) s)) j "tabindex"
  = Some "-1".
Proof.
  set (this := new_TabindexManager options). intros Ht Hex.
  destruct (document_querySelector (dom s) (container this)) as [c|] eqn:E;
    [|by rewrite (dom_fix_not_found this s E)].
  rewrite (dom_fix this s c E), fixDom_tabindex by reflexivity. rewrite Ht.
  destruct (isDescendant (dom s) c j); [|done].
  unfold fixNode, normaliseNode.
  destruct Hex as [-> | ->];
    destruct (fixNegativeTabindex this), (fixHighTabindex this);
    case_facts; reflexivity.
Qed.

Lemma fix_keeps_deliberate_exclusion_witness :
  getAttribute
    (dom (fix_ (new_TabindexManager noOptions) (freshPage hiddenLink None)))
    2 "tabindex" = Some "-1".
Proof.
  apply (fix_keeps_deliberate_exclusion noOptions (freshPage hiddenLink None) 2);
    [vm_compute; reflexivity | left; vm_compute; reflexivity].
Defined.

(** ** Hidden regions *)

Lemma under_hidden_ancestor (d : list element) (a j : nat) :
  isDescendant d a j = true ->
  isVisuallyHidden d a || ariaHidden d a = true ->
  shouldBeRemovedFromTabOrder d j = true.
Proof.
  intros Hd Ha. apply bool_decide_eq_true in Hd.
  unfold shouldBeRemovedFromTabOrder.
  assert (hasHiddenParent d j = true) as ->; [|by rewrite orb_true_r].
  rewrite hasHiddenParent_existsb. apply existsb_exists.
  exists a. split; [by apply list_elem_of_In|done].
Qed.

Lemma filter_none {A : Type} (P : A -> Prop) `{!forall x, Decision (P x)}
    (l : list A) :
  (forall x, x ∈ l -> ~ P x) -> filter P l = [].
Proof.
  induction l as [|x l IH]; intros Hall; [done|].
  rewrite filter_cons, decide_False.
  - apply IH. intros y Hy. apply Hall, elem_of_cons. by right.
  - apply Hall, elem_of_cons. by left.
Qed.

(** X10. Nothing inside a region that is visually hidden or carries
    aria-hidden="true" counts as tabbable: [findTabbableElements] of such
    a region is empty, so a trap set on it falls back to the region
    itself. *)
Theorem nothing_tabbable_in_hidden_region (this : TabindexManager)
    (d : list element) (region : nat) :
  isVisuallyHidden d region || ariaHidden d region = true ->
  findTabbableElements this d region = [].
Proof.
  intros Hh. unfold findTabbableElements. apply filter_none.
  intros x [Hx _]%elem_of_querySelectorAll.
  rewrite (under_hidden_ancestor d region x Hx Hh), andb_false_r. done.
Qed.

Lemma nothing_tabbable_in_hidden_region_witness :
  findTabbableElements defaultManager hiddenLink 1 = [].
Proof.
  apply (nothing_tabbable_in_hidden_region defaultManager hiddenLink 1).
  vm_compute; reflexivity.
Defined.

(** ** The scan settles *)

Lemma frame_ext (d d' : list element) :
  frame d d' ->
  (forall j a, a ∈ managedAttributes ->
               getAttribute d j a = getAttribute d' j a) ->
  d = d'.
Proof.
  intros Hf Hm. apply list_eq. intros i.
  pose proof (frame_lookup d d' i Hf) as Hl.
  pose proof (fun a Ha => Hm i a Ha) as Hi. unfold getAttribute in Hi.
  destruct (d !! i) as [e|], (d' !! i) as [e'|]; try done.
  destruct e as [t m cl st p], e' as [t' m' cl' st' p'].
  destruct Hl as (Ht & Hc & Hs & Hp & Ha). simpl in *. subst.
  do 2 f_equal. apply map_eq. intros a.
  destruct (decide (a ∈ managedAttributes)); [by apply Hi | by apply Ha].
Qed.

Lemma frame_querySelectorAll (d d' : list element) c sels :
  frame d d' -> forallb cleanSelector sels = true ->
  querySelectorAll d c sels = querySelectorAll d' c sels.
Proof.
  intros Hf Hc. unfold querySelectorAll.
  rewrite <- (frame_length _ _ Hf).
  induction (seq 0 (length d)) as [|x l IH]; [done|].
  rewrite !filter_cons, IH.
  by rewrite (frame_matches d d' Hf), (frame_isDescendant d d' Hf).
Qed.

Lemma pass_other_attribute (l : list nat) (f : nat -> list element -> list element)
    (d : list element) (j : nat) (a : string) :
  a <> "tabindex" ->
  (forall el d0, f el d0 = d0
                 \/ (exists v, f el d0 = setAttribute d0 el "tabindex" v)
                 \/ f el d0 = removeAttribute d0 el "tabindex") ->
  getAttribute (forEach l f d) j a = getAttribute d j a.
Proof.
  intros Ha Hf.
  apply (forEach_invariant (fun d' => getAttribute d' j a = getAttribute d j a));
    [|done].
  intros el d0 IH. destruct (Hf el d0) as [->|[[v ->]| ->]]; [done| |].
  - rewrite getAttribute_setAttribute.
    by rewrite bool_decide_eq_false_2 by (by intros (_&?&_)).
  - rewrite getAttribute_removeAttribute.
    by rewrite bool_decide_eq_false_2 by (by intros (_&?)).
Qed.

Lemma normalise_other_attribute (this : TabindexManager) (d : list element)
    (c j : nat) (a : string) :
  a <> "tabindex" ->
  getAttribute (normalise this d c) j a = getAttribute d j a.
Proof.
  intros Ha. unfold normalise.
  unfold validateNonInteractiveElements. rewrite pass_other_attribute; [|done|].
  2:{ intros el d0. cbv zeta. destruct (_ && _); [|by left].
      destruct (negb _); [by right; right | by left]. }
  assert (forall d0, getAttribute
            (if ensureInteractiveElements this
             then makeInteractiveElementsTabbable this d0 c else d0) j a
          = getAttribute d0 j a) as ->.
  { intros d0. destruct (ensureInteractiveElements this); [|done].
    unfold makeInteractiveElementsTabbable. apply pass_other_attribute; [done|].
    intros el d1. destruct (_ || _); [by left|].
    destruct (negb _); [right; left; by eexists | by left]. }
  assert (forall d0, getAttribute
            (if fixHighTabindex this
             then fixHighTabindexValues d0 c else d0) j a
          = getAttribute d0 j a) as ->.
  { intros d0. destruct (fixHighTabindex this); [|done].
    unfold fixHighTabindexValues. apply pass_other_attribute; [done|].
    intros el d1. cbv zeta.
    destruct (gt0 _); [right; left; by eexists | by left]. }
  destruct (fixNegativeTabindex this); [|done].
  unfold fixNegativeTabindexValues. apply pass_other_attribute; [done|].
  intros el d1. destruct (_ && _); [right; left; by eexists | by left].
Qed.

Lemma withDom_same (f : list element -> list element) (s : page) :
  f (dom s) = dom s -> withDom f s = s.
Proof. destruct s. unfold withDom. simpl. by intros ->. Qed.

Lemma dom_armDialog (this : TabindexManager) (x : nat) (s : page) :
  dom (armDialog this x s) =
  if armedOrHidden (dom s) x then dom s
  else
    if length
         (findTabbableElements this
            (setAttribute (dom s) x "data-focus-trap-active" "true") x) =? 0
    then setAttribute
           (setAttribute (dom s) x "data-focus-trap-active" "true")
           x "tabindex" "0"
    else setAttribute (dom s) x "data-focus-trap-active" "true".
Proof.
  unfold armDialog, armedOrHidden. rewrite <- negb_orb.
  destruct (_ || _); cbn [negb]; [done|].
  match goal with
  | |- context [setupFocusTrap this (Some x) ?o ?s1] =>
      pose proof (dom_setupFocusTrap this x o s1) as E;
      destruct (setupFocusTrap this (Some x) o s1) as [h s2]
  end.
  cbn [snd dom observe storeRemoveFocusTrap withDom] in *. by rewrite E.
Qed.

Lemma armDialog_noop (this : TabindexManager) (x : nat) (s : page) :
  armedOrHidden (dom s) x = true -> armDialog this x s = s.
Proof.
  unfold armDialog, armedOrHidden. rewrite <- negb_orb. by intros ->.
Qed.

Lemma armDialog_frame (this : TabindexManager) (x : nat) (s : page) :
  frame (dom s) (dom (armDialog this x s)).
Proof.
  rewrite dom_armDialog. destruct (armedOrHidden _ _); [apply frame_refl|].
  eapply frame_trans;
    [apply (frame_setAttribute (dom s) x "data-focus-trap-active" "true");
     by_evaluation|].
  destruct (length _ =? 0); [apply frame_setAttribute, tabindex_managed
                            | apply frame_refl].
Qed.

Lemma armDialog_keeps (this : TabindexManager) (x y : nat) (s : page) :
  armedOrHidden (dom s) x = true ->
  armedOrHidden (dom (armDialog this y s)) x = true.
Proof.
  intros Hx. pose proof (armDialog_frame this y s) as F.
  unfold armedOrHidden in *. rewrite <- (frame_isVisuallyHidden _ _ F).
  destruct (isVisuallyHidden (dom s) x); [done|]. cbn [orb] in *.
  rewrite dom_armDialog. unfold armedOrHidden.
  destruct (_ || _); [done|]. unfold hasAttribute in *.
  destruct (length _ =? 0); rewrite ?getAttribute_setAttribute;
    repeat case_bool_decide; try done;
    by rewrite ?getAttribute_setAttribute; repeat case_bool_decide.
Qed.

Lemma armDialog_arms (this : TabindexManager) (x : nat) (s : page) :
  x < length (dom s) -> armedOrHidden (dom (armDialog this x s)) x = true.
Proof.
  intros Hx. destruct (armedOrHidden (dom s) x) eqn:E.
  - by rewrite armDialog_noop.
  - pose proof (armDialog_frame this x s) as F.
    rewrite dom_armDialog, E. unfold armedOrHidden, hasAttribute.
    assert (getAttribute
              (setAttribute (dom s) x "data-focus-trap-active" "true") x
              "data-focus-trap-active" = Some "true") as E1.
    { rewrite getAttribute_setAttribute. by rewrite bool_decide_eq_true_2. }
    destruct (length _ =? 0).
    + rewrite getAttribute_setAttribute.
      rewrite bool_decide_eq_false_2 by (by intros (_&?&_)).
      rewrite E1. apply orb_true_r.
    + rewrite E1. apply orb_true_r.
Qed.

Lemma forEach_armDialog_keeps (this : TabindexManager) (l : list nat)
    (x : nat) (s : page) :
  armedOrHidden (dom s) x = true ->
  armedOrHidden (dom (forEach l (armDialog this) s)) x = true.
Proof.
  intros Hx.
  apply (forEach_invariant (fun s' => armedOrHidden (dom s') x = true));
    [|done].
  intros y s0. apply armDialog_keeps.
Qed.

Lemma forEach_armDialog_arms (this : TabindexManager) (l : list nat)
    (s : page) (x : nat) :
  (forall y, y ∈ l -> y < length (dom s)) -> x ∈ l ->
  armedOrHidden (dom (forEach l (armDialog this) s)) x = true.
Proof.
  unfold forEach. revert s.
  induction l as [|y l IH]; intros s Hlt Hx; [by apply elem_of_nil in Hx|].
  cbn [fold_left]. apply elem_of_cons in Hx as [->|Hx].
  - apply (forEach_armDialog_keeps this l y), armDialog_arms, Hlt, elem_of_cons.
    by left.
  - apply IH; [|done]. intros z Hz.
    rewrite <- (frame_length _ _ (armDialog_frame this y s)).
    apply Hlt, elem_of_cons. by right.
Qed.

Lemma forEach_armDialog_noop (this : TabindexManager) (l : list nat)
    (s : page) :
  (forall x, x ∈ l -> armedOrHidden (dom s) x = true) ->
  forEach l (armDialog this) s = s.
Proof.
  unfold forEach. induction l as [|y l IH]; intros Hall; [done|].
  cbn [fold_left]. rewrite armDialog_noop.
  - apply IH. intros x Hx. apply Hall, elem_of_cons. by right.
  - apply Hall, elem_of_cons. by left.
Qed.

Lemma dialogSelectors_clean : forallb cleanSelector dialogSelectors = true.
Proof. reflexivity. Qed.

Lemma detect_arms_all (this : TabindexManager) (c : nat) (s : page) (x : nat) :
  x ∈ querySelectorAll (dom (detectAndHandleDialogs this c s)) c
        dialogSelectors ->
  armedOrHidden (dom (detectAndHandleDialogs this c s)) x = true.
Proof.
  rewrite <- (frame_querySelectorAll _ _ c dialogSelectors
                (detect_frame this c s) dialogSelectors_clean).
  intros Hx. apply (forEach_armDialog_arms this _ s x); [|done].
  intros y. apply querySelectorAll_lt.
Qed.

Lemma normalise_keeps_armed (this : TabindexManager) (d : list element)
    (c x : nat) :
  armedOrHidden (normalise this d c) x = armedOrHidden d x.
Proof.
  unfold armedOrHidden, hasAttribute.
  rewrite <- (frame_isVisuallyHidden _ _ (normalise_frame this d c)).
  by rewrite normalise_other_attribute.
Qed.

Lemma detect_after_scan (this : TabindexManager) (c : nat) (s : page) :
  (forall x, x ∈ querySelectorAll (dom s) c dialogSelectors ->
             armedOrHidden (dom s) x = true) ->
  processDynamicContent this c s = withDom (fun d => normalise this d c) s
  /\ forall x,
       x ∈ querySelectorAll (normalise this (dom s) c) c dialogSelectors ->
       armedOrHidden (normalise this (dom s) c) x = true.
Proof.
  intros Hall.
  assert (forall x,
            x ∈ querySelectorAll (normalise this (dom s) c) c dialogSelectors ->
            armedOrHidden (normalise this (dom s) c) x = true) as Hn.
  { intros x.
    rewrite <- (frame_querySelectorAll _ _ c dialogSelectors
                  (normalise_frame this (dom s) c) dialogSelectors_clean).
    rewrite normalise_keeps_armed. apply Hall. }
  split; [|exact Hn].
  unfold processDynamicContent. cbv zeta.
  by apply (forEach_armDialog_noop this).
Qed.

(** Once every dialog of the container is armed or hidden, a scan only
    runs the four passes, and a scan after that changes nothing. *)
Lemma scan_fixed (options : managerOptions) (c : nat) (s : page) :
  (forall x, x ∈ querySelectorAll (dom s) c dialogSelectors ->
             armedOrHidden (dom s) x = true) ->
  let this := new_TabindexManager options in
  let s' := withDom (fun d => normalise this d c) s in
  processDynamicContent this c s = s' /\ processDynamicContent this c s' = s'.
Proof.
  intros Hall this s'.
  destruct (detect_after_scan this c s Hall) as [E2 H2].
  split; [exact E2|].
  destruct (detect_after_scan this c s' H2) as [E3 _].
  rewrite E3. apply withDom_same.
  symmetry. apply frame_ext; [apply normalise_frame|].
  intros j a Ha. destruct (decide (a = "tabindex")) as [->|Hne].
  - cbn [dom s' withDom].
    pose proof (normalise_frame this (dom s) c) as F.
    rewrite (normalise_tabindex this eq_refl eq_refl (normalise this (dom s) c)).
    rewrite <- (frame_isDescendant _ _ F).
    rewrite <- (frame_normaliseNode this eq_refl _ _ j _ F).
    rewrite (normalise_tabindex this eq_refl eq_refl (dom s)).
    destruct (isDescendant (dom s) c j); [|done].
    by rewrite !normaliseNode_passesOn, passesOn_idempotent.
  - by rewrite normalise_other_attribute.
Qed.

(** X12. The scan settles.  After one [processDynamicContent] every
    dialog of the container is armed or hidden, so a second scan of the
    same container only runs the four passes: it arms no dialog, adds no
    session, listener, timer or observer.  A third scan changes nothing
    at all: from the second run on the page is a fixed point of the
    scan. *)
Theorem scan_settles_after_two (options : managerOptions) (c : nat)
    (s : page) :
  let this := new_TabindexManager options in
  let s1 := processDynamicContent this c s in
  let s2 := processDynamicContent this c s1 in
  s2 = withDom (fun d => normalise this d c) s1
  /\ processDynamicContent this c s2 = s2.
Proof.
  intros this s1 s2.
  destruct (scan_fixed options c s1) as [E2 E3]; [apply detect_arms_all|].
  fold this in E2, E3. fold s2 in E2. rewrite <- E2 in E3. by split.
Qed.

(** ** Repeated [fix]: what is bound once and what piles up *)

Lemma filter_snoc_False {A : Type} (P : A -> Prop) `{!forall x, Decision (P x)}
    (l : list A) (x : A) :
  ~ P x -> filter P (l ++ [x])%list = filter P l.
Proof.
  intros Hx. rewrite filter_app, filter_cons, decide_False by done.
  apply app_nil_r.
Qed.

Lemma filter_snoc_True {A : Type} (P : A -> Prop) `{!forall x, Decision (P x)}
    (l : list A) (x : A) :
  P x -> filter P (l ++ [x])%list = (filter P l ++ [x])%list.
Proof. intros Hx. by rewrite filter_app, filter_cons, decide_True. Qed.

Lemma forEach_preserves {S A : Type} (proj : S -> A) (f : nat -> S -> S) l s :
  (forall x s0, proj (f x s0) = proj s0) -> proj (forEach l f s) = proj s.
Proof.
  intros Hf. apply (forEach_invariant (fun s' => proj s' = proj s)); [|done].
  intros x s0 IH. by rewrite Hf.
Qed.

(** What the wizard set-up leaves alone: it adds listeners on elements,
    none of them a trigger handler. *)
Lemma wizard_preserves (c : nat) (s : page) :
  let s' := setupWizardNavigationSupport c s in
  observers s' = observers s /\ xhrWrapped s' = xhrWrapped s
  /\ documentListeners s' = documentListeners s
  /\ triggerKeyHandlers s' = triggerKeyHandlers s.
Proof.
  cbv zeta. unfold setupWizardNavigationSupport.
  repeat split.
  - apply forEach_preserves. intros w s0. cbv zeta.
    by rewrite !(forEach_preserves observers).
  - apply forEach_preserves. intros w s0. cbv zeta.
    by rewrite !(forEach_preserves xhrWrapped).
  - apply forEach_preserves. intros w s0. cbv zeta.
    rewrite !(forEach_preserves documentListeners); [done| |];
      intros x s1; by apply filter_snoc_False.
  - apply forEach_preserves. intros w s0. cbv zeta.
    rewrite !(forEach_preserves triggerKeyHandlers); [done| |];
      intros x s1; by apply filter_snoc_False.
Qed.

Lemma dynamic_effects (s : page) :
  let s' := setupDynamicContentHandlers s in
  observers s' = observers s /\ xhrWrapped s' = S (xhrWrapped s)
  /\ length (documentListeners s') = length (documentListeners s) + 8
  /\ triggerKeyHandlers s' = triggerKeyHandlers s.
Proof.
  cbv zeta. unfold setupDynamicContentHandlers, dynamicContentEvents.
  cbn [fold_left wrapXhr observers xhrWrapped addEventListener listeners].
  repeat split.
  - unfold documentListeners.
    cbn [fold_left wrapXhr observers xhrWrapped addEventListener listeners].
    rewrite !filter_snoc_True by done. rewrite !length_app. simpl. lia.
  - unfold triggerKeyHandlers.
    cbn [fold_left wrapXhr observers xhrWrapped addEventListener listeners].
    by rewrite !filter_snoc_False by done.
Qed.

Lemma handleTrigger_preserves (marker : string) (h : nat -> handler)
    (x : nat) (s : page) :
  let s' := handleTrigger marker h x s in
  observers s' = observers s /\ xhrWrapped s' = xhrWrapped s
  /\ documentListeners s' = documentListeners s.
Proof.
  cbv zeta. unfold handleTrigger.
  destruct (negb (hasAttribute (dom s) x "tabindex")); cbv zeta;
    match goal with
    | |- context [negb (hasAttribute ?d x marker)] =>
        destruct (negb (hasAttribute d x marker))
    end; repeat split; try done; by apply filter_snoc_False.
Qed.

Lemma triggers_preserve (c : nat) (s : page) :
  let s' := setupTooltipAndDropdownHandlers c s in
  observers s' = observers s /\ xhrWrapped s' = xhrWrapped s
  /\ documentListeners s' = documentListeners s.
Proof.
  cbv zeta. unfold setupTooltipAndDropdownHandlers. cbv zeta.
  repeat split.
  - rewrite !(forEach_preserves observers); [done| |];
      intros x s0; apply handleTrigger_preserves.
  - rewrite !(forEach_preserves xhrWrapped); [done| |];
      intros x s0; apply handleTrigger_preserves.
  - rewrite !(forEach_preserves documentListeners); [done| |];
      intros x s0; apply handleTrigger_preserves.
Qed.

(** One [fix] that finds its container. *)
Lemma fix_effects (this : TabindexManager) (s : page) (c : nat) :
  document_querySelector (dom s) (container this) = Some c ->
  observers (fix_ this s)
  = (observers s
     ++ if enableMutationObserver this then [ContainerObserver c] else [])%list
  /\ xhrWrapped (fix_ this s)
     = (if enableDynamicContentSupport this then 1 else 0) + xhrWrapped s
  /\ length (documentListeners (fix_ this s))
     = length (documentListeners s)
       + if enableDynamicContentSupport this then 8 else 0.
Proof.
  intros Hc. unfold fix_. rewrite Hc.
  set (s0 := withDom (fun d => normalise this d c) s).
  set (s1 := if enableMutationObserver this
             then setupMutationObserver c s0 else s0).
  set (s2 := if enableDynamicContentSupport this
             then setupDynamicContentHandlers s1 else s1).
  set (s3 := if supportWizardNavigation this
             then setupWizardNavigationSupport c s2 else s2).
  set (s4 := if handleTooltipsAndDropdowns this
             then setupTooltipAndDropdownHandlers c s3 else s3).
  assert (observers s4 = observers s3 /\ xhrWrapped s4 = xhrWrapped s3
          /\ documentListeners s4 = documentListeners s3) as (O4 & X4 & L4).
  { subst s4. destruct (handleTooltipsAndDropdowns this); [|done].
    apply triggers_preserve. }
  assert (observers s3 = observers s2 /\ xhrWrapped s3 = xhrWrapped s2
          /\ documentListeners s3 = documentListeners s2) as (O3 & X3 & L3).
  { subst s3. destruct (supportWizardNavigation this); [|done].
    destruct (wizard_preserves c s2) as (?&?&?&?). done. }
  rewrite O4, X4, L4, O3, X3, L3. subst s2.
  destruct (enableDynamicContentSupport this).
  - destruct (dynamic_effects s1) as (-> & -> & -> & _). subst s1.
    destruct (enableMutationObserver this); subst s0; simpl; repeat split;
      by rewrite ?app_nil_r.
  - subst s1. destruct (enableMutationObserver this); subst s0; simpl;
      repeat split; rewrite ?app_nil_r; try done; lia.
Qed.

Lemma iter_fix_frame (this : TabindexManager) (s : page) (n : nat) :
  frame (dom s) (dom (Nat.iter n (fix_ this) s)).
Proof.
  induction n as [|n IH]; [apply frame_refl|]. rewrite Nat.iter_succ.
  eapply frame_trans; [exact IH|].
  set (s' := Nat.iter n (fix_ this) s).
  destruct (document_querySelector (dom s') (container this)) as [k|] eqn:E.
  - rewrite (dom_fix this s' k E). apply fixDom_frame.
  - rewrite (dom_fix_not_found this s' E). apply frame_refl.
Qed.

(** X13. [fix] is not guarded against being called again: with the
    observer and the dynamic-content support switched on (the default),
    [n] calls leave [n] more MutationObservers on the container, [n] more
    wrappers around [XMLHttpRequest.prototype.open]/[send] and [8 * n]
    more listeners on [document]; no call removes what an earlier one
    installed. *)
Theorem repeated_fix_piles_up (this : TabindexManager) (s : page)
    (c n : nat) :
  forallb cleanSelector (container this) = true ->
  document_querySelector (dom s) (container this) = Some c ->
  enableMutationObserver this = true ->
  enableDynamicContentSupport this = true ->
  observers (Nat.iter n (fix_ this) s)
  = (observers s ++ repeat (ContainerObserver c) n)%list
  /\ xhrWrapped (Nat.iter n (fix_ this) s) = n + xhrWrapped s
  /\ length (documentListeners (Nat.iter n (fix_ this) s))
     = length (documentListeners s) + 8 * n.
Proof.
  intros Hclean Hc Hmo Hdyn. induction n as [|n (IHo & IHx & IHl)].
  - simpl. rewrite app_nil_r. repeat split; lia.
  - rewrite Nat.iter_succ. set (s' := Nat.iter n (fix_ this) s) in *.
    assert (document_querySelector (dom s') (container this) = Some c) as Hc'.
    { rewrite <- Hc. symmetry.
      apply frame_document_querySelector; [apply iter_fix_frame | done]. }
    destruct (fix_effects this s' c Hc') as (-> & -> & ->).
    rewrite Hmo, Hdyn, IHo, IHx, IHl. repeat split; [|lia].
    rewrite <- app_assoc. f_equal. symmetry. apply repeat_cons.
Qed.

Lemma repeated_fix_piles_up_witness :
  observers (Nat.iter 3 (fix_ defaultManager) (freshPage linkAndDiv None))
  = [ContainerObserver 0; ContainerObserver 0; ContainerObserver 0]
  /\ xhrWrapped (Nat.iter 3 (fix_ defaultManager) (freshPage linkAndDiv None))
     = 3
  /\ length (documentListeners
               (Nat.iter 3 (fix_ defaultManager) (freshPage linkAndDiv None)))
     = 24.
Proof.
  apply (repeated_fix_piles_up defaultManager (freshPage linkAndDiv None) 0 3);
    reflexivity.
Defined.

(** *** Trigger handlers *)

Lemma hasAttribute_setAttribute_keeps (d : list element) (x y : nat)
    (m a v : string) :
  hasAttribute d x m = true -> hasAttribute (setAttribute d y a v) x m = true.
Proof.
  unfold hasAttribute. rewrite getAttribute_setAttribute.
  by case_bool_decide.
Qed.

Lemma handleTriggerDom_keeps (m' : string) (y : nat) (d : list element)
    (x : nat) (m : string) :
  hasAttribute d x m = true -> hasAttribute (handleTriggerDom m' y d) x m = true.
Proof.
  intros H. unfold handleTriggerDom. cbv zeta.
  destruct (negb (hasAttribute d y "tabindex"));
    match goal with
    | |- context [negb (hasAttribute ?d0 y m')] =>
        destruct (negb (hasAttribute d0 y m'))
    end; by repeat apply hasAttribute_setAttribute_keeps.
Qed.

Lemma handleTriggerDom_length (m : string) (x : nat) (d : list element) :
  length (handleTriggerDom m x d) = length d.
Proof.
  unfold handleTriggerDom, setAttribute. cbv zeta.
  destruct (negb (hasAttribute d x "tabindex"));
    match goal with
    | |- context [negb (hasAttribute ?d0 x m)] =>
        destruct (negb (hasAttribute d0 x m))
    end; by rewrite ?length_alter.
Qed.

Lemma handleTriggerDom_marks (m : string) (x : nat) (d : list element) :
  x < length d -> hasAttribute (handleTriggerDom m x d) x m = true.
Proof.
  intros Hx. unfold handleTriggerDom. cbv zeta.
  match goal with
  | |- context [negb (hasAttribute ?d0 x m)] =>
      assert (length d0 = length d) as Hl
        by (destruct (negb _); [apply length_alter | done]);
      destruct (hasAttribute d0 x m) eqn:E; cbn [negb]; [done|]
  end.
  unfold hasAttribute at 1. rewrite getAttribute_setAttribute.
  rewrite bool_decide_eq_true_2; [done|]. by rewrite Hl.
Qed.

Lemma forEach_handleTriggerDom_keeps (m' : string) (l : list nat)
    (d : list element) (x : nat) (m : string) :
  hasAttribute d x m = true ->
  hasAttribute (forEach l (handleTriggerDom m') d) x m = true.
Proof.
  intros H.
  apply (forEach_invariant (fun d' => hasAttribute d' x m = true)); [|done].
  intros y d0. apply handleTriggerDom_keeps.
Qed.

Lemma forEach_handleTriggerDom_marks (m : string) (l : list nat)
    (d : list element) (x : nat) :
  (forall y, y ∈ l -> y < length d) -> x ∈ l ->
  hasAttribute (forEach l (handleTriggerDom m) d) x m = true.
Proof.
  unfold forEach. revert d.
  induction l as [|y l IH]; intros d Hlt Hx; [by apply elem_of_nil in Hx|].
  cbn [fold_left]. apply elem_of_cons in Hx as [->|Hx].
  - apply (forEach_handleTriggerDom_keeps m l), handleTriggerDom_marks, Hlt,
      elem_of_cons. by left.
  - apply IH; [|done]. intros z Hz. rewrite handleTriggerDom_length.
    apply Hlt, elem_of_cons. by right.
Qed.

Lemma tooltipTriggers_clean : forallb cleanSelector tooltipTriggerSelectors = true.
Proof. reflexivity. Qed.

Lemma dropdownTriggers_clean :
  forallb cleanSelector dropdownTriggerSelectors = true.
Proof. reflexivity. Qed.

(** After the two loops every trigger carries its marker. *)
Lemma triggersDom_marked (c : nat) (d : list element) (x : nat) :
  (x ∈ querySelectorAll d c tooltipTriggerSelectors ->
   hasAttribute (triggersDom c d) x "data-tooltip-keyboard-handled" = true)
  /\ (x ∈ querySelectorAll d c dropdownTriggerSelectors ->
      hasAttribute (triggersDom c d) x "data-dropdown-keyboard-handled" = true).
Proof.
  unfold triggersDom. cbv zeta.
  set (d1 := forEach (querySelectorAll d c tooltipTriggerSelectors)
               (handleTriggerDom "data-tooltip-keyboard-handled") d).
  assert (frame d d1) as F1 by (apply triggers_frame; by_evaluation).
  split; intros Hx.
  - apply forEach_handleTriggerDom_keeps.
    apply forEach_handleTriggerDom_marks; [|done].
    intros y. apply querySelectorAll_lt.
  - rewrite (frame_querySelectorAll d d1 c _ F1 dropdownTriggers_clean) in Hx.
    apply forEach_handleTriggerDom_marks; [|done].
    intros y. apply querySelectorAll_lt.
Qed.

Lemma handleTrigger_bound (m : string) (h : nat -> handler) (x : nat)
    (s : page) :
  hasAttribute (dom s) x m = true ->
  listeners (handleTrigger m h x s) = listeners s.
Proof.
  intros H. unfold handleTrigger.
  destruct (negb (hasAttribute (dom s) x "tabindex")); cbv zeta.
  - cbn [dom withDom]. by rewrite hasAttribute_setAttribute_keeps.
  - by rewrite H.
Qed.

Lemma forEach_handleTrigger_bound (m : string) (h : nat -> handler)
    (l : list nat) (s : page) :
  (forall x, x ∈ l -> hasAttribute (dom s) x m = true) ->
  listeners (forEach l (handleTrigger m h) s) = listeners s.
Proof.
  unfold forEach. revert s.
  induction l as [|y l IH]; intros s Hall; [done|].
  cbn [fold_left]. rewrite IH.
  - apply handleTrigger_bound, Hall, elem_of_cons. by left.
  - intros x Hx. rewrite dom_handleTrigger. apply handleTriggerDom_keeps.
    apply Hall, elem_of_cons. by right.
Qed.

Lemma setup_triggers_bound (c : nat) (s : page) :
  (forall x, x ∈ querySelectorAll (dom s) c tooltipTriggerSelectors ->
             hasAttribute (dom s) x "data-tooltip-keyboard-handled" = true) ->
  (forall x, x ∈ querySelectorAll (dom s) c dropdownTriggerSelectors ->
             hasAttribute (dom s) x "data-dropdown-keyboard-handled" = true) ->
  listeners (setupTooltipAndDropdownHandlers c s) = listeners s.
Proof.
  intros Ht Hd. unfold setupTooltipAndDropdownHandlers. cbv zeta.
  set (s1 := forEach (querySelectorAll (dom s) c tooltipTriggerSelectors)
               (handleTrigger "data-tooltip-keyboard-handled" TooltipKeyDown)
               s).
  assert (dom s1
          = forEach (querySelectorAll (dom s) c tooltipTriggerSelectors)
              (handleTriggerDom "data-tooltip-keyboard-handled") (dom s))
    as D1 by (apply dom_forEach, dom_handleTrigger).
  assert (frame (dom s) (dom s1)) as F1
    by (rewrite D1; apply triggers_frame; by_evaluation).
  rewrite forEach_handleTrigger_bound.
  - by apply forEach_handleTrigger_bound.
  - intros x Hx.
    rewrite <- (frame_querySelectorAll _ _ c _ F1 dropdownTriggers_clean) in Hx.
    rewrite D1. apply forEach_handleTriggerDom_keeps. by apply Hd.
Qed.

(** X14. The key handlers of tooltip and dropdown triggers are bound
    once: a second [fix] finds the marker that the first one left on
    every trigger of the container and binds no further handler, whatever
    else it adds. *)
Theorem second_fix_binds_no_trigger_handler (this : TabindexManager)
    (s : page) (c : nat) :
  forallb cleanSelector (container this) = true ->
  document_querySelector (dom s) (container this) = Some c ->
  triggerKeyHandlers (fix_ this (fix_ this s))
  = triggerKeyHandlers (fix_ this s).
Proof.
  intros Hclean Hc.
  pose proof (dom_fix this s c Hc) as D1.
  set (s1 := fix_ this s) in *.
  assert (frame (dom s) (dom s1)) as F1
    by (rewrite D1; apply fixDom_frame).
  assert (document_querySelector (dom s1) (container this) = Some c) as Hc1.
  { rewrite <- Hc. symmetry. by apply frame_document_querySelector. }
  unfold fix_ at 1. rewrite Hc1.
  set (s0 := withDom (fun d => normalise this d c) s1).
  set (sa := if enableMutationObserver this
             then setupMutationObserver c s0 else s0).
  set (sb := if enableDynamicContentSupport this
             then setupDynamicContentHandlers sa else sa).
  set (sc := if supportWizardNavigation this
             then setupWizardNavigationSupport c sb else sb).
  assert (dom sc = normalise this (dom s1) c
          /\ triggerKeyHandlers sc = triggerKeyHandlers s1) as [Dc Tc].
  { subst sc sb sa s0.
    destruct (supportWizardNavigation this),
      (enableDynamicContentSupport this), (enableMutationObserver this);
      rewrite ?dom_setupWizardNavigationSupport;
      repeat match goal with
        | |- context [setupWizardNavigationSupport c ?s'] =>
            destruct (wizard_preserves c s') as (_ & _ & _ & ->)
        | |- context [setupDynamicContentHandlers ?s'] =>
            destruct (dynamic_effects s') as (_ & _ & _ & ->)
        end; done. }
  destruct (handleTooltipsAndDropdowns this) eqn:Htt; [|exact Tc].
  unfold triggerKeyHandlers in *. rewrite setup_triggers_bound; [exact Tc| |].
  - intros x. rewrite Dc.
    rewrite <- (frame_querySelectorAll _ _ c _
                  (normalise_frame this (dom s1) c) tooltipTriggers_clean).
    unfold hasAttribute. rewrite normalise_other_attribute by done.
    rewrite D1. unfold fixDom. rewrite Htt. cbv zeta.
    rewrite <- (frame_querySelectorAll _ _ c _
                  (triggersDom_frame c (normalise this (dom s) c))
                  tooltipTriggers_clean).
    apply triggersDom_marked.
  - intros x. rewrite Dc.
    rewrite <- (frame_querySelectorAll _ _ c _
                  (normalise_frame this (dom s1) c) dropdownTriggers_clean).
    unfold hasAttribute. rewrite normalise_other_attribute by done.
    rewrite D1. unfold fixDom. rewrite Htt. cbv zeta.
    rewrite <- (frame_querySelectorAll _ _ c _
                  (triggersDom_frame c (normalise this (dom s) c))
                  dropdownTriggers_clean).
    apply triggersDom_marked.
Qed.

Lemma second_fix_binds_no_trigger_handler_witness :
  triggerKeyHandlers
    (fix_ defaultManager (fix_ defaultManager (freshPage withTriggers None)))
  = triggerKeyHandlers (fix_ defaultManager (freshPage withTriggers None)).
Proof.
  apply (second_fix_binds_no_trigger_handler defaultManager
           (freshPage withTriggers None) 0); reflexivity.
Defined.

(** ** The audit: what is listed, and in which order *)

Lemma forEach_collect {A : Type} (k : nat -> list A)
    (f : nat -> list A -> list A) (l : list nat) (acc : list A) :
  (forall el acc0, f el acc0 = (acc0 ++ k el)%list) ->
  forEach l f acc = (acc ++ (l ≫= k))%list.
Proof.
  intros Hf. unfold forEach. revert acc.
  induction l as [|x l IH]; intros acc; cbn [fold_left].
  - by rewrite app_nil_r.
  - rewrite IH, Hf, bind_cons. by rewrite <- app_assoc.
Qed.

Lemma analyzeTabOrder_collected (this : TabindexManager) (d : list element)
    (c : nat) :
  analyzeTabOrder this d c =
  Array_sort compareEntries
    ((querySelectorAll d c [Compound [SHasAttr "tabindex"]] ≫= explicitEntry d)
     ++ (querySelectorAll d c (interactiveSelectors this) ≫= implicitEntry d)).
Proof.
  unfold analyzeTabOrder. cbv zeta. f_equal.
  rewrite (forEach_collect (implicitEntry d)).
  - f_equal. apply (forEach_collect (explicitEntry d)).
    intros el acc. unfold explicitEntry.
    destruct (tabindexOf d el) as [z|]; [|by rewrite app_nil_r].
    destruct (_ && _); [done | by rewrite app_nil_r].
  - intros el acc. unfold implicitEntry.
    destruct (_ && _); [done | by rewrite app_nil_r].
Qed.

Lemma matches_hasTabindex (d : list element) (el : nat) :
  matches d el [Compound [SHasAttr "tabindex"]] = hasAttribute d el "tabindex".
Proof.
  unfold matches. cbn [existsb matchesOne matchesCompound forallb matchesSimple].
  by rewrite andb_true_r, orb_false_r.
Qed.

Lemma tabindexOf_hasAttribute (d : list element) (el : nat) (t : Z) :
  tabindexOf d el = Some t -> hasAttribute d el "tabindex" = true.
Proof.
  unfold tabindexOf, hasAttribute. by destruct (getAttribute d el "tabindex").
Qed.

Lemma elem_of_explicitEntry (d : list element) (el : nat) (e : tabEntry) :
  e ∈ explicitEntry d el <->
  entryElement e = el /\ tabindexOf d el = Some (entryTabindex e)
  /\ (0 <= entryTabindex e)%Z /\ shouldBeRemovedFromTabOrder d el = false.
Proof.
  unfold explicitEntry. destruct (tabindexOf d el) as [z|].
  - destruct (0 <=? z)%Z eqn:Ez, (shouldBeRemovedFromTabOrder d el);
      cbn [andb negb]; rewrite ?list_elem_of_singleton, ?elem_of_nil;
      split; try done; try (by intros (_ & _ & _ & ?)).
    + intros ->. simpl. repeat split. lia.
    + intros (<- & [= ->] & _). by destruct e.
    + intros (_ & [= ->] & ? & _). lia.
  - rewrite elem_of_nil. split; [done|]. by intros (_ & ? & _).
Qed.

Lemma elem_of_implicitEntry (d : list element) (el : nat) (e : tabEntry) :
  e ∈ implicitEntry d el <->
  entryElement e = el /\ entryTabindex e = 0%Z
  /\ hasAttribute d el "tabindex" = false
  /\ shouldBeRemovedFromTabOrder d el = false.
Proof.
  unfold implicitEntry.
  destruct (hasAttribute d el "tabindex"),
    (shouldBeRemovedFromTabOrder d el);
    cbn [andb negb]; rewrite ?list_elem_of_singleton, ?elem_of_nil;
    split; try done; try (by intros (_ & _ & ? & ?)).
  - by intros ->.
  - intros (<- & <- & _). by destruct e.
Qed.

Lemma sortInsert_Permutation cmp (x : tabEntry) l :
  sortInsert cmp x l ≡ₚ x :: l.
Proof.
  induction l as [|y l IH]; simpl; [done|].
  destruct (cmp x y <=? 0)%Z; [done|]. rewrite IH. apply Permutation_swap.
Qed.

Lemma Array_sort_Permutation cmp (l : list tabEntry) : Array_sort cmp l ≡ₚ l.
Proof.
  unfold Array_sort. induction l as [|y l IH]; simpl; [done|].
  by rewrite sortInsert_Permutation, IH.
Qed.

Lemma elements_of_entries (k : nat -> list tabEntry) (l : list nat) :
  (forall el e, e ∈ k el -> entryElement e = el) ->
  (forall el, (length (k el) <= 1)%nat) ->
  map entryElement (l ≫= k) = filter (fun el => k el <> []) l.
Proof.
  intros Hel Hlen. induction l as [|x l IH]; [done|].
  rewrite bind_cons, map_app, IH, filter_cons.
  pose proof (Hel x) as Hx. pose proof (Hlen x) as Hl.
  destruct (k x) as [|e [|e' r]].
  - by rewrite decide_False by (by intros ?).
  - rewrite decide_True by done. simpl. f_equal. apply Hx, elem_of_cons.
    by left.
  - simpl in Hl. lia.
Qed.

Lemma elem_of_analyzeTabOrder (this : TabindexManager) (d : list element)
    (c : nat) (e : tabEntry) :
  e ∈ analyzeTabOrder this d c <->
  isDescendant d c (entryElement e) = true
  /\ shouldBeRemovedFromTabOrder d (entryElement e) = false
  /\ (tabindexOf d (entryElement e) = Some (entryTabindex e)
      /\ (0 <= entryTabindex e)%Z
      \/ hasAttribute d (entryElement e) "tabindex" = false
         /\ isInteractiveElement this d (entryElement e) = true
         /\ entryTabindex e = 0%Z).
Proof.
  rewrite analyzeTabOrder_collected.
  rewrite elem_of_Array_sort, elem_of_app, !list_elem_of_bind.
  split.
  - intros [(el & He & Hel) | (el & He & Hel)].
    + apply elem_of_explicitEntry in He as (<- & Ht & H0 & Hr).
      apply elem_of_querySelectorAll in Hel as [Hd _]. auto.
    + apply elem_of_implicitEntry in He as (<- & Ht & Hh & Hr).
      apply elem_of_querySelectorAll in Hel as [Hd Hm].
      split; [done|]. split; [done|]. right. auto.
  - intros (Hd & Hr & [[Ht H0] | (Hh & Hi & Ht)]).
    + left. exists (entryElement e). split.
      * by apply elem_of_explicitEntry.
      * apply elem_of_querySelectorAll. split; [done|].
        rewrite matches_hasTabindex. by eapply tabindexOf_hasAttribute.
    + right. exists (entryElement e). split.
      * by apply elem_of_implicitEntry.
      * by apply elem_of_querySelectorAll.
Qed.

(** X15. What the audit lists: exactly the descendants of the container
    that are not to be removed from the tab order and that either carry a
    tabindex whose integer value is at least 0 (listed with that value)
    or carry no tabindex and match the interactive selectors (listed
    with 0); and no node is listed twice.  A node whose tabindex does not
    parse or is negative is not listed, interactive or not. *)
Theorem audit_lists_exactly (this : TabindexManager) (d : list element)
    (c : nat) :
  (forall e,
     e ∈ analyzeTabOrder this d c <->
     isDescendant d c (entryElement e) = true
     /\ shouldBeRemovedFromTabOrder d (entryElement e) = false
     /\ (tabindexOf d (entryElement e) = Some (entryTabindex e)
         /\ (0 <= entryTabindex e)%Z
         \/ hasAttribute d (entryElement e) "tabindex" = false
            /\ isInteractiveElement this d (entryElement e) = true
            /\ entryTabindex e = 0%Z))
  /\ NoDup (map entryElement (analyzeTabOrder this d c)).
Proof.
  split; [apply elem_of_analyzeTabOrder|].
  rewrite analyzeTabOrder_collected.
  rewrite (Permutation_map entryElement
             (Array_sort_Permutation compareEntries _)).
  rewrite map_app.
  rewrite (elements_of_entries (explicitEntry d)),
    (elements_of_entries (implicitEntry d)).
  - apply NoDup_app. split; [apply NoDup_filter, NoDup_querySelectorAll|].
    split; [|apply NoDup_filter, NoDup_querySelectorAll].
    intros x [Hx _]%list_elem_of_filter [Hy _]%list_elem_of_filter.
    unfold explicitEntry, implicitEntry in *.
    destruct (tabindexOf d x) as [z|] eqn:E; [|done].
    by rewrite (tabindexOf_hasAttribute d x z E) in Hy.
  - by intros el e (-> & _)%elem_of_implicitEntry.
  - intros el. unfold implicitEntry. destruct (_ && _); simpl; lia.
  - by intros el e (-> & _)%elem_of_explicitEntry.
  - intros el. unfold explicitEntry.
    destruct (tabindexOf d el); [destruct (_ && _)|]; simpl; lia.
Qed.

Lemma compareEntries_tabsBefore (a b : tabEntry) :
  (compareEntries a b <=? 0)%Z = true <-> tabsBefore a b.
Proof.
  unfold compareEntries, tabsBefore. rewrite Z.leb_le.
  destruct (0 <? entryTabindex a)%Z eqn:Ea, (0 <? entryTabindex b)%Z eqn:Eb;
    cbn [andb]; lia.
Qed.

Lemma tabsBefore_trans (a b c : tabEntry) :
  tabsBefore a b -> tabsBefore b c -> tabsBefore a c.
Proof. unfold tabsBefore. lia. Qed.

Lemma tabsBefore_total (a b : tabEntry) : tabsBefore a b \/ tabsBefore b a.
Proof. unfold tabsBefore. lia. Qed.

Lemma sortInsert_sorted (x : tabEntry) (l : list tabEntry) :
  StronglySorted tabsBefore l ->
  StronglySorted tabsBefore (sortInsert compareEntries x l).
Proof.
  induction 1 as [|y r Hr IH Hy]; simpl; [by repeat constructor|].
  destruct (compareEntries x y <=? 0)%Z eqn:E.
  - apply compareEntries_tabsBefore in E.
    constructor; [by constructor|]. constructor; [done|].
    eapply Forall_impl; [exact Hy|]. intros z. by apply tabsBefore_trans.
  - constructor; [done|]. apply Forall_forall.
    intros z [->|Hz]%elem_of_sortInsert.
    + destruct (tabsBefore_total x y) as [Hxy|]; [|done].
      apply compareEntries_tabsBefore in Hxy. congruence.
    + by eapply Forall_forall in Hy.
Qed.

Lemma Array_sort_sorted (l : list tabEntry) :
  StronglySorted tabsBefore (Array_sort compareEntries l).
Proof.
  unfold Array_sort. induction l as [|x l IH]; simpl;
    [constructor | by apply sortInsert_sorted].
Qed.

(** X16. The order of the audit: the array [analyzeTabOrder] returns is
    sorted as the comparator asks.  Whenever an entry has a positive
    order, every entry before it has a positive order that is not
    larger; so the positive orders come first, ascending, and the
    entries of order 0 after all of them. *)
Theorem audit_positive_orders_first (this : TabindexManager)
    (d : list element) (c : nat) :
  StronglySorted tabsBefore (analyzeTabOrder this d c).
Proof.
  rewrite analyzeTabOrder_collected. apply Array_sort_sorted.
Qed.

(** ** Arrow keys in a dropdown and between wizard steps *)

Lemma indexOfFrom_lookup (i : Z) (l : list nat) (x : nat) (k : nat) :
  NoDup l -> l !! k = Some x -> indexOfFrom i l x = (i + Z.of_nat k)%Z.
Proof.
  revert i k. induction l as [|y r IH]; intros i k Hnd Hk; [done|].
  apply NoDup_cons in Hnd as [Hy Hnd]. simpl.
  destruct k as [|k]; simpl in Hk.
  - injection Hk as ->. rewrite bool_decide_eq_true_2 by done. lia.
  - rewrite bool_decide_eq_false_2.
    + rewrite (IH (i + 1)%Z k) by done. lia.
    + intros ->. apply Hy. by eapply list_elem_of_lookup_2.
Qed.

Lemma indexOfFrom_range (i : Z) (l : list nat) (x : nat) :
  (0 <= i)%Z ->
  indexOfFrom i l x = (-1)%Z
  \/ (i <= indexOfFrom i l x < i + Z.of_nat (length l))%Z.
Proof.
  revert i. induction l as [|y r IH]; intros i Hi; simpl; [by left|].
  case_bool_decide; [right; lia|].
  destruct (IH (i + 1)%Z) as [->|]; [lia | by left | right; lia].
Qed.

Lemma indexOf_range (l : list nat) (x : option nat) :
  (-1 <= indexOf l x < Z.of_nat (length l))%Z.
Proof.
  destruct x as [x|]; simpl; [|lia].
  destruct (indexOfFrom_range 0 l x) as [->|]; lia.
Qed.

Lemma item_of_nat (l : list nat) (k : nat) : item l (Z.of_nat k) = l !! k.
Proof.
  unfold item. rewrite (proj2 (Z.ltb_ge _ _)) by lia. by rewrite Nat2Z.id.
Qed.

Lemma item_in_range (l : list nat) (i : Z) :
  (0 <= i < Z.of_nat (length l))%Z ->
  exists x, item l i = Some x /\ x ∈ l /\ l !! Z.to_nat i = Some x.
Proof.
  intros Hi. unfold item. rewrite (proj2 (Z.ltb_ge _ _)) by lia.
  destruct (lookup_lt_is_Some_2 l (Z.to_nat i)) as [x Hx]; [lia|].
  exists x. split; [done|]. split; [|done]. by eapply list_elem_of_lookup_2.
Qed.

(** The index an arrow key moves to in a dropdown of [n] items. *)
Lemma dropdown_target_in_range (n current direction : Z) :
  (0 < n)%Z -> (-1 <= current < n)%Z -> direction = 1%Z \/ direction = (-1)%Z ->
  (0 <= (if (current + direction <? 0)%Z then n - 1
         else if (current + direction >=? n)%Z then 0
              else current + direction) < n)%Z.
Proof.
  intros Hn Hc Hd.
  destruct (current + direction <? 0)%Z eqn:E1; [lia|].
  destruct (current + direction >=? n)%Z eqn:E2; lia.
Qed.

(** X17. Arrow keys in an open dropdown stay in the list: with at least
    one item, ArrowDown and ArrowUp prevent the default and call [focus]
    on exactly one element, an item of the dropdown, wherever the focus
    was.  With no item the handler throws a TypeError after preventing
    the default. *)
Theorem dropdown_arrows_stay_in_list (trigger : nat) (items : list nat)
    (name : string) (shift : bool) (s : page) :
  name = "ArrowDown" \/ name = "ArrowUp" ->
  match items with
  | [] =>
      dropdownKeyDown trigger items (Build_keyEvent name shift) s
      = (Build_keyOutcome true [] [],
         Some (TypeError "Cannot read properties of undefined (reading 'focus')"))
  | _ :: _ =>
      exists x,
        x ∈ items
        /\ dropdownKeyDown trigger items (Build_keyEvent name shift) s
           = (Build_keyOutcome true [x] [], None)
  end.
Proof.
  intros Hname.
  assert (String.eqb name "Escape" = false) as HE
    by (destruct Hname as [-> | ->]; reflexivity).
  assert (String.eqb name "ArrowDown" || String.eqb name "ArrowUp" = true)
    as HA by (destruct Hname as [-> | ->]; reflexivity).
  unfold dropdownKeyDown. cbn [key]. rewrite HE, HA. cbv zeta.
  destruct items as [|y r] eqn:El.
  - destruct (activeElement s), Hname as [-> | ->]; reflexivity.
  - rewrite <- El.
    set (direction := if String.eqb name "ArrowDown" then 1%Z else (-1)%Z).
    pose proof (indexOf_range items (activeElement s)) as Hc.
    assert (0 < Z.of_nat (length items))%Z as Hn by (rewrite El; simpl; lia).
    assert (direction = 1%Z \/ direction = (-1)%Z) as Hd
      by (subst direction; destruct (String.eqb name "ArrowDown"); auto).
    pose proof (dropdown_target_in_range _ _ _ Hn Hc Hd) as Ht.
    destruct (item_in_range items _ Ht) as (x & -> & Hx & _).
    by exists x.
Qed.

Lemma dropdown_arrows_stay_in_list_witness :
  exists x,
    x ∈ [4; 5; 6]
    /\ dropdownKeyDown 1 [4; 5; 6] (Build_keyEvent "ArrowUp" false)
         (freshPage linkAndDiv None)
       = (Build_keyOutcome true [x] [], None).
Proof.
  apply (dropdown_arrows_stay_in_list 1 [4; 5; 6] "ArrowUp" false
           (freshPage linkAndDiv None)).
  by right.
Defined.

Lemma dropdown_step (trigger : nat) (items : list nat) (name : string)
    (shift : bool) (s : page) (k : nat) (x : nat) :
  name = "ArrowDown" \/ name = "ArrowUp" ->
  NoDup items -> items !! k = Some x -> activeElement s = Some x ->
  let n := length items in
  let k' := if String.eqb name "ArrowDown"
            then (if S k =? n then 0 else S k)
            else (match k with 0 => n - 1 | S j => j end) in
  exists y, items !! k' = Some y
    /\ dropdownKeyDown trigger items (Build_keyEvent name shift) s
       = (Build_keyOutcome true [y] [], None).
Proof.
  intros Hname Hnd Hk Ha. cbv zeta.
  assert (String.eqb name "Escape" = false) as HE
    by (destruct Hname as [-> | ->]; reflexivity).
  assert (String.eqb name "ArrowDown" || String.eqb name "ArrowUp" = true)
    as HA by (destruct Hname as [-> | ->]; reflexivity).
  unfold dropdownKeyDown. cbn [key]. rewrite HE, HA, Ha. cbv zeta.
  unfold indexOf. rewrite (indexOfFrom_lookup 0 items x k Hnd Hk).
  pose proof (lookup_lt_Some _ _ _ Hk) as Hlt.
  destruct Hname as [-> | ->];
    [change (String.eqb "ArrowDown" "ArrowDown") with true
    |change (String.eqb "ArrowUp" "ArrowDown") with false]; cbv iota.
  - rewrite (proj2 (Z.ltb_ge _ _)) by lia.
    destruct (S k =? length items) eqn:E.
    + apply Nat.eqb_eq in E.
      rewrite (proj2 (Z.geb_le _ _)) by lia.
      destruct (item_in_range items 0) as (y & -> & _ & Hy); [lia|].
      by exists y.
    + apply Nat.eqb_neq in E.
      assert ((0 + Z.of_nat k + 1 >=? Z.of_nat (length items))%Z = false)
        as -> by (rewrite Z.geb_leb; apply Z.leb_gt; lia).
      replace (0 + Z.of_nat k + 1)%Z with (Z.of_nat (S k)) by lia.
      rewrite item_of_nat.
      destruct (lookup_lt_is_Some_2 items (S k)) as [y Hy]; [lia|].
      rewrite Hy. by exists y.
  - destruct k as [|j].
    + change (0 + Z.of_nat 0 + -1 <? 0)%Z with true. cbv iota.
      replace (Z.of_nat (length items) - 1)%Z
        with (Z.of_nat (length items - 1)) by lia.
      rewrite item_of_nat.
      destruct (lookup_lt_is_Some_2 items (length items - 1)) as [y Hy];
        [lia|].
      rewrite Hy. by exists y.
    + rewrite (proj2 (Z.ltb_ge _ _)) by lia.
      assert ((0 + Z.of_nat (S j) + -1 >=? Z.of_nat (length items))%Z = false)
        as -> by (rewrite Z.geb_leb; apply Z.leb_gt; lia).
      replace (0 + Z.of_nat (S j) + -1)%Z with (Z.of_nat j) by lia.
      rewrite item_of_nat.
      destruct (lookup_lt_is_Some_2 items j) as [y Hy]; [lia|].
      rewrite Hy. by exists y.
Qed.

(** X18. Round trip in a dropdown: from an item of the list, an arrow
    key moves the focus to an item from which the opposite arrow key
    moves it back, also across the ends of the list (the node list of
    [querySelectorAll] has no repetition). *)
Theorem dropdown_arrow_round_trip (trigger : nat) (items : list nat)
    (there back : string) (shift : bool) (x : nat) (s s' : page) :
  there = "ArrowDown" /\ back = "ArrowUp"
  \/ there = "ArrowUp" /\ back = "ArrowDown" ->
  NoDup items -> x ∈ items -> activeElement s = Some x ->
  exists y,
    dropdownKeyDown trigger items (Build_keyEvent there shift) s
    = (Build_keyOutcome true [y] [], None)
    /\ (activeElement s' = Some y ->
        dropdownKeyDown trigger items (Build_keyEvent back shift) s'
        = (Build_keyOutcome true [x] [], None)).
Proof.
  intros Hkeys Hnd [k Hk]%list_elem_of_lookup_1 Ha.
  pose proof (lookup_lt_Some _ _ _ Hk) as Hlt.
  destruct Hkeys as [[-> ->] | [-> ->]].
  - destruct (dropdown_step trigger items "ArrowDown" shift s k x)
      as (y & Hy & E); [by left | done | done | done |].
    exists y. split; [done|]. intros Ha'.
    change (String.eqb "ArrowDown" "ArrowDown") with true in Hy.
    cbv iota in Hy.
    set (k' := if S k =? length items then 0 else S k) in Hy.
    destruct (dropdown_step trigger items "ArrowUp" shift s' k' y)
      as (z & Hz & E'); [by right | done | exact Hy | done |].
    rewrite E'. do 3 f_equal.
    change (String.eqb "ArrowUp" "ArrowDown") with false in Hz.
    cbv iota in Hz. subst k'.
    destruct (S k =? length items) eqn:En.
    + apply Nat.eqb_eq in En. replace (length items - 1) with k in Hz by lia.
      congruence.
    + congruence.
  - destruct (dropdown_step trigger items "ArrowUp" shift s k x)
      as (y & Hy & E); [by right | done | done | done |].
    exists y. split; [done|]. intros Ha'.
    change (String.eqb "ArrowUp" "ArrowDown") with false in Hy.
    cbv iota in Hy.
    set (k' := match k with 0 => length items - 1 | S j => j end) in Hy.
    destruct (dropdown_step trigger items "ArrowDown" shift s' k' y)
      as (z & Hz & E'); [by left | done | exact Hy | done |].
    rewrite E'. do 3 f_equal.
    change (String.eqb "ArrowDown" "ArrowDown") with true in Hz.
    cbv iota in Hz. subst k'.
    destruct k as [|j].
    + replace (S (length items - 1) =? length items) with true in Hz
        by (symmetry; apply Nat.eqb_eq; lia).
      congruence.
    + replace (S j =? length items) with false in Hz
        by (symmetry; apply Nat.eqb_neq; lia).
      congruence.
Qed.

Lemma dropdown_arrow_round_trip_witness :
  exists y,
    dropdownKeyDown 1 [4; 5; 6] (Build_keyEvent "ArrowDown" false)
      (freshPage linkAndDiv (Some 6))
    = (Build_keyOutcome true [y] [], None)
    /\ (activeElement (freshPage linkAndDiv (Some 4)) = Some y ->
        dropdownKeyDown 1 [4; 5; 6] (Build_keyEvent "ArrowUp" false)
          (freshPage linkAndDiv (Some 4))
        = (Build_keyOutcome true [6] [], None)).
Proof.
  apply (dropdown_arrow_round_trip 1 [4; 5; 6] "ArrowDown" "ArrowUp" false 6
           (freshPage linkAndDiv (Some 6)) (freshPage linkAndDiv (Some 4)));
    [by left | by_evaluation | by_evaluation | reflexivity].
Defined.

(** X19. Arrow keys between wizard steps: on the step at position [i]
    of the wizard's step list, ArrowRight clicks and focuses the step at
    position [i + 1] and ArrowLeft the one at [i - 1], provided that
    step exists and carries neither the attribute nor the class
    [disabled]; otherwise nothing is clicked or focused.  There is no
    wrap-around and a disabled step is not skipped; the key's default is
    prevented in every case. *)
Theorem wizard_arrows_move_to_adjacent_step (steps : list nat) (i : nat)
    (step : nat) (shift : bool) (s : page) :
  NoDup steps -> steps !! i = Some step ->
  let move (target : option nat) :=
    match target with
    | Some t => if stepEnabled (dom s) t then [t] else []
    | None => []
    end in
  wizardStepKeyDown steps step (Build_keyEvent "ArrowRight" shift) s
  = Build_keyOutcome true (move (steps !! S i)) (move (steps !! S i))
  /\ wizardStepKeyDown steps step (Build_keyEvent "ArrowLeft" shift) s
     = Build_keyOutcome true
         (move (match i with S j => steps !! j | 0 => None end))
         (move (match i with S j => steps !! j | 0 => None end)).
Proof.
  intros Hnd Hi move. unfold wizardStepKeyDown. cbn [key].
  change (String.eqb "ArrowRight" "ArrowRight") with true.
  change (String.eqb "ArrowLeft" "ArrowRight") with false.
  change (String.eqb "ArrowLeft" "ArrowLeft") with true.
  cbn [orb]. cbv zeta. unfold indexOf.
  rewrite (indexOfFrom_lookup 0 steps step i Hnd Hi).
  pose proof (lookup_lt_Some _ _ _ Hi) as Hlt.
  split.
  - replace (0 + Z.of_nat i + 1)%Z with (Z.of_nat (S i)) by lia.
    rewrite item_of_nat. rewrite (proj2 (Z.leb_le _ _)) by lia. cbn [andb].
    destruct (steps !! S i) as [t|] eqn:Et.
    + apply lookup_lt_Some in Et. by rewrite (proj2 (Z.ltb_lt _ _)) by lia.
    + by destruct (_ <? _)%Z.
  - destruct i as [|j].
    + reflexivity.
    + replace (0 + Z.of_nat (S j) + -1)%Z with (Z.of_nat j) by lia.
      rewrite item_of_nat. rewrite (proj2 (Z.leb_le _ _)) by lia.
      rewrite (proj2 (Z.ltb_lt _ _)) by lia. cbn [andb].
      by destruct (steps !! j).
Qed.

Lemma wizard_arrows_move_to_adjacent_step_witness :
  wizardStepKeyDown [1; 2; 3] 1 (Build_keyEvent "ArrowRight" false)
    (freshPage wizardOfThree (Some 1))
  = Build_keyOutcome true [] []
  /\ wizardStepKeyDown [1; 2; 3] 1 (Build_keyEvent "ArrowLeft" false)
       (freshPage wizardOfThree (Some 1))
     = Build_keyOutcome true [] [].
Proof.
  apply (wizard_arrows_move_to_adjacent_step [1; 2; 3] 0 1 false
           (freshPage wizardOfThree (Some 1)));
    [by_evaluation | reflexivity].
Defined.

(** ** The observer of the container *)

(** A batch makes the callback scan exactly when one of its records is
    relevant. *)
Lemma observerCallback_relevant (this : TabindexManager) (c : nat)
    (mutations : list mutationRecord) (s : page) :
  observerCallback this c mutations s
  = if existsb relevantMutation mutations
    then processDynamicContent this c s else s.
Proof.
  unfold observerCallback.
  match goal with
  | |- (if fold_left ?f _ _ then _ else _) = _ =>
      assert (forall l acc, fold_left f l acc = acc || existsb relevantMutation l)
        as ->
  end; [|done].
  induction l as [|m l IH]; intros acc; cbn [fold_left existsb].
  - by rewrite orb_false_r.
  - rewrite IH, orb_assoc. f_equal. unfold relevantMutation.
    destruct (String.eqb (mutationType m) "childList") eqn:E1.
    + assert (String.eqb (mutationType m) "attributes" = false) as ->.
      { apply String.eqb_eq in E1. by rewrite E1. }
      destruct (addedNodes m) as [|n r]; [by destruct acc|].
      change (0 <? length (n :: r)) with true.
      by destruct (existsb isElementNode (n :: r)), acc.
    + destruct (String.eqb (mutationType m) "attributes"); [|by destruct acc].
      destruct (attributeName m) as [a|]; [|by destruct acc].
      by destruct (bool_decide (a ∈ relevantAttributes)), acc.
Qed.

(** X20. The callback of the container's observer.  A batch of mutation
    records makes the callback scan exactly when it holds an added
    element node or a change of one of the seven watched attributes;
    removals and added text never do.  After two scans of the container
    the page is a fixed point of the callback: whatever batches it is
    then given, and however often, the page it returns is the page it
    was given.  This is about the page at the return of each run, not
    about what a run writes on the way: a scan may set and remove the
    tabindex of a node and return the document as it found it. *)
Theorem observer_callback_fixed_point (options : managerOptions) (c : nat)
    (s : page) (batches : list (list mutationRecord)) :
  let this := new_TabindexManager options in
  let s2 := processDynamicContent this c (processDynamicContent this c s) in
  (forall mutations s0,
     observerCallback this c mutations s0
     = if existsb relevantMutation mutations
       then processDynamicContent this c s0 else s0)
  /\ fold_left (fun s0 mutations => observerCallback this c mutations s0)
       batches s2
     = s2.
Proof.
  intros this s2. split; [apply observerCallback_relevant|].
  assert (processDynamicContent this c s2 = s2) as Hfix.
  { destruct (scan_fixed options c (processDynamicContent this c s))
      as [E2 E3]; [apply detect_arms_all|].
    fold this in E2, E3. fold s2 in E2. by rewrite <- E2 in E3. }
  induction batches as [|b l IH]; [done|]. cbn [fold_left].
  rewrite observerCallback_relevant.
  destruct (existsb relevantMutation b); by rewrite ?Hfix.
Qed.

(** ** The trap of a modal loaded by ajax *)

Lemma filter_id {A : Type} (P : A -> Prop) `{!forall x, Decision (P x)}
    (l : list A) :
  (forall x, x ∈ l -> P x) -> filter P l = l.
Proof.
  induction l as [|x l IH]; intros Hall; [done|].
  rewrite filter_cons, decide_True by (apply Hall, elem_of_cons; by left).
  f_equal. apply IH. intros y Hy. apply Hall, elem_of_cons. by right.
Qed.

Lemma setupFocusTrap_effects (this : TabindexManager) (m : nat)
    (o : trapOptions) (s : page) :
  exists env,
    modalElement env = m
    /\ fst (setupFocusTrap this (Some m) o s) = TrapHandle (length (sessions s))
    /\ sessions (snd (setupFocusTrap this (Some m) o s))
       = (sessions s ++ [env])%list
    /\ listeners (snd (setupFocusTrap this (Some m) o s))
       = (listeners s ++ [intercept m (length (sessions s))])%list
    /\ removeFocusTrap (snd (setupFocusTrap this (Some m) o s))
       = removeFocusTrap s.
Proof.
  unfold setupFocusTrap.
  destruct (length (findTabbableElements this (dom s) m) =? 0);
    eexists; cbn [fst snd sessions listeners removeFocusTrap addEventListener
                  newSession setTimeout withDom];
    (split; [|repeat split]); reflexivity.
Qed.

Lemma remove_releases (id : nat) (env : trapEnv) (l0 : list listener)
    (s : page) :
  sessions s !! id = Some env ->
  listeners s = (l0 ++ [intercept (modalElement env) id])%list ->
  intercept (modalElement env) id ∉ l0 ->
  listeners (remove (TrapHandle id) s) = l0
  /\ sessions (remove (TrapHandle id) s) = sessions s
  /\ dom (remove (TrapHandle id) s) = dom s.
Proof.
  intros Hs Hl Hfresh. unfold remove. rewrite Hs.
  assert (listeners
            (removeEventListener (Some (modalElement env)) "keydown"
               (TrapKeyDown id) s) = l0) as E.
  { cbn [listeners removeEventListener]. rewrite Hl.
    rewrite filter_snoc_False by (intros H; by apply H).
    apply filter_id. intros x Hx ->. by apply Hfresh. }
  destruct (previouslyFocusedElement env) as [p|];
    [destruct (returnFocusOnClose env)|]; by rewrite <- E.
Qed.

Lemma intercept_fresh (s0 : page) (modal id : nat) :
  freshSessions s0 -> length (sessions s0) <= id ->
  intercept modal id ∉ listeners s0.
Proof.
  intros Hf Hid Hin. specialize (Hf _ id Hin eq_refl). lia.
Qed.

Lemma accounted_step (this : TabindexManager) (s0 : page) (modal : nat)
    (mutation : mutationRecord) (st : jspPage) :
  freshSessions s0 -> accounted s0 modal st ->
  accounted s0 modal (modalObserverStep this modal mutation st).
Proof.
  intros Hfresh [Hlen Hacc]. unfold modalObserverStep.
  destruct (String.eqb (mutationType mutation) "attributes"); [|by split].
  cbv zeta.
  destruct (bool_decide (modal ∈ focusTrapActive st)) eqn:Hflag;
    destruct (isVisuallyHidden (dom (thePage st)) modal);
    cbn [negb andb]; try (split; [done|by rewrite Hflag]).
  - (* hidden and trapped: release *)
    destruct Hacc as (id & env & Hr & Hs & Hm & Hid & Hl).
    rewrite Hr. subst modal.
    destruct (remove_releases id env (listeners s0) (thePage st) Hs Hl)
      as (El & Es & _); [by apply intercept_fresh|].
    unfold accounted. cbn [thePage focusTrapActive]. rewrite Es.
    split; [done|].
    rewrite bool_decide_eq_false_2; [done|].
    rewrite elem_of_difference, elem_of_singleton. tauto.
  - (* shown and not trapped: arm *)
    destruct (setupFocusTrap_effects this modal
                (Build_trapOptions (Some true) None) (thePage st))
      as (env & Hm & Eh & Es & El & Er).
    destruct (setupFocusTrap this (Some modal)
                (Build_trapOptions (Some true) None) (thePage st))
      as [h s1].
    cbn [fst snd] in *. subst h.
    unfold accounted.
    cbn [thePage focusTrapActive storeRemoveFocusTrap sessions listeners
         removeFocusTrap].
    rewrite Es, length_app. split; [lia|].
    rewrite bool_decide_eq_true_2
      by (apply elem_of_union; left; by apply elem_of_singleton).
    exists (length (sessions (thePage st))), env.
    rewrite lookup_insert_eq, list_lookup_middle by done.
    repeat split; [done | done | by rewrite El, Hacc].
Qed.

Lemma accounted_callback (this : TabindexManager) (s0 : page) (modal : nat)
    (mutations : list mutationRecord) (st : jspPage) :
  freshSessions s0 -> accounted s0 modal st ->
  accounted s0 modal (modalObserverCallback this modal mutations st).
Proof.
  intros Hfresh. unfold modalObserverCallback. revert st.
  induction mutations as [|m l IH]; intros st Hst; [done|].
  cbn [fold_left]. apply IH.
  by apply (accounted_step this s0 modal m st).
Qed.

Lemma accounted_deliveries (this : TabindexManager) (s0 : page) (modal : nat)
    (rounds : list (list element * list mutationRecord)) (st : jspPage) :
  freshSessions s0 -> accounted s0 modal st ->
  accounted s0 modal (deliveries this modal rounds st).
Proof.
  intros Hfresh. unfold deliveries. revert st.
  induction rounds as [|[d b] l IH]; intros st Hst; [done|].
  cbn [fold_left fst snd]. apply IH. apply accounted_callback; [done|].
  exact Hst.
Qed.

Lemma modalObserverStep_visibility (this : TabindexManager) (modal : nat)
    (mutation : mutationRecord) (st : jspPage) :
  isVisuallyHidden (dom (thePage (modalObserverStep this modal mutation st)))
    modal
  = isVisuallyHidden (dom (thePage st)) modal.
Proof.
  unfold modalObserverStep.
  destruct (String.eqb (mutationType mutation) "attributes"); [|done].
  cbv zeta. destruct (_ && _).
  - pose proof (dom_setupFocusTrap this modal
                  (Build_trapOptions (Some true) None) (thePage st)) as E.
    destruct (setupFocusTrap this (Some modal) _ (thePage st)) as [h s1].
    cbn [snd thePage storeRemoveFocusTrap dom] in *. rewrite E.
    destruct (length _ =? 0); [|done].
    symmetry. apply frame_isVisuallyHidden, frame_setAttribute, tabindex_managed.
  - destruct (_ && _); [|done]. cbn [thePage].
    destruct (removeFocusTrap (thePage st) !! modal) as [[|id]|]; try done.
    unfold remove. destruct (sessions (thePage st) !! id) as [env|]; [|done].
    destruct (previouslyFocusedElement env);
      [destruct (returnFocusOnClose env)|]; done.
Qed.

Lemma flagFollows_step (this : TabindexManager) (modal : nat)
    (mutation : mutationRecord) (st : jspPage) :
  mutationType mutation = "attributes" \/ flagFollows modal st ->
  flagFollows modal (modalObserverStep this modal mutation st).
Proof.
  intros H. unfold flagFollows. rewrite modalObserverStep_visibility.
  unfold modalObserverStep.
  destruct (String.eqb (mutationType mutation) "attributes") eqn:E.
  - cbv zeta.
    destruct (isVisuallyHidden (dom (thePage st)) modal),
      (bool_decide (modal ∈ focusTrapActive st)) eqn:Hflag; cbn [negb andb].
    + cbn [focusTrapActive]. apply bool_decide_eq_false_2.
      rewrite elem_of_difference, elem_of_singleton. tauto.
    + done.
    + done.
    + destruct (setupFocusTrap this (Some modal) _ (thePage st)) as [h s1].
      cbn [focusTrapActive]. apply bool_decide_eq_true_2.
      apply elem_of_union. left. by apply elem_of_singleton.
  - destruct H as [H|H]; [|exact H].
    apply String.eqb_neq in E. done.
Qed.

Lemma flagFollows_callback (this : TabindexManager) (modal : nat)
    (mutations : list mutationRecord) (st : jspPage) :
  (exists m, m ∈ mutations /\ mutationType m = "attributes")
  \/ flagFollows modal st ->
  flagFollows modal (modalObserverCallback this modal mutations st).
Proof.
  unfold modalObserverCallback. revert st.
  induction mutations as [|m l IH]; intros st H; cbn [fold_left].
  - destruct H as [(m & Hm & _)|H]; [by apply elem_of_nil in Hm | done].
  - apply IH.
    destruct H as [(m' & [->|Hm]%elem_of_cons & Ht)|H].
    + right. apply flagFollows_step. by left.
    + left. by exists m'.
    + right. apply flagFollows_step. by right.
Qed.

(** X21. A modal that an ajax response brought is trapped exactly while
    it is shown.  Whatever the document became between the deliveries
    and whatever was delivered before: after a delivery that holds an
    attribute record, a hidden modal has its flag cleared and the
    listeners are those of the start, and a shown modal has its flag set
    and the listeners are those of the start plus one key intercept of
    the trap on the modal, never more. *)
Theorem ajax_modal_trapped_iff_shown (this : TabindexManager) (modal : nat)
    (s0 : page) (rounds : list (list element * list mutationRecord))
    (d : list element) (mutations : list mutationRecord) :
  freshSessions s0 ->
  (exists m, m ∈ mutations /\ mutationType m = "attributes") ->
  let st :=
    deliveries this modal (rounds ++ [(d, mutations)])
      {| thePage := s0; focusTrapActive := ∅ |} in
  if isVisuallyHidden (dom (thePage st)) modal
  then ((modal ∉ focusTrapActive st)
        /\ listeners (thePage st) = listeners s0)
  else (modal ∈ focusTrapActive st
        /\ exists id,
             listeners (thePage st)
             = (listeners s0 ++ [intercept modal id])%list).
Proof.
  intros Hfresh Hattr st.
  assert (accounted s0 modal st) as [_ Hacc].
  { apply accounted_deliveries; [done|]. split; [done|].
    by rewrite bool_decide_eq_false_2 by apply not_elem_of_empty. }
  assert (flagFollows modal st) as Hflag.
  { subst st. unfold deliveries. rewrite fold_left_app. cbn [fold_left fst snd].
    apply flagFollows_callback. by left. }
  unfold flagFollows in Hflag.
  destruct (isVisuallyHidden (dom (thePage st)) modal); cbn [negb] in Hflag;
    rewrite Hflag in Hacc.
  - split; [|done]. by apply bool_decide_eq_false in Hflag.
  - split; [by apply bool_decide_eq_true in Hflag|].
    destruct Hacc as (id & _ & _ & _ & _ & _ & Hl). by exists id.
Qed.

Lemma ajax_modal_trapped_iff_shown_witness :
  let st :=
    deliveries defaultManager 1
      ([(hiddenDialog, [attributeRecord "class"]);
        (dialogWithButton, [attributeRecord "class"; attributeRecord "style"])]
       ++ [(hiddenDialog, [attributeRecord "class"])])
      {| thePage := freshPage hiddenDialog None; focusTrapActive := ∅ |} in
  if isVisuallyHidden (dom (thePage st)) 1
  then ((1 ∉ focusTrapActive st)
        /\ listeners (thePage st) = listeners (freshPage hiddenDialog None))
  else (1 ∈ focusTrapActive st
        /\ exists id,
             listeners (thePage st)
             = (listeners (freshPage hiddenDialog None)
                ++ [intercept 1 id])%list).
Proof.
  apply (ajax_modal_trapped_iff_shown defaultManager 1
           (freshPage hiddenDialog None)
           [(hiddenDialog, [attributeRecord "class"]);
            (dialogWithButton,
             [attributeRecord "class"; attributeRecord "style"])]
           hiddenDialog [attributeRecord "class"]).
  - intros l id Hl. by apply elem_of_nil in Hl.
  - exists (attributeRecord "class"). split; [|reflexivity].
    apply elem_of_cons. by left.
Defined.

(** X22. Setting a trap and removing it restores the registry of
    listeners exactly, whatever the options, provided no listener
    carries the number of a session that does not exist yet.  The
    document is not restored: a tabindex="0" that the trap wrote on a
    region without tabbable elements stays. *)
Theorem trap_then_remove_restores_listeners (this : TabindexManager)
    (region : nat) (options : trapOptions) (s : page) :
  freshSessions s ->
  let armed := setupFocusTrap this (Some region) options s in
  let released := remove (fst armed) (snd armed) in
  listeners released = listeners s
  /\ dom released = dom (snd armed)
  /\ freshSessions released.
Proof.
  intros Hfresh armed released.
  destruct (setupFocusTrap_effects this region options s)
    as (env & Hm & Eh & Es & El & _).
  fold armed in Eh, Es, El. subst released. rewrite Eh.
  assert (sessions (snd armed) !! length (sessions s) = Some env) as Hs
    by (rewrite Es; by apply list_lookup_middle).
  rewrite <- Hm in El.
  destruct (remove_releases _ env (listeners s) (snd armed) Hs El)
    as (E1 & E2 & E3).
  { rewrite Hm. by apply intercept_fresh. }
  split; [done|]. split; [done|].
  intros l id Hl Hc. rewrite E1 in Hl. rewrite E2, Es, length_app.
  specialize (Hfresh l id Hl Hc). lia.
Qed.

Lemma trap_then_remove_restores_listeners_witness :
  listeners (remove (fst armedOnce) (snd armedOnce)) = []
  /\ dom (remove (fst armedOnce) (snd armedOnce)) = dom (snd armedOnce)
  /\ freshSessions (remove (fst armedOnce) (snd armedOnce)).
Proof.
  apply (trap_then_remove_restores_listeners defaultManager 1 noTrapOptions
           (freshPage dialogWithButton (Some 0))).
  intros l id Hl. by apply elem_of_nil in Hl.
Defined.

(** ** Hidden subtrees *)

Lemma parentsPrecede_wf (d : list element) :
  parentsPrecede d = true -> wf_document d.
Proof.
  unfold parentsPrecede. rewrite forallb_forall.
  intros Hall i e p He Hp.
  assert (In i (seq 0 (length d))) as Hin.
  { apply in_seq. apply lookup_lt_Some in He. lia. }
  specialize (Hall i Hin). unfold parentElement in Hall.
  rewrite He, Hp in Hall. by apply Nat.ltb_lt.
Qed.

Lemma ancestorsFrom_any (d : list element) (fuel1 fuel2 a : nat) :
  wf_document d -> a < fuel1 -> a < fuel2 ->
  ancestorsFrom fuel1 d (Some a) = ancestorsFrom fuel2 d (Some a).
Proof.
  intros Hwf H1 H2.
  replace fuel1 with (S a + (fuel1 - S a)) by lia.
  replace fuel2 with (S a + (fuel2 - S a)) by lia.
  by rewrite !(ancestorsFrom_enough d Hwf (S a)) by lia.
Qed.

Lemma ancestorsFrom_parent_any (d : list element) (fuel1 fuel2 x : nat) :
  wf_document d -> x <= fuel1 -> x <= fuel2 ->
  ancestorsFrom fuel1 d (parentElement d x)
  = ancestorsFrom fuel2 d (parentElement d x).
Proof.
  intros Hwf H1 H2. unfold parentElement.
  destruct (d !! x) as [e|] eqn:He; [|by rewrite !ancestorsFrom_None].
  destruct (parent e) as [p|] eqn:Hp; [|by rewrite !ancestorsFrom_None].
  pose proof (Hwf x e p He Hp). apply ancestorsFrom_any; [done|lia|lia].
Qed.

Lemma ancestorsFrom_trans (d : list element) (bound : nat) :
  wf_document d ->
  forall fuel a x z,
    a < fuel -> x ∈ ancestorsFrom fuel d (Some a) -> x <= bound ->
    z ∈ ancestorsFrom bound d (parentElement d x) ->
    z ∈ ancestorsFrom fuel d (Some a).
Proof.
  intros Hwf fuel. induction fuel as [|f IH]; intros a x z Ha Hx Hb Hz; [lia|].
  cbn [ancestorsFrom] in *. apply elem_of_cons in Hx as [->|Hx].
  - apply elem_of_cons. right.
    by rewrite (ancestorsFrom_parent_any d f bound a Hwf) by lia.
  - apply elem_of_cons. right.
    unfold parentElement in Hx |- *.
    destruct (d !! a) as [e|] eqn:He; [|by rewrite ancestorsFrom_None in Hx;
                                          apply elem_of_nil in Hx].
    destruct (parent e) as [p|] eqn:Hp; [|by rewrite ancestorsFrom_None in Hx;
                                           apply elem_of_nil in Hx].
    pose proof (Hwf a e p He Hp) as Hpa.
    apply (IH p x z); [lia | done | done | done].
Qed.

Lemma ancestors_trans (d : list element) (x y z : nat) :
  wf_document d ->
  x ∈ ancestors d y -> z ∈ ancestors d x -> z ∈ ancestors d y.
Proof.
  intros Hwf Hx Hz. unfold ancestors in *.
  unfold parentElement in Hx |- *.
  destruct (d !! y) as [e|] eqn:He; [|by rewrite ancestorsFrom_None in Hx;
                                        apply elem_of_nil in Hx].
  destruct (parent e) as [p|] eqn:Hp; [|by rewrite ancestorsFrom_None in Hx;
                                         apply elem_of_nil in Hx].
  pose proof (Hwf y e p He Hp) as Hpy. apply lookup_lt_Some in He.
  apply (ancestorsFrom_trans d (length d) Hwf (length d) p x z);
    [lia | done | | done].
  assert (x < length d); [|lia].
  apply (ancestorsFrom_lt d Hwf (length d) (Some p) (length d)); [|done].
  intros a [= <-]. lia.
Qed.

(** X23. Removal from the tab order is inherited: in a document (the
    parent of a node precedes it) every descendant of a node that
    [shouldBeRemovedFromTabOrder] excludes, because it or an ancestor is
    visually hidden or aria-hidden, is excluded as well.  So a hidden
    subtree is left out as a whole, by the passes, by
    [findTabbableElements] and by the audit alike. *)
Theorem removal_is_inherited (d : list element) (x y : nat) :
  wf_document d ->
  isDescendant d x y = true ->
  shouldBeRemovedFromTabOrder d x = true ->
  shouldBeRemovedFromTabOrder d y = true.
Proof.
  intros Hwf Hd Hx.
  destruct (isVisuallyHidden d x || ariaHidden d x) eqn:Hself;
    [by apply (under_hidden_ancestor d x y)|].
  apply orb_false_elim in Hself as [Hv Ha].
  unfold shouldBeRemovedFromTabOrder in Hx. rewrite Hv, Ha in Hx.
  cbn [orb] in Hx.
  destruct (hasHiddenParent d x) eqn:Hp; [|done].
  rewrite hasHiddenParent_existsb in Hp.
  apply existsb_exists in Hp as (a & Hin & Hhid).
  apply list_elem_of_In in Hin.
  apply bool_decide_eq_true in Hd.
  unfold shouldBeRemovedFromTabOrder.
  assert (hasHiddenParent d y = true) as ->; [|by rewrite orb_true_r].
  rewrite hasHiddenParent_existsb. apply existsb_exists.
  exists a. split; [|done].
  apply list_elem_of_In. by apply (ancestors_trans d x y a).
Qed.

Lemma removal_is_inherited_witness :
  shouldBeRemovedFromTabOrder nestedInHidden 3 = true.
Proof.
  apply (removal_is_inherited nestedInHidden 2 3).
  - apply parentsPrecede_wf. reflexivity.
  - vm_compute; reflexivity.
  - vm_compute; reflexivity.
Defined.

(** ** What the scans write *)

Lemma early_steps_cases (this : TabindexManager) (d : list element) (j : nat)
    (t : option string) :
  let t1 :=
    if fixNegativeTabindex this
    then negStep (isInteractiveElement this d j)
           (shouldBeRemovedFromTabOrder d j) t
    else t in
  let t2 := if fixHighTabindex this then highStep t1 else t1 in
  let t3 :=
    if ensureInteractiveElements this
    then coverStep (isInteractiveElement this d j) (isHidden d j) t2
    else t2 in
  t3 = t \/ t3 = Some "0".
Proof.
  cbv zeta. unfold negStep, highStep, coverStep.
  repeat match goal with
         | |- context [if ?b then _ else _] => destruct b
         end; auto.
Qed.

Lemma normaliseNode_cases (this : TabindexManager) (d : list element)
    (j : nat) (t : option string) :
  normaliseNode this d j t = t \/ normaliseNode this d j t = Some "0"
  \/ (normaliseNode this d j t = None
      /\ matches d j genericTags = true
      /\ hasAttribute d j "role" = false
      /\ hasKeyboardEventListeners d j = false).
Proof.
  unfold normaliseNode. cbv zeta.
  pose proof (early_steps_cases this d j t) as H. cbv zeta in H.
  unfold pruneStep.
  destruct (matches d j genericTags), (hasAttribute d j "role"),
    (hasKeyboardEventListeners d j);
    rewrite ?andb_false_r, ?andb_false_l, ?andb_true_r, ?andb_true_l;
    try tauto.
  destruct (ge0 _); [|tauto]. right. right. done.
Qed.

Lemma fixNode_cases (this : TabindexManager) (d : list element)
    (j : nat) (t : option string) :
  fixNode this d j t = t \/ fixNode this d j t = Some "0"
  \/ (fixNode this d j t = None
      /\ matches d j genericTags = true
      /\ hasAttribute d j "role" = false
      /\ hasKeyboardEventListeners d j = false).
Proof.
  unfold fixNode. cbv zeta.
  destruct (normaliseNode_cases this d j t) as [E|[E|(E & H)]];
    destruct (handleTooltipsAndDropdowns this); rewrite E; auto;
    unfold triggerStep;
    repeat match goal with
           | |- context [if ?b then _ else _] => destruct b
           end; auto.
Qed.

(** X24. What a scan may do to a tabindex: it leaves it as it is, writes
    "0", or removes it; and it removes it only from a node with one of
    the generic tags that has no role and no key-handler attribute.  No
    other value is ever written and no other node ever loses its
    tabindex, by [fix] as by [processDynamicContent]. *)
Theorem scans_write_zero_or_prune (options : managerOptions) (s : page)
    (c j : nat) :
  let this := new_TabindexManager options in
  let pruned (after : option string) :=
    after = None
    /\ matches (dom s) j genericTags = true
    /\ hasAttribute (dom s) j "role" = false
    /\ hasKeyboardEventListeners (dom s) j = false in
  let allowed (after : option string) :=
    after = getAttribute (dom s) j "tabindex" \/ after = Some "0"
    \/ pruned after in
  allowed (getAttribute (dom (fix_ this s)) j "tabindex")
  /\ allowed
       (getAttribute (dom (processDynamicContent this c s)) j "tabindex").
Proof.
  intros this pruned allowed. subst allowed pruned. cbv beta. split.
  - destruct (document_querySelector (dom s) (container this)) as [k|] eqn:E;
      [|rewrite (dom_fix_not_found this s E); by left].
    rewrite (dom_fix this s k E), fixDom_tabindex by reflexivity.
    destruct (isDescendant (dom s) k j); [apply fixNode_cases | by left].
  - unfold processDynamicContent. cbv zeta.
    destruct (detect_tabindex this c
                (withDom (fun d => normalise this d c) s) j) as [-> | ->];
      [|by right; left].
    cbn [dom withDom].
    rewrite normalise_tabindex by reflexivity.
    destruct (isDescendant (dom s) c j); [apply normaliseNode_cases | by left].
Qed.

(** ** A dialog under the scan is trapped at most once *)

Lemma remove_effects (id : nat) (env : trapEnv) (s : page) :
  sessions s !! id = Some env ->
  listeners (remove (TrapHandle id) s)
  = filter (fun l => l <> intercept (modalElement env) id) (listeners s)
  /\ sessions (remove (TrapHandle id) s) = sessions s
  /\ dom (remove (TrapHandle id) s) = dom s
  /\ removeFocusTrap (remove (TrapHandle id) s) = removeFocusTrap s.
Proof.
  intros Hs. unfold remove. rewrite Hs.
  destruct (previouslyFocusedElement env);
    [destruct (returnFocusOnClose env)|]; done.
Qed.

Lemma filter_comm {A : Type} (P Q : A -> Prop)
    `{!forall x, Decision (P x)} `{!forall x, Decision (Q x)} (l : list A) :
  filter P (filter Q l) = filter Q (filter P l).
Proof.
  induction l as [|x l IH]; [done|].
  rewrite !(filter_cons _ x l).
  destruct (decide (Q x)), (decide (P x));
    rewrite ?filter_cons, ?decide_True, ?decide_False by done;
    by rewrite IH.
Qed.

Lemma keyIntercepts_target (s : page) (x : nat) (l : listener) :
  l ∈ keyIntercepts s x -> target l = Some x /\ l ∈ listeners s.
Proof. by intros [[? _] ?]%list_elem_of_filter. Qed.

Lemma keyIntercepts_removed_other (s s' : page) (x y id : nat) :
  listeners s' = filter (fun l => l <> intercept y id) (listeners s) ->
  y <> x ->
  keyIntercepts s' x = keyIntercepts s x.
Proof.
  intros Hl Hne. unfold keyIntercepts. rewrite Hl, filter_comm.
  apply filter_id. intros l [Ht _]%keyIntercepts_target ->.
  simpl in Ht. congruence.
Qed.

Lemma keyIntercepts_removed_own (s0 s s' : page) (x id : nat) :
  listeners s' = filter (fun l => l <> intercept x id) (listeners s) ->
  keyIntercepts s x = (keyIntercepts s0 x ++ [intercept x id])%list ->
  freshSessions s0 -> length (sessions s0) <= id ->
  keyIntercepts s' x = keyIntercepts s0 x.
Proof.
  intros Hl Hk Hfresh Hid. unfold keyIntercepts in *.
  rewrite Hl, filter_comm, Hk.
  rewrite filter_snoc_False by (intros H; by apply H).
  apply filter_id. intros l [_ Hin]%list_elem_of_filter ->.
  by apply (intercept_fresh s0 x id).
Qed.

Lemma keyIntercepts_added (s s' : page) (x y id : nat) :
  listeners s' = (listeners s ++ [intercept y id])%list ->
  keyIntercepts s' x
  = if bool_decide (y = x)
    then (keyIntercepts s x ++ [intercept y id])%list
    else keyIntercepts s x.
Proof.
  intros Hl. unfold keyIntercepts. rewrite Hl. case_bool_decide as Hy.
  - subst y. by rewrite filter_snoc_True.
  - apply filter_snoc_False. intros [Ht _]. simpl in Ht. congruence.
Qed.

Lemma armDialog_effects (this : TabindexManager) (y : nat) (s : page) :
  armedOrHidden (dom s) y = false ->
  exists env,
    modalElement env = y
    /\ sessions (armDialog this y s) = (sessions s ++ [env])%list
    /\ listeners (armDialog this y s)
       = (listeners s ++ [intercept y (length (sessions s))])%list
    /\ removeFocusTrap (armDialog this y s)
       = <[y := TrapHandle (length (sessions s))]> (removeFocusTrap s).
Proof.
  unfold armDialog, armedOrHidden. rewrite <- negb_orb. intros ->.
  cbn [negb]. cbv zeta.
  match goal with
  | |- context [setupFocusTrap this (Some y) ?o ?s1] =>
      destruct (setupFocusTrap_effects this y o s1)
        as (env & Hm & Eh & Es & El & Er);
      destruct (setupFocusTrap this (Some y) o s1) as [h s2]
  end.
  cbn [fst snd sessions listeners removeFocusTrap withDom observe
       storeRemoveFocusTrap] in *.
  subst h. exists env. by rewrite Es, El, Er.
Qed.

Lemma armDialog_marker (this : TabindexManager) (x y : nat) (s : page) :
  armedOrHidden (dom s) y = false ->
  hasAttribute (dom (armDialog this y s)) x "data-focus-trap-active"
  = if bool_decide (x = y /\ y < length (dom s)) then true
    else hasAttribute (dom s) x "data-focus-trap-active".
Proof.
  intros E. rewrite dom_armDialog, E. unfold hasAttribute.
  assert (getAttribute
            (setAttribute (dom s) y "data-focus-trap-active" "true") x
            "data-focus-trap-active"
          = if bool_decide (x = y /\ y < length (dom s)) then Some "true"
            else getAttribute (dom s) x "data-focus-trap-active") as E1.
  { rewrite getAttribute_setAttribute.
    repeat case_bool_decide; try done; tauto. }
  destruct (length _ =? 0).
  - rewrite getAttribute_setAttribute.
    rewrite bool_decide_eq_false_2 by (by intros (_&?&_)).
    rewrite E1. by case_bool_decide.
  - rewrite E1. by case_bool_decide.
Qed.

Lemma guarded_armDialog (this : TabindexManager) (s0 : page) (x y : nat)
    (s : page) :
  y < length (dom s) -> guarded s0 x s -> guarded s0 x (armDialog this y s).
Proof.
  intros Hy (Hlen & Hhon & Hx).
  destruct (armedOrHidden (dom s) y) eqn:E; [by rewrite armDialog_noop|].
  destruct (armDialog_effects this y s E) as (env & Hm & Es & El & Er).
  split; [rewrite Es, length_app; lia|]. split.
  - intros z id. rewrite Er, Es.
    destruct (decide (z = y)) as [->|Hne].
    + rewrite lookup_insert_eq. intros [= <-]. exists env.
      split; [by apply list_lookup_middle | done].
    + rewrite lookup_insert_ne by done. intros Hz.
      destruct (Hhon z id Hz) as (env' & Hs & Hm'). exists env'.
      split; [by apply lookup_app_l_Some | done].
  - rewrite (armDialog_marker this x y s E), Er.
    rewrite (keyIntercepts_added s _ x y _ El).
    destruct (decide (x = y)) as [->|Hne].
    + rewrite !bool_decide_eq_true_2 by done.
      unfold armedOrHidden in E. apply orb_false_elim in E as [_ E].
      rewrite E in Hx. destruct Hx as [Hk _].
      exists (length (sessions s)). rewrite lookup_insert_eq, Hk. done.
    + rewrite !bool_decide_eq_false_2 by (intros ?; intuition congruence).
      rewrite lookup_insert_ne by done. exact Hx.
Qed.

Lemma guarded_arm_all (this : TabindexManager) (s0 : page) (x : nat)
    (l : list nat) (s : page) :
  (forall y, y ∈ l -> y < length (dom s)) ->
  guarded s0 x s -> guarded s0 x (forEach l (armDialog this) s).
Proof.
  unfold forEach. revert s.
  induction l as [|y l IH]; intros s Hlt Hs; [done|].
  cbn [fold_left]. apply IH.
  - intros z Hz. rewrite <- (frame_length _ _ (armDialog_frame this y s)).
    apply Hlt, elem_of_cons. by right.
  - apply guarded_armDialog; [|done]. apply Hlt, elem_of_cons. by left.
Qed.

Lemma guarded_withDom (s0 : page) (x : nat) (f : list element -> list element)
    (s : page) :
  getAttribute (f (dom s)) x "data-focus-trap-active"
  = getAttribute (dom s) x "data-focus-trap-active" ->
  guarded s0 x s -> guarded s0 x (withDom f s).
Proof.
  intros Hf (Hlen & Hhon & Hx). split; [done|]. split; [done|].
  unfold hasAttribute in *. cbn [dom withDom]. by rewrite Hf.
Qed.

Lemma guarded_scan (this : TabindexManager) (s0 : page) (x c : nat)
    (s : page) :
  guarded s0 x s -> guarded s0 x (processDynamicContent this c s).
Proof.
  intros Hs. unfold processDynamicContent, detectAndHandleDialogs. cbv zeta.
  apply (guarded_arm_all this).
  - intros y. apply querySelectorAll_lt.
  - apply guarded_withDom; [|done]. by apply normalise_other_attribute.
Qed.

Lemma guarded_delivery_step (s0 : page) (x dialog k : nat)
    (mutation : mutationRecord) (st : watchedPage) :
  freshSessions s0 ->
  guarded s0 x (watched st) ->
  guarded s0 x (watched (dialogObserverStep dialog k mutation st)).
Proof.
  intros Hfresh Hg. unfold dialogObserverStep.
  destruct (String.eqb (mutationType mutation) "attributes"); [|done].
  cbv zeta. destruct (_ || _); [|done]. cbn [watched].
  set (s := watched st) in *. destruct Hg as (Hlen & Hhon & Hx).
  set (s1 := match removeFocusTrap s !! dialog with
             | Some h => deleteRemoveFocusTrap dialog (remove h s)
             | None => s
             end).
  (* the page after the handle was called and deleted *)
  assert (sessions s1 = sessions s /\ dom s1 = dom s
          /\ removeFocusTrap s1 = delete dialog (removeFocusTrap s)
          /\ (dialog <> x -> keyIntercepts s1 x = keyIntercepts s x)
          /\ (dialog = x ->
              hasAttribute (dom s) x "data-focus-trap-active" = true ->
              keyIntercepts s1 x = keyIntercepts s0 x)
          /\ (removeFocusTrap s !! dialog = None -> s1 = s))
    as (Es & Ed & Er & Hother & Hown & Hnone).
  { subst s1. destruct (removeFocusTrap s !! dialog) as [[|id]|] eqn:Eh.
    - cbn [remove]. repeat split; try done.
      + intros -> Hflag. rewrite Hflag in Hx.
        destruct Hx as (id & Hid & _). congruence.
    - destruct (Hhon dialog id Eh) as (env & Hs & Hm).
      destruct (remove_effects id env s Hs) as (El & Es' & Ed' & Er').
      rewrite Hm in El.
      repeat split; cbn [sessions dom removeFocusTrap deleteRemoveFocusTrap];
        try done; try congruence.
      + intros Hne.
        by apply (keyIntercepts_removed_other s _ x dialog id).
      + intros -> Hflag. rewrite Hflag in Hx.
        destruct Hx as (id' & Hid & Hge & Hk).
        assert (id' = id) as -> by congruence.
        by apply (keyIntercepts_removed_own s0 s _ x id).
    - rewrite delete_id by done. repeat split; try done.
      intros -> Hflag. rewrite Hflag in Hx.
      destruct Hx as (id & Hid & _). congruence. }
  split; [cbn [sessions withDom]; by rewrite Es|]. split.
  - intros z id. cbn [removeFocusTrap sessions withDom]. rewrite Er, Es.
    intros [_ Hz]%lookup_delete_Some. by apply Hhon.
  - unfold hasAttribute in *. cbn [dom withDom removeFocusTrap].
    rewrite getAttribute_removeAttribute, Ed, Er.
    change (keyIntercepts (withDom _ s1) x) with (keyIntercepts s1 x).
    destruct (decide (dialog = x)) as [->|Hne].
    + rewrite bool_decide_eq_true_2 by done. rewrite lookup_delete_eq.
      split; [|done].
      destruct (getAttribute (dom s) x "data-focus-trap-active") eqn:Hflag.
      * by apply Hown.
      * destruct Hx as [Hk Hh]. by rewrite (Hnone Hh).
    + rewrite bool_decide_eq_false_2 by (intros [? _]; congruence).
      rewrite lookup_delete_ne by done. by rewrite (Hother Hne).
Qed.

Lemma guarded_delivery (s0 : page) (x dialog k : nat)
    (mutations : list mutationRecord) (st : watchedPage) :
  freshSessions s0 ->
  guarded s0 x (watched st) ->
  guarded s0 x (watched (dialogObserverCallback dialog k mutations st)).
Proof.
  intros Hfresh. unfold dialogObserverCallback. revert st.
  induction mutations as [|m l IH]; intros st Hst; [done|].
  cbn [fold_left]. apply IH.
  by apply (guarded_delivery_step s0 x dialog k m st).
Qed.

Lemma guarded_reachable (this : TabindexManager) (s0 : page) (x : nat)
    (st : watchedPage) :
  freshSessions s0 -> guarded s0 x s0 ->
  reachable this x s0 st -> guarded s0 x (watched st).
Proof.
  intros Hfresh H0. induction 1 as [|st d _ IH Hd|st c _ IH|st k y m _ IH _ _].
  - done.
  - unfold changed. cbn [watched]. by apply guarded_withDom.
  - unfold scanned. cbn [watched]. by apply guarded_scan.
  - by apply guarded_delivery.
Qed.

(** X25. A dialog under the scan is trapped at most once.  Start from a
    page whose listeners name existing sessions only, whose stored
    handles are those of sessions on their elements, and where the node
    [x] carries no marker and no handle.  Whatever then happens, in any
    order and any number of times (other scripts changing the document
    but not the marker of [x], scans of any container, deliveries to the
    observers of armed dialogs), the key intercepts on [x] are those of
    the start plus one if [x] carries the marker, and none more if it
    does not: [detectAndHandleDialogs] and the observer it sets never
    stack traps on a dialog and leave none behind on releasing it. *)
Theorem scanned_dialog_trapped_at_most_once (this : TabindexManager)
    (s0 : page) (x : nat) (st : watchedPage) :
  freshSessions s0 -> honestHandles s0 ->
  hasAttribute (dom s0) x "data-focus-trap-active" = false ->
  removeFocusTrap s0 !! x = None ->
  reachable this x s0 st ->
  length (keyIntercepts (watched st) x)
  = length (keyIntercepts s0 x)
    + if hasAttribute (dom (watched st)) x "data-focus-trap-active"
      then 1 else 0.
Proof.
  intros Hfresh Hhon Hflag Hh Hreach.
  destruct (guarded_reachable this s0 x st Hfresh) as (_ & _ & Hx);
    [|done|].
  { split; [done|]. split; [done|]. by rewrite Hflag. }
  destruct (hasAttribute (dom (watched st)) x "data-focus-trap-active").
  - destruct Hx as (id & _ & _ & ->). rewrite length_app. simpl. lia.
  - destruct Hx as [-> _]. lia.
Qed.

Lemma dialogFound_reachable :
  reachable defaultManager 1 (freshPage dialogWithButton None) dialogFound.
Proof. apply reach_scan, reach_start. Qed.

Lemma dialogHidden_reachable :
  reachable defaultManager 1 (freshPage dialogWithButton None) dialogHidden.
Proof.
  apply reach_delivery.
  - apply reach_change; [apply dialogFound_reachable|].
    vm_compute; reflexivity.
  - vm_compute; reflexivity.
  - apply not_elem_of_empty.
Qed.

Lemma dialogShownHiddenShown_reachable :
  reachable defaultManager 1 (freshPage dialogWithButton None)
    dialogShownHiddenShown.
Proof.
  apply reach_scan, reach_change; [apply dialogHidden_reachable|].
  vm_compute; reflexivity.
Qed.

Lemma scanned_dialog_trapped_at_most_once_witness :
  length (keyIntercepts (watched dialogShownHiddenShown) 1)
  = length (keyIntercepts (freshPage dialogWithButton None) 1)
    + if hasAttribute (dom (watched dialogShownHiddenShown)) 1
           "data-focus-trap-active"
      then 1 else 0.
Proof.
  apply (scanned_dialog_trapped_at_most_once defaultManager
           (freshPage dialogWithButton None) 1 dialogShownHiddenShown).
  - intros l id Hl. by apply elem_of_nil in Hl.
  - intros y id Hy. cbn [removeFocusTrap freshPage] in Hy.
    by rewrite lookup_empty in Hy.
  - reflexivity.
  - cbn [removeFocusTrap freshPage]. apply lookup_empty.
  - apply dialogShownHiddenShown_reachable.
Defined.

(** ** Tooltip triggers and their key handler *)

Lemma fix_before_triggers (this : TabindexManager) (s : page) (c : nat) :
  document_querySelector (dom s) (container this) = Some c ->
  exists s',
    dom s' = normalise this (dom s) c
    /\ (forall l, l ∈ listeners s -> l ∈ listeners s')
    /\ fix_ this s
       = if handleTooltipsAndDropdowns this
         then setupTooltipAndDropdownHandlers c s' else s'.
Proof.
  intros Hc. unfold fix_. rewrite Hc.
  set (s0 := withDom (fun d => normalise this d c) s).
  set (sa := if enableMutationObserver this
             then setupMutationObserver c s0 else s0).
  set (sb := if enableDynamicContentSupport this
             then setupDynamicContentHandlers sa else sa).
  set (sc := if supportWizardNavigation this
             then setupWizardNavigationSupport c sb else sb).
  exists sc. split; [|split; [|done]].
  - subst sc sb sa s0.
    destruct (supportWizardNavigation this),
      (enableDynamicContentSupport this), (enableMutationObserver this);
      by rewrite ?dom_setupWizardNavigationSupport.
  - intros l Hl.
    assert (l ∈ listeners sa) as Ha
      by (subst sa s0; by destruct (enableMutationObserver this)).
    assert (l ∈ listeners sb) as Hb.
    { subst sb. destruct (enableDynamicContentSupport this); [|done].
      unfold setupDynamicContentHandlers, dynamicContentEvents.
      cbn [fold_left wrapXhr addEventListener listeners].
      rewrite !elem_of_app. tauto. }
    subst sc. destruct (supportWizardNavigation this); [|done].
    unfold setupWizardNavigationSupport.
    apply (forEach_invariant (fun s1 => l ∈ listeners s1)); [|done].
    intros w s1 H1. cbv zeta.
    apply (forEach_invariant (fun s2 => l ∈ listeners s2)).
    { intros y s2 H2. cbn [listeners addEventListener].
      apply elem_of_app. by left. }
    apply (forEach_invariant (fun s2 => l ∈ listeners s2)); [|done].
    intros y s2 H2. cbn [listeners addEventListener].
    apply elem_of_app. by left.
Qed.

Lemma handleTrigger_keeps_listeners (m : string) (h : nat -> handler)
    (y : nat) (s : page) (l : listener) :
  l ∈ listeners s -> l ∈ listeners (handleTrigger m h y s).
Proof.
  intros Hl. unfold handleTrigger.
  destruct (negb (hasAttribute (dom s) y "tabindex")); cbv zeta;
    match goal with
    | |- context [negb (hasAttribute ?d y m)] =>
        destruct (negb (hasAttribute d y m))
    end; try done; cbn [listeners addEventListener withDom];
    apply elem_of_app; by left.
Qed.

Lemma handleTrigger_binds (m : string) (h : nat -> handler) (x : nat)
    (s : page) :
  m <> "tabindex" ->
  hasAttribute (dom s) x m = false ->
  Build_listener (Some x) "keydown" (h x)
  ∈ listeners (handleTrigger m h x s).
Proof.
  intros Hm Hx. unfold handleTrigger.
  assert (forall d', d' = dom s \/ d' = setAttribute (dom s) x "tabindex" "0" ->
                     hasAttribute d' x m = false) as Hd.
  { intros d' [-> | ->]; [done|]. unfold hasAttribute in *.
    rewrite getAttribute_setAttribute.
    by rewrite bool_decide_eq_false_2 by (intros (_&?&_); congruence). }
  destruct (negb (hasAttribute (dom s) x "tabindex")); cbv zeta;
    cbn [dom withDom]; rewrite Hd by auto; cbn [negb listeners addEventListener];
    apply elem_of_app; right; apply elem_of_cons; by left.
Qed.

Lemma hasAttribute_setAttribute_other (d : list element) (x y : nat)
    (a v m : string) :
  x <> y -> hasAttribute (setAttribute d y a v) x m = hasAttribute d x m.
Proof.
  intros Hne. unfold hasAttribute. rewrite getAttribute_setAttribute.
  by rewrite bool_decide_eq_false_2 by (intros (?&_); congruence).
Qed.

Lemma handleTrigger_other_marker (m : string) (h : nat -> handler)
    (x y : nat) (s : page) :
  x <> y ->
  hasAttribute (dom (handleTrigger m h y s)) x m = hasAttribute (dom s) x m.
Proof.
  intros Hne. rewrite dom_handleTrigger. unfold handleTriggerDom. cbv zeta.
  destruct (negb (hasAttribute (dom s) y "tabindex"));
    match goal with
    | |- context [negb (hasAttribute ?d y m)] =>
        destruct (negb (hasAttribute d y m))
    end; by rewrite ?hasAttribute_setAttribute_other.
Qed.

Lemma forEach_handleTrigger_binds (m : string) (h : nat -> handler)
    (l : list nat) (x : nat) (s : page) :
  m <> "tabindex" -> NoDup l -> x ∈ l ->
  hasAttribute (dom s) x m = false ->
  Build_listener (Some x) "keydown" (h x)
  ∈ listeners (forEach l (handleTrigger m h) s).
Proof.
  intros Hm. unfold forEach. revert s.
  induction l as [|y l IH]; intros s Hnd Hx Hflag;
    [by apply elem_of_nil in Hx|].
  apply NoDup_cons in Hnd as [Hy Hnd]. cbn [fold_left].
  apply elem_of_cons in Hx as [->|Hx].
  - apply (forEach_invariant
             (fun s' => Build_listener (Some y) "keydown" (h y) ∈ listeners s')).
    + intros z s' Hs'. by apply handleTrigger_keeps_listeners.
    + by apply handleTrigger_binds.
  - apply IH; [done | done |].
    rewrite handleTrigger_other_marker; [done|]. by intros ->.
Qed.

(** X26. Every tooltip trigger gets a key handler that swallows Space
    and Enter.  After [fix], a node of the container that matches the
    tooltip selectors (an element with [aria-describedby] or
    [data-tooltip], whatever its tag, a text input included) and did not
    carry the marker has a keydown listener, and every run of that
    listener on Space or Enter prevents the default and clicks the
    node. *)
Theorem fix_binds_swallowing_handler (this : TabindexManager) (s : page)
    (c x : nat) :
  document_querySelector (dom s) (container this) = Some c ->
  handleTooltipsAndDropdowns this = true ->
  isDescendant (dom s) c x = true ->
  matches (dom s) x tooltipTriggerSelectors = true ->
  hasAttribute (dom s) x "data-tooltip-keyboard-handled" = false ->
  Build_listener (Some x) "keydown" (TooltipKeyDown x)
  ∈ listeners (fix_ this s)
  /\ forall name shift d,
       name = " " \/ name = "Enter" ->
       fst (tooltipKeyDown x (Build_keyEvent name shift) d)
       = Build_keyOutcome true [] [x].
Proof.
  intros Hc Htt Hd Hm Hflag. split.
  - destruct (fix_before_triggers this s c Hc) as (s' & Ds & _ & ->).
    rewrite Htt. unfold setupTooltipAndDropdownHandlers. cbv zeta.
    apply (forEach_invariant
             (fun s1 => Build_listener (Some x) "keydown" (TooltipKeyDown x)
                        ∈ listeners s1)).
    { intros z s1 Hs1. by apply handleTrigger_keeps_listeners. }
    pose proof (normalise_frame this (dom s) c) as F.
    apply (forEach_handleTrigger_binds "data-tooltip-keyboard-handled"
             TooltipKeyDown); [done | apply NoDup_querySelectorAll | |].
    + rewrite Ds. apply elem_of_querySelectorAll.
      by rewrite <- (frame_isDescendant _ _ F),
        <- (frame_matches _ _ F x _ tooltipTriggers_clean).
    + rewrite Ds. unfold hasAttribute in *.
      by rewrite normalise_other_attribute.
  - intros name shift d Hname. unfold tooltipKeyDown. cbn [key].
    assert (String.eqb name " " || String.eqb name "Enter" = true) as ->
      by (destruct Hname as [-> | ->]; reflexivity).
    assert (String.eqb name "Escape" = false) as ->
      by (destruct Hname as [-> | ->]; reflexivity).
    reflexivity.
Qed.

Lemma fix_binds_swallowing_handler_witness :
  Build_listener (Some 1) "keydown" (TooltipKeyDown 1)
  ∈ listeners (fix_ defaultManager (freshPage inputWithHelp None))
  /\ forall name shift d,
       name = " " \/ name = "Enter" ->
       fst (tooltipKeyDown 1 (Build_keyEvent name shift) d)
       = Build_keyOutcome true [] [1].
Proof.
  apply (fix_binds_swallowing_handler defaultManager
           (freshPage inputWithHelp None) 0 1); reflexivity.
Defined.

Lemma getAttribute_withClassList (d : list element) (el : nat)
    (f : list string -> list string) (j : nat) (a : string) :
  getAttribute (alter (withClassList f) el d) j a = getAttribute d j a.
Proof.
  unfold getAttribute. destruct (decide (j = el)) as [->|Hne].
  - rewrite list_lookup_alter_eq. by destruct (d !! el).
  - by rewrite list_lookup_alter_ne by congruence.
Qed.

Lemma classesOf_withClassList (d : list element) (el : nat)
    (f : list string -> list string) :
  el < length d ->
  classesOf (alter (withClassList f) el d) el = f (classesOf d el).
Proof.
  intros Hlt. unfold classesOf. rewrite list_lookup_alter_eq.
  destruct (lookup_lt_is_Some_2 d el Hlt) as [e ->]. done.
Qed.

Lemma classesOf_setAttribute (d : list element) (el : nat) (a v : string)
    (j : nat) :
  classesOf (setAttribute d el a v) j = classesOf d j.
Proof.
  unfold classesOf, setAttribute. destruct (decide (j = el)) as [->|Hne].
  - rewrite list_lookup_alter_eq. by destruct (d !! el).
  - by rewrite list_lookup_alter_ne by congruence.
Qed.

Lemma document_getElementById_lt (d : list element) (id : string) (el : nat) :
  document_getElementById d id = Some el -> el < length d.
Proof.
  unfold document_getElementById. intros H%head_Some_elem_of.
  apply list_elem_of_filter in H as [_ H%elem_of_seq]. lia.
Qed.

(** The tooltip a trigger names depends on the attributes other than
    aria-hidden only. *)
Lemma tooltipOf_agree (d d' : list element) (trigger : nat) :
  length d' = length d ->
  (forall j a, a <> "aria-hidden" -> getAttribute d' j a = getAttribute d j a) ->
  tooltipOf d' trigger = tooltipOf d trigger.
Proof.
  intros Hlen Hattr. unfold tooltipOf. rewrite !Hattr by done.
  destruct (orElse _ _) as [id|]; [|done].
  destruct (String.eqb id ""); [done|].
  unfold document_getElementById. rewrite Hlen. f_equal.
  induction (seq 0 (length d)) as [|x l IH]; [done|].
  by rewrite !filter_cons, IH, Hattr.
Qed.

Lemma shown_agrees (d : list element) (tooltip : nat) (v : string)
    (f : list string -> list string) :
  let d' := setAttribute (alter (withClassList f) tooltip d) tooltip
              "aria-hidden" v in
  length d' = length d
  /\ forall j a, a <> "aria-hidden" -> getAttribute d' j a = getAttribute d j a.
Proof.
  cbv zeta. split.
  - unfold setAttribute. by rewrite !length_alter.
  - intros j a Ha. rewrite getAttribute_setAttribute.
    rewrite bool_decide_eq_false_2 by (intros (_&?&_); congruence).
    apply getAttribute_withClassList.
Qed.

Lemma added_then_removed (l : list string) :
  let added :=
    fold_left (fun l token =>
      if bool_decide (token ∈ l) then l else (l ++ [token])%list)
      ["show"; "visible"] l in
  "show" ∈ added /\ "visible" ∈ added
  /\ filter (fun c => c ∉ ["show"; "visible"]) added
     = filter (fun c => c ∉ ["show"; "visible"]) l.
Proof.
  cbv zeta. cbn [fold_left].
  assert ("show" ∈ ["show"; "visible"]) as Hs by (apply elem_of_cons; by left).
  assert ("visible" ∈ ["show"; "visible"]) as Hv
    by (apply elem_of_cons; right; apply elem_of_cons; by left).
  destruct (decide ("show" ∈ l)) as [H1|H1].
  - rewrite (bool_decide_eq_true_2 _ H1).
    destruct (decide ("visible" ∈ l)) as [H2|H2].
    + by rewrite (bool_decide_eq_true_2 _ H2).
    + rewrite (bool_decide_eq_false_2 _ H2).
      split; [apply elem_of_app; by left|].
      split; [apply elem_of_app; right; apply elem_of_cons; by left|].
      apply filter_snoc_False. tauto.
  - rewrite (bool_decide_eq_false_2 _ H1).
    assert ("show" ∈ (l ++ ["show"])%list) as H1'
      by (apply elem_of_app; right; apply elem_of_cons; by left).
    destruct (decide ("visible" ∈ (l ++ ["show"])%list)) as [H2|H2].
    + rewrite (bool_decide_eq_true_2 _ H2). split; [done|]. split; [done|].
      apply filter_snoc_False. tauto.
    + rewrite (bool_decide_eq_false_2 _ H2).
      split; [apply elem_of_app; by left|].
      split; [apply elem_of_app; right; apply elem_of_cons; by left|].
      rewrite filter_snoc_False by tauto. apply filter_snoc_False. tauto.
Qed.

(** X27. Showing and hiding a tooltip from the keyboard.  When the
    trigger names an existing tooltip, Space or Enter leaves it with the
    classes [show] and [visible] and aria-hidden="false"; Escape after
    that leaves it with aria-hidden="true" and with the classes it had at
    the start, less [show] and [visible]. *)
Theorem tooltip_show_then_hide (trigger tooltip : nat) (name : string)
    (shift shift' : bool) (d : list element) :
  name = " " \/ name = "Enter" ->
  tooltipOf d trigger = Some tooltip ->
  let shown := snd (tooltipKeyDown trigger (Build_keyEvent name shift) d) in
  let hidden :=
    snd (tooltipKeyDown trigger (Build_keyEvent "Escape" shift') shown) in
  getAttribute shown tooltip "aria-hidden" = Some "false"
  /\ "show" ∈ classesOf shown tooltip
  /\ "visible" ∈ classesOf shown tooltip
  /\ getAttribute hidden tooltip "aria-hidden" = Some "true"
  /\ classesOf hidden tooltip
     = filter (fun c => c ∉ ["show"; "visible"]) (classesOf d tooltip).
Proof.
  intros Hname Ht shown hidden.
  assert (tooltip < length d) as Hlt.
  { unfold tooltipOf in Ht. destruct (orElse _ _) as [id|]; [|done].
    destruct (String.eqb id ""); [done|].
    by apply document_getElementById_lt in Ht. }
  assert (shown
          = setAttribute (classList_add d tooltip ["show"; "visible"]) tooltip
              "aria-hidden" "false") as Es.
  { subst shown. unfold tooltipKeyDown. cbn [key].
    assert (String.eqb name " " || String.eqb name "Enter" = true) as ->
      by (destruct Hname as [-> | ->]; reflexivity).
    assert (String.eqb name "Escape" = false) as ->
      by (destruct Hname as [-> | ->]; reflexivity).
    by rewrite Ht. }
  destruct (shown_agrees d tooltip "false"
              (fun l =>
                 fold_left (fun l token =>
                   if bool_decide (token ∈ l) then l
                   else (l ++ [token])%list) ["show"; "visible"] l))
    as [Hlen Hattr].
  assert (tooltipOf shown trigger = Some tooltip) as Ht'.
  { rewrite Es, <- Ht. by apply tooltipOf_agree. }
  assert (hidden
          = setAttribute (classList_remove shown tooltip ["show"; "visible"])
              tooltip "aria-hidden" "true") as Eh.
  { subst hidden. unfold tooltipKeyDown. cbn [key].
    change (String.eqb "Escape" " " || String.eqb "Escape" "Enter")
      with false.
    change (String.eqb "Escape" "Escape") with true. cbv iota beta.
    by rewrite Ht'. }
  assert (length shown = length d) as Hls by (by rewrite Es).
  assert (classesOf shown tooltip
          = fold_left (fun l token =>
              if bool_decide (token ∈ l) then l else (l ++ [token])%list)
              ["show"; "visible"] (classesOf d tooltip)) as Ec.
  { rewrite Es, classesOf_setAttribute. unfold classList_add.
    by rewrite classesOf_withClassList. }
  destruct (added_then_removed (classesOf d tooltip)) as (Hs & Hv & Hf).
  cbv zeta in Hs, Hv, Hf. rewrite <- Ec in Hs, Hv, Hf.
  split.
  { rewrite Es, getAttribute_setAttribute. rewrite bool_decide_eq_true_2; [done|].
    unfold classList_add. by rewrite length_alter. }
  split; [done|]. split; [done|]. split.
  - rewrite Eh, getAttribute_setAttribute. rewrite bool_decide_eq_true_2; [done|].
    unfold classList_remove. rewrite length_alter. by rewrite Hls.
  - rewrite Eh, classesOf_setAttribute. unfold classList_remove.
    rewrite classesOf_withClassList by (by rewrite Hls). exact Hf.
Qed.

Lemma tooltip_show_then_hide_witness :
  let shown := snd (tooltipKeyDown 1 (Build_keyEvent "Enter" false)
                      inputWithHelp) in
  let hidden :=
    snd (tooltipKeyDown 1 (Build_keyEvent "Escape" false) shown) in
  getAttribute shown 2 "aria-hidden" = Some "false"
  /\ "show" ∈ classesOf shown 2
  /\ "visible" ∈ classesOf shown 2
  /\ getAttribute hidden 2 "aria-hidden" = Some "true"
  /\ classesOf hidden 2
     = filter (fun c => c ∉ ["show"; "visible"]) (classesOf inputWithHelp 2).
Proof.
  apply (tooltip_show_then_hide 1 2 "Enter" false false inputWithHelp);
    [by right | reflexivity].
Defined.

(** ** The audit and [findTabbableElements], and the audit after the passes *)

Lemma elem_of_map_entryElement (x : nat) (l : list tabEntry) :
  x ∈ map entryElement l <-> exists e, entryElement e = x /\ e ∈ l.
Proof.
  rewrite list_elem_of_In, in_map_iff.
  split; intros (e & He & Hin); exists e; (split; [done|]);
    by apply list_elem_of_In.
Qed.

(** X28. The two views of the tab order agree on interactive elements,
    but for the empty tabindex: an element that matches the interactive
    selectors and whose tabindex is not the empty string is returned by
    [findTabbableElements] exactly when the audit lists it.  An
    interactive element with [tabindex=""] counts as tabbable for
    [findTabbableElements], which reads it as 0, and is missing from the
    audit, which cannot parse it. *)
Theorem tabbable_iff_audited (this : TabindexManager) (d : list element)
    (c x : nat) :
  isInteractiveElement this d x = true ->
  getAttribute d x "tabindex" <> Some "" ->
  x ∈ findTabbableElements this d c
  <-> x ∈ map entryElement (analyzeTabOrder this d c).
Proof.
  intros Hi Hne. unfold findTabbableElements.
  rewrite list_elem_of_filter, elem_of_querySelectorAll.
  rewrite elem_of_map_entryElement.
  unfold tabindexOf, hasAttribute.
  destruct (getAttribute d x "tabindex") as [t|] eqn:Et.
  - assert (String.eqb t "" = false) as ->
      by (apply String.eqb_neq; congruence).
    split.
    + intros [[Hg Hr]%andb_prop [Hd _]]. apply negb_true_iff in Hr.
      destruct (parseInt t) as [z|] eqn:Ez; [|done].
      exists (Build_tabEntry x z). split; [done|].
      apply elem_of_analyzeTabOrder. cbn [entryElement entryTabindex].
      unfold tabindexOf. rewrite Et, Ez. split; [done|]. split; [done|].
      left. split; [done|]. unfold ge0 in Hg. lia.
    + intros (e & <- & He). apply elem_of_analyzeTabOrder in He
        as (Hd & Hr & [[Ht H0] | (Hh & _)]).
      * unfold tabindexOf in Ht. rewrite Et in Ht. rewrite Ht, Hr.
        cbn [negb]. rewrite andb_true_r. split; [|done].
        unfold ge0. lia.
      * unfold hasAttribute in Hh. by rewrite Et in Hh.
  - change (parseInt "0") with (Some 0%Z). split.
    + intros [[_ Hr]%andb_prop [Hd _]]. apply negb_true_iff in Hr.
      exists (Build_tabEntry x 0). split; [done|].
      apply elem_of_analyzeTabOrder. cbn [entryElement entryTabindex].
      split; [done|]. split; [done|]. right.
      unfold hasAttribute. by rewrite Et.
    + intros (e & <- & He). apply elem_of_analyzeTabOrder in He
        as (Hd & Hr & _). rewrite Hr. done.
Qed.

Lemma tabbable_iff_audited_witness :
  2 ∈ findTabbableElements defaultManager mixedOrder 0
  <-> 2 ∈ map entryElement (analyzeTabOrder defaultManager mixedOrder 0).
Proof.
  apply (tabbable_iff_audited defaultManager mixedOrder 0 2);
    [reflexivity | vm_compute; congruence].
Defined.

Lemma normalise_no_positive (this : TabindexManager) (d : list element)
    (c j : nat) :
  forallb cleanSelector (interactiveSelectors this) = true ->
  nonInteractiveWithTabindex this = defaultNonInteractiveWithTabindex ->
  fixHighTabindex this = true ->
  isDescendant d c j = true ->
  gt0 (tabindexOf (normalise this d c) j) = false.
Proof.
  intros Hclean Hdefault Hhigh Hd.
  rewrite tabindexOf_parseAttr, normalise_tabindex by done. rewrite Hd.
  unfold normaliseNode. rewrite Hhigh.
  apply (pruneStep_keeps (fun t => gt0 (parseAttr t) = false));
    [apply notPositive_kept|].
  destruct (ensureInteractiveElements this);
    [apply (coverStep_keeps (fun t => gt0 (parseAttr t) = false));
     [apply notPositive_kept|] |]; apply highStep_notPositive.
Qed.

(** X29. What [fix] reports.  [fix] audits the container right after
    the four passes; with the collapse of high values switched on (the
    default) every entry of that audit has order 0: no explicit order is
    left, and the tab order of the container is the order of the
    document. *)
Theorem fix_reports_only_order_zero (options : managerOptions)
    (d : list element) (c : nat) :
  let this := new_TabindexManager options in
  fixHighTabindex this = true ->
  Forall (fun e => entryTabindex e = 0%Z)
    (analyzeTabOrder this (normalise this d c) c).
Proof.
  intros this Hhigh. apply Forall_forall. intros e He.
  apply elem_of_analyzeTabOrder in He as (Hd & _ & [[Ht H0] | (_ & _ & Ht)]);
    [|done].
  rewrite <- (frame_isDescendant _ _ (normalise_frame this d c)) in Hd.
  pose proof (normalise_no_positive this d c (entryElement e)
                eq_refl eq_refl Hhigh Hd) as Hp.
  rewrite Ht in Hp. unfold gt0 in Hp. lia.
Qed.

Lemma fix_reports_only_order_zero_witness :
  Forall (fun e => entryTabindex e = 0%Z)
    (analyzeTabOrder (new_TabindexManager noOptions)
       (normalise (new_TabindexManager noOptions) mixedOrder 0) 0).
Proof.
  apply (fix_reports_only_order_zero noOptions mixedOrder 0). reflexivity.
Defined.

(** ** The collapse of high values, pass and scan *)

Lemma fixHigh_attribute (d : list element) (c j : nat) (a : string) :
  getAttribute (fixHighTabindexValues d c) j a =
  if bool_decide (a = "tabindex") && isDescendant d c j
     && gt0 (tabindexOf d j)
  then Some "0" else getAttribute d j a.
Proof.
  case_bool_decide as Ha; cbn [andb].
  - subst a. rewrite fixHigh_tabindex.
    destruct (isDescendant d c j); cbn [andb]; [|done].
    unfold highStep. by rewrite <- tabindexOf_parseAttr.
  - unfold fixHighTabindexValues. apply pass_other_attribute; [done|].
    intros el d0. cbv zeta.
    destruct (gt0 _); [right; left; by exists "0" | by left].
Qed.

Lemma negStep_not_minus_one (i r : bool) (t : option string) :
  t <> Some "-1" -> negStep i r t = t.
Proof.
  intros Ht. unfold negStep. by rewrite bool_decide_eq_false_2.
Qed.

Lemma fixNode_no_positive (this : TabindexManager) (d : list element)
    (j : nat) (t : option string) :
  fixHighTabindex this = true -> gt0 (parseAttr (fixNode this d j t)) = false.
Proof.
  intros Hhigh. unfold fixNode, normaliseNode. rewrite Hhigh.
  set (P := fun t => gt0 (parseAttr t) = false).
  assert (keptByPasses P) as HP by apply notPositive_kept.
  match goal with
  | |- context [pruneStep ?g ?r ?k ?t] =>
      assert (P (pruneStep g r k t)) as Hprune
  end.
  { apply pruneStep_keeps; [done|].
    destruct (ensureInteractiveElements _);
      [apply coverStep_keeps; [done|] |]; apply highStep_notPositive. }
  destruct (handleTooltipsAndDropdowns _); [|exact Hprune].
  by do 2 (apply (triggerStep_keeps P); [done|]).
Qed.

Lemma after_prune (this : TabindexManager) (d : list element) (j : nat)
    (t : option string) :
  ge0 (parseAttr t) = true ->
  (if handleTooltipsAndDropdowns this
   then triggerStep (matches d j dropdownTriggerSelectors)
          (triggerStep (matches d j tooltipTriggerSelectors)
             (pruneStep (matches d j genericTags) (hasAttribute d j "role")
                (hasKeyboardEventListeners d j) t))
   else pruneStep (matches d j genericTags) (hasAttribute d j "role")
          (hasKeyboardEventListeners d j) t)
  = if prunable d j
    then if boundAsTrigger this d j then Some "0" else None
    else t.
Proof.
  intros Ht. unfold prunable, boundAsTrigger, pruneStep, triggerStep.
  rewrite Ht. destruct t as [v|]; [|done].
  by case_facts.
Qed.

Lemma fixNode_positive (this : TabindexManager) (d : list element)
    (j : nat) (t : option string) :
  fixHighTabindex this = true -> gt0 (parseAttr t) = true ->
  fixNode this d j t
  = if prunable d j && negb (boundAsTrigger this d j) then None
    else Some "0".
Proof.
  intros Hhigh Ht. unfold fixNode, normaliseNode. rewrite Hhigh.
  assert (forall i r, negStep i r t = t) as Hneg.
  { intros i r. apply negStep_not_minus_one. intros ->. by vm_compute in Ht. }
  assert ((if fixNegativeTabindex this
           then negStep (isInteractiveElement this d j)
                  (shouldBeRemovedFromTabOrder d j) t
           else t) = t) as ->
    by (destruct (fixNegativeTabindex this); [apply Hneg | done]).
  unfold highStep. rewrite Ht.
  assert ((if ensureInteractiveElements this
           then coverStep (isInteractiveElement this d j) (isHidden d j)
                  (Some "0")
           else Some "0") = Some "0") as ->.
  { unfold coverStep. destruct (ensureInteractiveElements this); [|done].
    by rewrite andb_false_r. }
  rewrite after_prune by reflexivity.
  by destruct (prunable d j), (boundAsTrigger this d j).
Qed.

Lemma fixNode_covered (this : TabindexManager) (d : list element)
    (j : nat) (t : option string) :
  fixNegativeTabindex this = true ->
  ensureInteractiveElements this = true ->
  isInteractiveElement this d j = true ->
  shouldBeRemovedFromTabOrder d j = false ->
  t = None \/ t = Some "-1" \/ ge0 (parseAttr t) = true ->
  prunable d j = false \/ boundAsTrigger this d j = true ->
  ge0 (parseAttr (fixNode this d j t)) = true.
Proof.
  intros Hneg Hcover Hi Hr Ht Hkeep. unfold fixNode, normaliseNode.
  rewrite Hneg, Hcover, Hi, Hr, (shouldBeRemoved_false_isHidden d j Hr).
  match goal with
  | |- context [pruneStep ?g ?r ?k ?t3] =>
      assert (ge0 (parseAttr t3) = true) as H3; [|rewrite (after_prune this d j t3 H3)]
  end.
  { destruct Ht as [-> | [-> | Ht]].
    - by destruct (fixHighTabindex this).
    - by destruct (fixHighTabindex this).
    - rewrite negStep_not_minus_one
        by (intros ->; by vm_compute in Ht).
      assert (ge0 (parseAttr (if fixHighTabindex this then highStep t else t))
              = true) as H2.
      { destruct (fixHighTabindex this); [|done]. unfold highStep.
        by destruct (gt0 (parseAttr t)). }
      unfold coverStep.
      by destruct (if fixHighTabindex this then highStep t else t). }
  destruct Hkeep as [-> | ->]; [done|]. by destruct (prunable d j).
Qed.

(** C2, as the claim states it, fails at the scanned root: the passes
    go over [container.querySelectorAll], which lists what is inside
    the container and never the container.  A body with tabindex "5"
    has tabindex 5 after [fix], while the link inside it is rewritten
    to "0". *)
Lemma positive_root_counterexample :
  document_querySelector positiveRoot (container defaultManager) = Some 0
  /\ getAttribute (dom (fix_ defaultManager (freshPage positiveRoot None))) 0
       "tabindex" = Some "5"
  /\ tabindexOf (dom (fix_ defaultManager (freshPage positiveRoot None))) 0
     = Some 5%Z
  /\ gt0 (tabindexOf (dom (fix_ defaultManager (freshPage positiveRoot None)))
            0) = true
  /\ getAttribute (dom (fix_ defaultManager (freshPage positiveRoot None))) 1
       "tabindex" = Some "0".
Proof. repeat split; vm_compute; reflexivity. Qed.

(** C2, amended to the nodes inside the container.  With the collapse
    of high values switched on (the default):
    - [fixHighTabindexValues], on any document, writes "0" over the
      tabindex of every node inside the container whose integer value
      is greater than 0, and changes no other attribute of any node, no
      tag, class, style or parent, and adds or removes no node;
    - [fix] adds or removes no node either, and after it no node inside
      the container carries a tabindex whose integer value is greater
      than 0;
    - a node inside the container whose value was greater than 0 has
      tabindex "0" after [fix], unless the prune pass removed that "0"
      again (generic tag, no role, no inline key handler) and no trigger
      loop gave it back;
    - a node that is not inside the container, the container itself
      among them, keeps the tabindex it had. *)
Theorem fix_no_positive_tabindex (options : managerOptions) (s : page)
    (c : nat) :
  fixHighTabindex (new_TabindexManager options) = true ->
  document_querySelector (dom s) (container (new_TabindexManager options))
    = Some c ->
  (forall d j a,
     getAttribute (fixHighTabindexValues d c) j a =
     if bool_decide (a = "tabindex") && isDescendant d c j
        && gt0 (tabindexOf d j)
     then Some "0" else getAttribute d j a)
  /\ (forall d, frame d (fixHighTabindexValues d c))
  /\ frame (dom s) (dom (fix_ (new_TabindexManager options) s))
  /\ (forall j,
        isDescendant (dom s) c j = true ->
        gt0 (tabindexOf (dom (fix_ (new_TabindexManager options) s)) j)
        = false
        /\ (gt0 (tabindexOf (dom s) j) = true ->
            getAttribute (dom (fix_ (new_TabindexManager options) s)) j
              "tabindex"
            = if prunable (dom s) j
                 && negb (boundAsTrigger (new_TabindexManager options)
                            (dom s) j)
              then None else Some "0"))
  /\ (forall j,
        isDescendant (dom s) c j = false ->
        getAttribute (dom (fix_ (new_TabindexManager options) s)) j "tabindex"
        = getAttribute (dom s) j "tabindex").
Proof.
  intros Hhigh Hc.
  split; [intros d j a; apply fixHigh_attribute|].
  split; [intros d; apply fixHigh_frame|].
  rewrite (dom_fix _ s c Hc).
  split; [apply fixDom_frame|].
  split; intros j Hd.
  - rewrite !tabindexOf_parseAttr, fixDom_tabindex by reflexivity. rewrite Hd.
    split; [by apply fixNode_no_positive|].
    by apply fixNode_positive.
  - rewrite fixDom_tabindex by reflexivity. by rewrite Hd.
Qed.

Lemma fix_no_positive_tabindex_witness :
  fixHighTabindex (new_TabindexManager noOptions) = true
  /\ document_querySelector (dom (freshPage linkAndDiv None))
       (container (new_TabindexManager noOptions)) = Some 0
  /\ isDescendant (dom (freshPage linkAndDiv None)) 0 3 = true
  /\ gt0 (tabindexOf (dom (freshPage linkAndDiv None)) 3) = true
  /\ gt0 (tabindexOf
            (dom (fix_ (new_TabindexManager noOptions)
                    (freshPage linkAndDiv None))) 3) = false
  /\ getAttribute
       (dom (fix_ (new_TabindexManager noOptions)
               (freshPage linkAndDiv None))) 3 "tabindex" = Some "0".
Proof.
  assert (fixHighTabindex (new_TabindexManager noOptions) = true) as Hhigh
    by reflexivity.
  assert (document_querySelector (dom (freshPage linkAndDiv None))
            (container (new_TabindexManager noOptions)) = Some 0) as Hc
    by (vm_compute; reflexivity).
  assert (isDescendant (dom (freshPage linkAndDiv None)) 0 3 = true) as Hd
    by (vm_compute; reflexivity).
  assert (gt0 (tabindexOf (dom (freshPage linkAndDiv None)) 3) = true) as Ht
    by (vm_compute; reflexivity).
  destruct (fix_no_positive_tabindex noOptions (freshPage linkAndDiv None) 0
              Hhigh Hc) as (_ & _ & _ & Hin & _).
  destruct (Hin 3 Hd) as [Hno Hzero].
  do 4 (split; [assumption|]). split; [exact Hno|].
  rewrite (Hzero Ht). vm_compute; reflexivity.
Defined.

(** ** Coverage of the interactive set *)

(** C3, as the claim states it, fails: a visible button inside the
    container whose tabindex is "-2" matches the interactive set, is
    neither hidden nor aria-hidden, and still has tabindex -2 after
    [fix]; the repair pass selects [tabindex="-1"] only. *)
Lemma coverage_counterexample :
  isDescendant negativeTwo 0 1 = true
  /\ isInteractiveElement defaultManager negativeTwo 1 = true
  /\ shouldBeRemovedFromTabOrder negativeTwo 1 = false
  /\ hasAttribute negativeTwo 1 "aria-hidden" = false
  /\ tabindexOf (dom (fix_ defaultManager (freshPage negativeTwo None))) 1
     = Some (-2)%Z.
Proof. repeat split; vm_compute; reflexivity. Qed.

(** C3, amended.  With the repair of negative values and the coverage
    pass switched on (the defaults), take a node inside the container
    that matches the interactive set and is not hidden (itself or by an
    ancestor) and not aria-hidden, whose tabindex before the scan is
    absent, exactly "-1" or an integer that is 0 or more.  If the prune
    pass does not apply to it (it is not a generic tag without role and
    inline key handler) or a trigger loop binds it, then after [fix] it
    carries a tabindex whose integer value is 0 or more. *)
Theorem fix_covers_interactive (options : managerOptions) (s : page)
    (c j : nat) :
  fixNegativeTabindex (new_TabindexManager options) = true ->
  ensureInteractiveElements (new_TabindexManager options) = true ->
  document_querySelector (dom s) (container (new_TabindexManager options))
    = Some c ->
  isDescendant (dom s) c j = true ->
  isInteractiveElement (new_TabindexManager options) (dom s) j = true ->
  shouldBeRemovedFromTabOrder (dom s) j = false ->
  getAttribute (dom s) j "tabindex" = None
  \/ getAttribute (dom s) j "tabindex" = Some "-1"
  \/ ge0 (tabindexOf (dom s) j) = true ->
  prunable (dom s) j = false
  \/ boundAsTrigger (new_TabindexManager options) (dom s) j = true ->
  ge0 (tabindexOf (dom (fix_ (new_TabindexManager options) s)) j) = true.
Proof.
  intros Hneg Hcover Hc Hd Hi Hr Ht Hkeep.
  rewrite tabindexOf_parseAttr, (dom_fix _ s c Hc).
  rewrite fixDom_tabindex by reflexivity. rewrite Hd.
  by apply fixNode_covered.
Qed.

Lemma fix_covers_interactive_witness :
  fixNegativeTabindex (new_TabindexManager noOptions) = true
  /\ ensureInteractiveElements (new_TabindexManager noOptions) = true
  /\ document_querySelector (dom (freshPage linkAndDiv None))
       (container (new_TabindexManager noOptions)) = Some 0
  /\ isDescendant (dom (freshPage linkAndDiv None)) 0 1 = true
  /\ isInteractiveElement (new_TabindexManager noOptions)
       (dom (freshPage linkAndDiv None)) 1 = true
  /\ shouldBeRemovedFromTabOrder (dom (freshPage linkAndDiv None)) 1 = false
  /\ getAttribute (dom (freshPage linkAndDiv None)) 1 "tabindex" = Some "-1"
  /\ prunable (dom (freshPage linkAndDiv None)) 1 = false
  /\ ge0 (tabindexOf
            (dom (fix_ (new_TabindexManager noOptions)
                    (freshPage linkAndDiv None))) 1) = true.
Proof.
  do 8 (split; [vm_compute; reflexivity|]).
  apply (fix_covers_interactive noOptions (freshPage linkAndDiv None) 0 1);
    try (vm_compute; reflexivity).
  - right. left. vm_compute; reflexivity.
  - left. vm_compute; reflexivity.
Defined.

(** ** Coverage undone by the prune pass *)

Lemma normalise_afterCoverage (this : TabindexManager) (d : list element)
    (c : nat) :
  normalise this d c
  = validateNonInteractiveElements this (afterCoverage this d c) c.
Proof. reflexivity. Qed.

Lemma afterCoverage_frame (this : TabindexManager) (d : list element)
    (c : nat) :
  frame d (afterCoverage this d c).
Proof.
  unfold afterCoverage.
  eapply frame_trans;
    [|destruct (ensureInteractiveElements this);
      [apply makeTabbable_frame | apply frame_refl]].
  eapply frame_trans;
    [|destruct (fixHighTabindex this);
      [apply fixHigh_frame | apply frame_refl]].
  destruct (fixNegativeTabindex this);
    [apply fixNegative_frame | apply frame_refl].
Qed.

Lemma frame_prunable (d d' : list element) (j : nat) :
  frame d d' -> prunable d j = prunable d' j.
Proof.
  intros F. unfold prunable.
  rewrite (frame_genericTags d d' j F),
    (frame_hasKeyboardEventListeners d d' F),
    (frame_hasAttribute d d' F j "role") by by_evaluation.
  reflexivity.
Qed.

Lemma cover_then_prune (this : TabindexManager) (d : list element)
    (c j : nat) :
  forallb cleanSelector (interactiveSelectors this) = true ->
  nonInteractiveWithTabindex this = defaultNonInteractiveWithTabindex ->
  ensureInteractiveElements this = true ->
  isDescendant d c j = true ->
  isInteractiveElement this d j = true ->
  isHidden d j = false ->
  prunable d j = true ->
  getAttribute d j "tabindex" = None ->
  getAttribute (afterCoverage this d c) j "tabindex" = Some "0"
  /\ getAttribute (normalise this d c) j "tabindex" = None.
Proof.
  intros Hclean Hdefault Hcover Hd Hi Hh Hp Ht. split.
  - unfold afterCoverage. rewrite Hcover.
    set (d1 := if fixNegativeTabindex this
               then fixNegativeTabindexValues this d c else d).
    set (d2 := if fixHighTabindex this
               then fixHighTabindexValues d1 c else d1).
    assert (frame d d1) as F1.
    { subst d1. destruct (fixNegativeTabindex this);
        [apply fixNegative_frame | apply frame_refl]. }
    assert (frame d d2) as F2.
    { eapply frame_trans; [exact F1|]. subst d2.
      destruct (fixHighTabindex this);
        [apply fixHigh_frame | apply frame_refl]. }
    assert (getAttribute d1 j "tabindex" = None) as E1.
    { subst d1. destruct (fixNegativeTabindex this); [|done].
      rewrite fixNegative_tabindex by done. by rewrite Hd, Ht. }
    assert (getAttribute d2 j "tabindex" = None) as E2.
    { subst d2. destruct (fixHighTabindex this); [|done].
      rewrite fixHigh_tabindex, <- (frame_isDescendant d d1 F1), Hd.
      by rewrite E1. }
    rewrite makeTabbable_tabindex.
    rewrite <- (frame_isDescendant d d2 F2), Hd,
      <- (frame_isInteractiveElement this Hclean d d2 j F2), Hi,
      <- (frame_isHidden d d2 j F2), Hh, E2.
    reflexivity.
  - rewrite normalise_tabindex by done. rewrite Hd.
    unfold normaliseNode. rewrite Hcover, Hi, Hh, Ht.
    unfold prunable in Hp.
    apply andb_prop in Hp as [[Hg Hrole]%andb_prop Hkeys].
    apply negb_true_iff in Hrole, Hkeys. rewrite Hg, Hrole, Hkeys.
    by destruct (fixNegativeTabindex this), (fixHighTabindex this),
      (shouldBeRemovedFromTabOrder d j).
Qed.

(** X30. A scan of a settled page is not quiet.  Take a page on which
    every dialog of the container is armed or hidden (as after one
    scan), the coverage pass switched on, and inside the container a
    node that matches the interactive set, is not hidden, has no
    tabindex, and is one of the generic tags without role and inline
    key handler (a div with class accordion-header, say).  Then every
    further [processDynamicContent], the first and each one after it,
    is the four passes alone; the coverage pass writes tabindex "0" on
    the node and the prune pass removes it again, so the node has no
    tabindex before and after each scan; and a record for the tabindex
    attribute, which the observer of the container watches, makes its
    callback scan once more. *)
Theorem settled_scan_sets_and_removes (options : managerOptions) (c j : nat)
    (s : page) (n : nat) :
  ensureInteractiveElements (new_TabindexManager options) = true ->
  (forall x, x ∈ querySelectorAll (dom s) c dialogSelectors ->
             armedOrHidden (dom s) x = true) ->
  isDescendant (dom s) c j = true ->
  isInteractiveElement (new_TabindexManager options) (dom s) j = true ->
  isHidden (dom s) j = false ->
  prunable (dom s) j = true ->
  getAttribute (dom s) j "tabindex" = None ->
  let this := new_TabindexManager options in
  let sn := Nat.iter n (processDynamicContent this c) s in
  dom (processDynamicContent this c sn)
  = validateNonInteractiveElements this (afterCoverage this (dom sn) c) c
  /\ getAttribute (dom sn) j "tabindex" = None
  /\ getAttribute (afterCoverage this (dom sn) c) j "tabindex" = Some "0"
  /\ getAttribute (dom (processDynamicContent this c sn)) j "tabindex" = None
  /\ observerCallback this c [attributeRecord "tabindex"] sn
     = processDynamicContent this c sn.
Proof.
  intros Hcover Hall Hd Hi Hh Hp Ht this sn.
  assert ((forall x, x ∈ querySelectorAll (dom sn) c dialogSelectors ->
                     armedOrHidden (dom sn) x = true)
          /\ frame (dom s) (dom sn)
          /\ getAttribute (dom sn) j "tabindex" = None) as (Hn & F & Htn).
  { subst sn. induction n as [|n IH]; [by split; [|split; [apply frame_refl|]]|].
    rewrite Nat.iter_succ. destruct IH as (Hn & F & Htn).
    set (sn := Nat.iter n (processDynamicContent this c) s) in *.
    destruct (detect_after_scan this c sn Hn) as [E Hn'].
    rewrite E. cbn [dom withDom]. split; [exact Hn'|].
    split; [eapply frame_trans; [exact F | apply normalise_frame]|].
    apply cover_then_prune; try done.
    - by rewrite <- (frame_isDescendant _ _ F).
    - by rewrite <- (frame_isInteractiveElement this eq_refl _ _ j F).
    - by rewrite <- (frame_isHidden _ _ j F).
    - by rewrite <- (frame_prunable _ _ j F). }
  destruct (detect_after_scan this c sn Hn) as [E _].
  destruct (cover_then_prune this (dom sn) c j) as [H0 Hnone]; try done.
  { by rewrite <- (frame_isDescendant _ _ F). }
  { by rewrite <- (frame_isInteractiveElement this eq_refl _ _ j F). }
  { by rewrite <- (frame_isHidden _ _ j F). }
  { by rewrite <- (frame_prunable _ _ j F). }
  rewrite E. cbn [dom withDom].
  split; [apply normalise_afterCoverage|].
  split; [exact Htn|]. split; [exact H0|]. split; [exact Hnone|].
  rewrite observerCallback_relevant. cbn [existsb]. by rewrite E.
Qed.

Lemma settled_scan_sets_and_removes_witness :
  ensureInteractiveElements (new_TabindexManager noOptions) = true
  /\ querySelectorAll (dom (freshPage accordion None)) 0 dialogSelectors = []
  /\ isDescendant (dom (freshPage accordion None)) 0 1 = true
  /\ isInteractiveElement (new_TabindexManager noOptions)
       (dom (freshPage accordion None)) 1 = true
  /\ isHidden (dom (freshPage accordion None)) 1 = false
  /\ prunable (dom (freshPage accordion None)) 1 = true
  /\ getAttribute (dom (freshPage accordion None)) 1 "tabindex" = None
  /\ getAttribute
       (afterCoverage (new_TabindexManager noOptions)
          (dom (Nat.iter 3 (processDynamicContent (new_TabindexManager noOptions) 0)
                  (freshPage accordion None))) 0) 1 "tabindex" = Some "0"
  /\ getAttribute
       (dom (processDynamicContent (new_TabindexManager noOptions) 0
               (Nat.iter 3 (processDynamicContent (new_TabindexManager noOptions) 0)
                  (freshPage accordion None)))) 1 "tabindex" = None.
Proof.
  do 7 (split; [vm_compute; reflexivity|]).
  destruct (settled_scan_sets_and_removes noOptions 0 1
              (freshPage accordion None) 3) as (_ & _ & H0 & Hnone & _);
    try (vm_compute; reflexivity).
  - intros x Hx. vm_compute in Hx. by apply elem_of_nil in Hx.
  - split; [exact H0 | exact Hnone].
Defined.

(** X31. What is left of the coverage on a generic tag.  With the
    coverage pass switched on, a node inside the container that matches
    the interactive set by its class only (a generic tag without role
    and inline key handler that no trigger loop binds), is not hidden
    and has no tabindex gets tabindex "0" from the coverage pass and
    has none when [fix] returns; the same node with a tabindex of 0 or
    more loses it. *)
Theorem fix_uncovers_generic_interactive (options : managerOptions) (s : page)
    (c j : nat) :
  ensureInteractiveElements (new_TabindexManager options) = true ->
  document_querySelector (dom s) (container (new_TabindexManager options))
    = Some c ->
  isDescendant (dom s) c j = true ->
  isInteractiveElement (new_TabindexManager options) (dom s) j = true ->
  isHidden (dom s) j = false ->
  prunable (dom s) j = true ->
  boundAsTrigger (new_TabindexManager options) (dom s) j = false ->
  (getAttribute (dom s) j "tabindex" = None ->
   getAttribute (afterCoverage (new_TabindexManager options) (dom s) c) j
     "tabindex" = Some "0"
   /\ getAttribute (dom (fix_ (new_TabindexManager options) s)) j "tabindex"
      = None)
  /\ (ge0 (tabindexOf (dom s) j) = true ->
      getAttribute (dom (fix_ (new_TabindexManager options) s)) j "tabindex"
      = None).
Proof.
  intros Hcover Hc Hd Hi Hh Hp Hb.
  rewrite (dom_fix _ s c Hc). rewrite fixDom_tabindex by reflexivity.
  rewrite Hd. unfold fixNode.
  assert (forall t3,
            ge0 (parseAttr t3) = true ->
            (let t :=
               pruneStep (matches (dom s) j genericTags)
                 (hasAttribute (dom s) j "role")
                 (hasKeyboardEventListeners (dom s) j) t3 in
             if handleTooltipsAndDropdowns (new_TabindexManager options)
             then triggerStep (matches (dom s) j dropdownTriggerSelectors)
                    (triggerStep (matches (dom s) j tooltipTriggerSelectors) t)
             else t) = None) as Hend.
  { intros t3 H3. cbv zeta. rewrite (after_prune _ _ _ _ H3). by rewrite Hp, Hb. }
  split.
  - intros Ht. split; [by apply cover_then_prune|].
    unfold normaliseNode. cbv zeta. rewrite Ht, Hcover, Hi, Hh.
    assert (forall b r, negStep b r None = None) as -> by done.
    assert ((if fixNegativeTabindex (new_TabindexManager options)
             then @None string else None) = None) as ->
      by (by destruct (fixNegativeTabindex _)).
    assert ((if fixHighTabindex (new_TabindexManager options)
             then highStep None else None) = None) as ->
      by (by destruct (fixHighTabindex _)).
    by apply (Hend (Some "0")).
  - intros Ht. rewrite tabindexOf_parseAttr in Ht.
    unfold normaliseNode. cbv zeta. apply Hend.
    rewrite Hcover.
    set (t := getAttribute (dom s) j "tabindex") in *.
    set (t1 := if fixNegativeTabindex (new_TabindexManager options)
               then negStep
                      (isInteractiveElement (new_TabindexManager options)
                         (dom s) j)
                      (shouldBeRemovedFromTabOrder (dom s) j) t
               else t).
    assert (ge0 (parseAttr t1) = true) as H1.
    { subst t1. destruct (fixNegativeTabindex _); [|done]. unfold negStep.
      by destruct (_ && _). }
    assert (ge0 (parseAttr
              (if fixHighTabindex (new_TabindexManager options)
               then highStep t1 else t1)) = true) as H2.
    { destruct (fixHighTabindex _); [|done]. unfold highStep.
      by destruct (gt0 (parseAttr t1)). }
    unfold coverStep.
    destruct (if fixHighTabindex _ then highStep t1 else t1) eqn:E2;
      [|done].
    rewrite andb_false_r. exact H2.
Qed.

Lemma fix_uncovers_generic_interactive_witness :
  ensureInteractiveElements (new_TabindexManager noOptions) = true
  /\ document_querySelector (dom (freshPage accordion None))
       (container (new_TabindexManager noOptions)) = Some 0
  /\ isDescendant (dom (freshPage accordion None)) 0 1 = true
  /\ isInteractiveElement (new_TabindexManager noOptions)
       (dom (freshPage accordion None)) 1 = true
  /\ isHidden (dom (freshPage accordion None)) 1 = false
  /\ prunable (dom (freshPage accordion None)) 1 = true
  /\ boundAsTrigger (new_TabindexManager noOptions)
       (dom (freshPage accordion None)) 1 = false
  /\ getAttribute (dom (freshPage accordion None)) 1 "tabindex" = None
  /\ getAttribute
       (afterCoverage (new_TabindexManager noOptions)
          (dom (freshPage accordion None)) 0) 1 "tabindex" = Some "0"
  /\ getAttribute
       (dom (fix_ (new_TabindexManager noOptions) (freshPage accordion None)))
       1 "tabindex" = None.
Proof.
  do 8 (split; [vm_compute; reflexivity|]).
  apply (fix_uncovers_generic_interactive noOptions
           (freshPage accordion None) 0 1);
    vm_compute; reflexivity.
Defined.
